(** * Investment portfolio analyzer: valuation, diversification, rebalancing
      and risk metrics

    A shallow embedding of [src/portfolio_analyzer.py] (class
    [PortfolioAnalyzer]) and [src/risk_calculator.py] (class
    [RiskCalculator]), with the properties their specification states.

    Numbers.  The Python code is duck-typed over its numbers; what flows
    through it at run time are NumPy [float64] values (prices come from
    [data['Close'].iloc[-1]]), for which every arithmetic operation is total:
    a division by zero yields an infinity or a NaN, never an exception.  The
    embedding is therefore written once over an arithmetic interface
    ([Arith]) and used at two instances:
    - [binary64]: IEEE-754 double precision, through the Standard Library's
      executable specification [SpecFloat] (what the interpreter computes);
    - [xreal]: exact rationals extended with the two infinities and NaN,
      following the IEEE rules for the special values (the idealisation the
      specification calls "exact arithmetic").

    Containers.  A Python [dict] keeps insertion order and has unique keys;
    it is an association list here ([dict]), and the order is the order of
    iteration of the source's loops.

    Effects.  Methods of [PortfolioAnalyzer] run in a state-and-exception
    monad over the analyzer object; the state survives an exception, as the
    Python object does.

    Further code.  [fetch_portfolio_data] of [src/data_fetcher.py],
    [calculate_max_drawdown] of [src/risk_calculator.py] and the class
    [PortfolioChatAssistant] of [src/portfolio_chat.py] are embedded as
    well; the network (yfinance, the chat service) is a parameter of the
    model.  Not embedded: [calculate_beta], [calculate_var] and
    [calculate_portfolio_metrics], whose results depend on pandas' index
    alignment and on NumPy's percentile interpolation, and the dashboard. *)

From Stdlib Require Import ZArith List String Bool Lia.
From Stdlib Require Import QArith Qcanon.
From Stdlib Require Import Floats.SpecFloat.
From Stdlib Require Import Sorting.Sorted Sorting.Permutation.
Import ListNotations.

Set Implicit Arguments.

(** ** The arithmetic interface *)

Class Arith (F : Type) : Type := {
  (** [float(z)] for a Python [int] *)
  of_Z : Z -> F;
  (** the literal with decimal mantissa [m] and [k] digits after the point:
      [of_decimal 40 2] is [0.40] *)
  of_decimal : Z -> nat -> F;
  fadd : F -> F -> F;
  fsub : F -> F -> F;
  fmul : F -> F -> F;
  fdiv : F -> F -> F;
  (** [numpy.sqrt] *)
  fsqrt : F -> F;
  (** [x < y] and [x == y]; both false as soon as one side is NaN *)
  fltb : F -> F -> bool;
  feqb : F -> F -> bool;
  (** [x != x], the test behind [dropna] *)
  is_nan : F -> bool;
  (** Python's [round(x, 1)] *)
  round1 : F -> F;
  (** the NaN that pandas puts where a value is missing *)
  fnan : F;
  (** what the code relies on, in whatever arithmetic it runs: [fnan] is a
      NaN, and no order comparison with a NaN holds *)
  is_nan_fnan : is_nan fnan = true;
  fltb_nan_l : forall x y, is_nan x = true -> fltb x y = false;
  fltb_nan_r : forall x y, is_nan y = true -> fltb x y = false
}.

Section PythonNumbers.
Context {F : Type} `{Arith F}.

(** Truth value of a number in [if x:] is [x != 0]; NaN is true. *)
Definition truthy (x : F) : bool := negb (feqb x (of_Z 0)).

(** [x > y] is [y < x]. *)
Definition fgtb (x y : F) : bool := fltb y x.

(** [min(a, b)] returns [a] unless [b < a]; [max(a, b)] returns [a] unless
    [b > a]. *)
Definition py_min (a b : F) : F := if fltb b a then b else a.
Definition py_max (a b : F) : F := if fgtb b a then b else a.

(** [sum(xs)]: starts from the int [0] and adds from the left. *)
Definition py_sum (xs : list F) : F := fold_left fadd xs (of_Z 0).

(** [sorted(xs, reverse=True)], as a stable insertion into a descending
    list.  On lists without NaN this is the sorted list; with NaN the order
    produced by CPython's own algorithm is unspecified as well. *)
Fixpoint insert_desc (x : F) (l : list F) : list F :=
  match l with
  | [] => [x]
  | y :: t => if fltb x y then y :: insert_desc x t else x :: l
  end.

Definition sorted_desc (xs : list F) : list F :=
  fold_right insert_desc [] xs.
End PythonNumbers.

(** [10 ^ k], the denominator of a decimal literal with [k] digits after the
    point. *)
Fixpoint pow10 (k : nat) : positive :=
  match k with
  | O => 1
  | S k' => 10 * pow10 k'
  end.

(** Round half to even of [n / d], [d > 0], to an integer. *)
Definition round_half_even (n : Z) (d : Z) : Z :=
  let q := (n / d)%Z in
  let r := (n mod d)%Z in
  match (2 * r ?= d)%Z with
  | Lt => q
  | Gt => (q + 1)%Z
  | Eq => if Z.even q then q else (q + 1)%Z
  end.

(** ** Instance 1: IEEE-754 binary64 *)

Module B64.
Definition prec : Z := 53.
Definition emax : Z := 1024.

Definition binary64 : Type := spec_float.

Definition of_Z (z : Z) : binary64 := binary_normalize prec emax z 0 false.

(** The double nearest to [n / d] (ties to even), for [d > 0]. *)
Definition of_ratio (n : Z) (d : positive) : binary64 :=
  match n with
  | Z0 => S754_zero false
  | Zpos p =>
      let '(q, e, l) := SFdiv_core_binary prec emax (Zpos p) 0 (Zpos d) 0 in
      binary_round_aux prec emax false q e l
  | Zneg p =>
      let '(q, e, l) := SFdiv_core_binary prec emax (Zpos p) 0 (Zpos d) 0 in
      binary_round_aux prec emax true q e l
  end.

Definition of_decimal (m : Z) (k : nat) : binary64 := of_ratio m (pow10 k).

Definition is_nan (x : binary64) : bool :=
  match x with S754_nan => true | _ => false end.

(** CPython's [round(x, 1)] on a float: the exact value of [x] is rounded
    half-to-even to one decimal, and the double nearest to that decimal is
    returned; NaN, the infinities, the zeros and the integer-valued doubles
    come back unchanged. *)
Definition round1 (x : binary64) : binary64 :=
  match x with
  | S754_finite s m e =>
      match e with
      | Zneg ne =>
          let t := round_half_even (10 * Zpos m) (Z.pow 2 (Zpos ne)) in
          if Z.eqb t 0 then S754_zero s
          else of_ratio (if s then Z.opp t else t) 10
      | _ => x
      end
  | _ => x
  end.
End B64.

#[export] Instance binary64_arith : Arith B64.binary64 := {
  of_Z := B64.of_Z;
  of_decimal := B64.of_decimal;
  fadd := SFadd B64.prec B64.emax;
  fsub := SFsub B64.prec B64.emax;
  fmul := SFmul B64.prec B64.emax;
  fdiv := SFdiv B64.prec B64.emax;
  fsqrt := SFsqrt B64.prec B64.emax;
  fltb := SFltb;
  feqb := SFeqb;
  is_nan := B64.is_nan;
  round1 := B64.round1;
  fnan := S754_nan;
  is_nan_fnan := eq_refl;
  fltb_nan_l :=
    ltac:(intros [] y Hx; try discriminate Hx; destruct y; reflexivity);
  fltb_nan_r :=
    ltac:(intros x [] Hy; try discriminate Hy; destruct x; reflexivity)
}.

(** ** Instance 2: exact rationals with the IEEE special values *)

Module XR.
Inductive xreal : Type :=
| XFin (q : Qc)
| XInf (neg : bool)
| XNaN.

Definition Qc_of_Z (z : Z) : Qc := Q2Qc (inject_Z z).

Definition Qc_ltb (a b : Qc) : bool := negb (Qle_bool b a).
Definition Qc_eqb (a b : Qc) : bool := Qeq_bool a b.

Definition of_Z (z : Z) : xreal := XFin (Qc_of_Z z).

Definition of_decimal (m : Z) (k : nat) : xreal := XFin (Q2Qc (m # pow10 k)).

Definition is_nan (x : xreal) : bool :=
  match x with XNaN => true | _ => false end.

(** [math.isfinite] *)
Definition finite (x : xreal) : bool :=
  match x with XFin _ => true | _ => false end.

Definition opp (x : xreal) : xreal :=
  match x with
  | XFin q => XFin (- q)
  | XInf s => XInf (negb s)
  | XNaN => XNaN
  end.

Definition add (x y : xreal) : xreal :=
  match x, y with
  | XNaN, _ | _, XNaN => XNaN
  | XInf sx, XInf sy => if Bool.eqb sx sy then x else XNaN
  | XInf _, XFin _ => x
  | XFin _, XInf _ => y
  | XFin a, XFin b => XFin (a + b)
  end.

Definition sub (x y : xreal) : xreal := add x (opp y).

(** Sign of a finite value: [true] when negative. *)
Definition negative (q : Qc) : bool := Qc_ltb q (Qc_of_Z 0).
Definition is_zero (q : Qc) : bool := Qc_eqb q (Qc_of_Z 0).

Definition mul (x y : xreal) : xreal :=
  match x, y with
  | XNaN, _ | _, XNaN => XNaN
  | XInf sx, XInf sy => XInf (xorb sx sy)
  | XInf sx, XFin b => if is_zero b then XNaN else XInf (xorb sx (negative b))
  | XFin a, XInf sy => if is_zero a then XNaN else XInf (xorb (negative a) sy)
  | XFin a, XFin b => XFin (a * b)
  end.

(** There is one zero here, taken as the positive one: a non-zero value
    divided by zero is the infinity of the sign of the numerator. *)
Definition div (x y : xreal) : xreal :=
  match x, y with
  | XNaN, _ | _, XNaN => XNaN
  | XInf _, XInf _ => XNaN
  | XInf sx, XFin b => XInf (xorb sx (negative b))
  | XFin _, XInf _ => XFin (Qc_of_Z 0)
  | XFin a, XFin b =>
      if is_zero b then (if is_zero a then XNaN else XInf (negative a))
      else XFin (a / b)
  end.

(** The square root is exact on the squares of rationals; elsewhere it is
    the rational below it on a grid of step [2^-64] relative to the
    denominator. *)
Definition sqrt_Qc (q : Qc) : Qc :=
  let n := Qnum q in
  let d := Qden q in
  Q2Qc (Z.sqrt (n * Zpos d * 4 ^ 64) # (d * 2 ^ 64)).

Definition sqrt (x : xreal) : xreal :=
  match x with
  | XNaN => XNaN
  | XInf s => if s then XNaN else x
  | XFin q => if negative q then XNaN else XFin (sqrt_Qc q)
  end.

Definition ltb (x y : xreal) : bool :=
  match x, y with
  | XNaN, _ | _, XNaN => false
  | XInf sx, XInf sy => andb sx (negb sy)
  | XInf sx, XFin _ => sx
  | XFin _, XInf sy => negb sy
  | XFin a, XFin b => Qc_ltb a b
  end.

Definition eqb (x y : xreal) : bool :=
  match x, y with
  | XNaN, _ | _, XNaN => false
  | XInf sx, XInf sy => Bool.eqb sx sy
  | XFin a, XFin b => Qc_eqb a b
  | _, _ => false
  end.

(** [round(x, 1)]: half-to-even on the tenths. *)
Definition round1 (x : xreal) : xreal :=
  match x with
  | XFin q =>
      XFin (Q2Qc (round_half_even (10 * Qnum q) (Zpos (Qden q)) # 10))
  | _ => x
  end.
End XR.

#[export] Instance xreal_arith : Arith XR.xreal := {
  of_Z := XR.of_Z;
  of_decimal := XR.of_decimal;
  fadd := XR.add;
  fsub := XR.sub;
  fmul := XR.mul;
  fdiv := XR.div;
  fsqrt := XR.sqrt;
  fltb := XR.ltb;
  feqb := XR.eqb;
  is_nan := XR.is_nan;
  round1 := XR.round1;
  fnan := XR.XNaN;
  is_nan_fnan := eq_refl;
  fltb_nan_l :=
    ltac:(intros [] y Hx; try discriminate Hx; destruct y; reflexivity);
  fltb_nan_r :=
    ltac:(intros x [] Hy; try discriminate Hy; destruct x; reflexivity)
}.

(** ** The Python run time: exceptions and dictionaries *)

Inductive exn : Type :=
| KeyError (key : string)
| AttributeError (msg : string)
| ZeroDivisionError
| ValueError (msg : string).

Inductive result (A : Type) : Type :=
| Ok (a : A)
| Raise (e : exn).

Arguments Ok {A} a.
Arguments Raise {A} e.

Definition result_bind {A B : Type} (r : result A) (k : A -> result B)
  : result B :=
  match r with
  | Ok a => k a
  | Raise e => Raise e
  end.

Definition returned {A : Type} (r : result A) : bool :=
  match r with Ok _ => true | Raise _ => false end.

(** An insertion-ordered dictionary with string keys. *)
Definition dict (V : Type) : Type := list (string * V).

Section Dict.
Context {V : Type}.

(** [d.get(k)] *)
Fixpoint dict_get (k : string) (d : dict V) : option V :=
  match d with
  | [] => None
  | (k', v) :: t => if String.eqb k k' then Some v else dict_get k t
  end.

(** [d[k] = v]: an existing key keeps its place. *)
Fixpoint dict_set (k : string) (v : V) (d : dict V) : dict V :=
  match d with
  | [] => [(k, v)]
  | (k', v') :: t =>
      if String.eqb k k' then (k, v) :: t else (k', v') :: dict_set k v t
  end.

(** [d[k]] *)
Definition dict_item (k : string) (d : dict V) : result V :=
  match dict_get k d with
  | Some v => Ok v
  | None => Raise (KeyError k)
  end.

Definition dict_keys (d : dict V) : list string := map fst d.
Definition dict_values (d : dict V) : list V := map snd d.

(** [k in d] *)
Definition dict_mem (k : string) (d : dict V) : bool :=
  match dict_get k d with Some _ => true | None => false end.

(** What every Python dictionary satisfies: no key twice. *)
Definition dict_wf (d : dict V) : Prop := NoDup (dict_keys d).
End Dict.

(** ** pandas: the [Series] methods the calculator calls

    A [Series] of floats is the list of its values in index order.  pandas is
    a library, not code of this repository; the definitions below follow its
    documented behaviour ([pandas.core.nanops] for the reductions, which skip
    NaN and use [ddof = 1]). *)

Section Pandas.
Context {F : Type} `{Arith F}.

(** [s.pct_change()] is [s / s.shift(1) - 1]: NaN in the first row, then
    the relative change from the row before.  (Older pandas first fills
    NaN prices forward; on a series without NaN that changes nothing.) *)
Fixpoint pct_change_from (prev : F) (s : list F) : list F :=
  match s with
  | [] => []
  | p :: t => fsub (fdiv p prev) (of_Z 1) :: pct_change_from p t
  end.

Definition pct_change (s : list F) : list F :=
  match s with
  | [] => []
  | p :: t => fnan :: pct_change_from p t
  end.

(** [s.dropna()] *)
Definition dropna (s : list F) : list F :=
  filter (fun x => negb (is_nan x)) s.

Definition count (s : list F) : Z := Z.of_nat (List.length (dropna s)).

(** [numpy.add.reduce] on a float array, as pandas calls it through
    [values.sum()]: NumPy's pairwise summation.  Fewer than 8 values are
    added from the left.  Up to 128 values are added in eight interleaved
    accumulators ([r[j] += a[i + j]]), which are then combined as
    [((r0 + r1) + (r2 + r3)) + ((r4 + r5) + (r6 + r7))], and the values left
    over after the last block of eight are added to that, from the left.
    More than 128 values are split at [n/2] rounded down to a multiple
    of 8, and the sums of the two parts are added. *)
Definition add8 (r block : list F) : list F :=
  map (fun '(x, y) => fadd x y) (combine r block).

Fixpoint sum_blocks (blocks : nat) (r a : list F) : list F * list F :=
  match blocks with
  | O => (r, a)
  | S k => sum_blocks k (add8 r (firstn 8 a)) (skipn 8 a)
  end.

Definition sum8 (r : list F) : F :=
  match r with
  | [r0; r1; r2; r3; r4; r5; r6; r7] =>
      fadd (fadd (fadd r0 r1) (fadd r2 r3))
           (fadd (fadd r4 r5) (fadd r6 r7))
  | _ => fnan
  end.

(** The recursion halves the array; [fuel] bounds its depth, and the length
    of the array is always enough ([pairwise_sum_fuel_enough]). *)
Fixpoint pairwise_sum_fuel (fuel : nat) (a : list F) : F :=
  let n := List.length a in
  if (n <? 8)%nat then
    match a with
    | [] => of_Z 0
    | x :: t => fold_left fadd t x
    end
  else if (n <=? 128)%nat then
    let '(r, rest) := sum_blocks (n / 8 - 1) (firstn 8 a) (skipn 8 a) in
    fold_left fadd rest (sum8 r)
  else
    match fuel with
    | O => fnan
    | S fuel =>
        let n2 := (n / 2)%nat in
        let n2 := (n2 - n2 mod 8)%nat in
        fadd (pairwise_sum_fuel fuel (firstn n2 a))
             (pairwise_sum_fuel fuel (skipn n2 a))
    end.

Definition pairwise_sum (a : list F) : F :=
  pairwise_sum_fuel (List.length a) a.

(** The reduction starts from the identity [0.0] of the addition. *)
Definition np_sum (a : list F) : F := fadd (of_Z 0) (pairwise_sum a).

(** The values with [0.0] in the place of every NaN, as pandas' [nanops]
    prepares them before it sums. *)
Definition fill_zero (s : list F) : list F :=
  map (fun x => if is_nan x then of_Z 0 else x) s.

(** [s.mean()] ([nanops.nanmean]): the sum of the filled values over the
    number of values that are not NaN; NaN on a series without values. *)
Definition series_mean (s : list F) : F :=
  if (count s =? 0)%Z then fnan
  else fdiv (np_sum (fill_zero s)) (of_Z (count s)).

(** [s.var()] with [ddof = 1] ([nanops.nanvar]): NaN on fewer than two
    values; otherwise the squares [(avg - x) ** 2], taken as 0 in the rows
    that are NaN, are summed and divided by [count - 1]. *)
Definition series_var (s : list F) : F :=
  if (count s <=? 1)%Z then fnan
  else
    let avg := fdiv (np_sum (fill_zero s)) (of_Z (count s)) in
    let sqr :=
      map (fun x =>
             if is_nan x then of_Z 0
             else let d := fsub avg x in fmul d d) s in
    fdiv (np_sum sqr) (of_Z (count s - 1)).

(** [s.std()] *)
Definition series_std (s : list F) : F := fsqrt (series_var s).
End Pandas.

(** ** [risk_calculator.py]: class [RiskCalculator] *)

Module RiskCalculator.
Section Methods.
Context {F : Type} `{Arith F}.

Record t : Type := { risk_free_rate : F }.

(** [RiskCalculator(risk_free_rate=0.04)] *)
Definition init (rate : option F) : t :=
  {| risk_free_rate :=
       match rate with Some r => r | None => of_decimal 4 2 end |}.

Definition calculate_returns (self : t) (prices : list F)
  : result (list F) :=
  Ok (dropna (pct_change prices)).

Definition calculate_volatility (self : t) (returns : list F)
    (annualize : bool) : result F :=
  let volatility := series_std returns in
  let volatility :=
    if annualize then fmul volatility (fsqrt (of_Z 252)) else volatility in
  Ok volatility.

Definition calculate_sharpe_ratio (self : t) (returns : list F)
    (annualize : bool) : result F :=
  let mean_return := series_mean returns in
  let std_return := series_std returns in
  let mean_return :=
    if annualize then fmul mean_return (of_Z 252) else mean_return in
  let std_return :=
    if annualize then fmul std_return (fsqrt (of_Z 252)) else std_return in
  let sharpe := fdiv (fsub mean_return (risk_free_rate self)) std_return in
  Ok sharpe.

Definition assess_risk_level (self : t) (sharpe_ratio volatility : F)
  : result string :=
  if andb (fgtb sharpe_ratio (of_decimal 10 1))
          (fltb volatility (of_decimal 20 2))
  then Ok "Low Risk"%string
  else if andb (fgtb sharpe_ratio (of_decimal 5 1))
               (fltb volatility (of_decimal 30 2))
  then Ok "Medium Risk"%string
  else Ok "High Risk"%string.
End Methods.

Arguments t F : clear implicits.
End RiskCalculator.

(** ** [data_fetcher.py]: class [StockDataFetcher]

    The fetcher's methods are network calls that catch every exception and
    answer [None] instead.  One fetcher value is one snapshot of the market:
    what each call answers for each ticker. *)

Module StockDataFetcher.
Section Fetcher.
Context {F : Type}.
Variable DataFrame : Type.

(** The dictionary [get_stock_info] returns; all five keys are always
    present. *)
Record stock_info : Type := {
  name : string;
  sector : string;
  industry : string;
  market_cap : F;
  pe_ratio : F
}.

Record t : Type := {
  fetch_stock_data : string -> string -> option DataFrame;
  get_current_price : string -> option F;
  get_stock_info : string -> option stock_info
}.

(** [fetch_portfolio_data(tickers, period)] *)
Definition fetch_portfolio_data (self : t) (tickers : list string)
    (period : string) : dict DataFrame :=
  fold_left
    (fun portfolio_data ticker =>
       match fetch_stock_data self ticker period with
       | Some data => dict_set ticker data portfolio_data
       | None => portfolio_data
       end)
    tickers [].
End Fetcher.

Arguments stock_info F : clear implicits.
Arguments t F DataFrame : clear implicits.
End StockDataFetcher.

(** ** [portfolio_analyzer.py]: class [PortfolioAnalyzer] *)

Module PortfolioAnalyzer.
Section Methods.
Context {F : Type} `{Arith F}.

(** [pandas.DataFrame], of which the analyzer only stores and forwards
    values. *)
Variable DataFrame : Type.

(** One entry of [self.holdings]. *)
Record holding : Type := {
  h_shares : F;
  h_purchase_price : option F
}.

(** One entry of [positions]; [None] is Python's [None], and [p_weight] is
    the key added by the second loop of [calculate_portfolio_value]. *)
Record position : Type := {
  p_shares : F;
  p_current_price : F;
  p_position_value : F;
  p_purchase_price : option F;
  p_gain_loss : option F;
  p_gain_loss_pct : option F;
  p_weight : option F
}.

Record valuation : Type := {
  total_value : F;
  positions : dict position
}.

Record diversification : Type := {
  num_holdings : nat;
  num_sectors : nat;
  sector_allocation : dict F;
  top_position_weight : F;
  top_3_weight : F;
  diversification_score : F
}.

Record metrics : Type := {
  annual_return : F;
  volatility : F;
  sharpe_ratio : F;
  var_95 : F;
  max_drawdown : F;
  risk_level : option string
}.

Record recommendation : Type := {
  current_weight : F;
  target_weight : F;
  difference_pct : F;
  dollar_difference : F;
  shares_to_trade : F;
  action : string
}.

Record report : Type := {
  r_valuation : valuation;
  r_diversification : diversification;
  r_risk_metrics : option metrics
}.

(** [RiskCalculator.calculate_portfolio_metrics(portfolio_data, weights)]
    works on the data frames (alignment on dates, percentile, running
    maximum).  It receives the frames and a freshly built dictionary of
    weights, has no access to the analyzer, and is left open here: every
    statement below holds whatever it returns or raises. *)
Variable calculate_portfolio_metrics :
  RiskCalculator.t F -> dict DataFrame -> dict F -> result metrics.

(** The analyzer object. *)
Record t : Type := {
  fetcher : StockDataFetcher.t F DataFrame;
  calculator : RiskCalculator.t F;
  portfolio_data : dict DataFrame;
  holdings : dict holding
}.

(** A method: from the object to an outcome and the object afterwards. *)
Definition M (A : Type) : Type := t -> result A * t.

Definition ret {A : Type} (a : A) : M A := fun self => (Ok a, self).

Definition bind {A B : Type} (m : M A) (k : A -> M B) : M B :=
  fun self =>
    match m self with
    | (Ok a, self') => k a self'
    | (Raise e, self') => (Raise e, self')
    end.

Definition lift {A : Type} (r : result A) : M A := fun self => (r, self).

Definition get_self : M t := fun self => (Ok self, self).

(** [PortfolioAnalyzer(risk_free_rate=0.04)] *)
Definition init (f : StockDataFetcher.t F DataFrame) (rate : option F) : t :=
  {| fetcher := f;
     calculator := RiskCalculator.init rate;
     portfolio_data := [];
     holdings := [] |}.
Notation "x <- m ;; k" := (bind m (fun x => k))
  (at level 61, m at next level, right associativity).

(** [add_holding(ticker, shares, purchase_price=None)] *)
Definition add_holding (ticker : string) (shares : F)
    (purchase_price : option F) : M unit :=
  fun self =>
    (Ok tt,
     {| fetcher := fetcher self;
        calculator := calculator self;
        portfolio_data := portfolio_data self;
        holdings :=
          dict_set ticker
            {| h_shares := shares; h_purchase_price := purchase_price |}
            (holdings self) |}).

(** [load_portfolio_data(period='1y')] *)
Definition load_portfolio_data (period : string) : M bool :=
  fun self =>
    let tickers := dict_keys (holdings self) in
    match tickers with
    | [] => (Ok false, self)
    | _ :: _ =>
        let data :=
          StockDataFetcher.fetch_portfolio_data (fetcher self) tickers period
        in
        (Ok (0 <? List.length data)%nat,
         {| fetcher := fetcher self;
            calculator := calculator self;
            portfolio_data := data;
            holdings := holdings self |})
    end.

(** The [if x:] test on a value that may be [None]. *)
Definition truthy_opt (x : option F) : bool :=
  match x with
  | Some v => truthy v
  | None => false
  end.

(** What the first loop of [calculate_portfolio_value] computes for one
    holding whose price resolved: the position value, the gain and loss when
    a purchase price was given, and the [positions] entry, still without its
    weight. *)
Definition position_entry (current_price : F) (holding : holding)
  : position :=
  let position_value := fmul current_price (h_shares holding) in
  let gain :=
    match h_purchase_price holding with
    | Some purchase_price =>
        if truthy purchase_price then
          (Some (fmul (fsub current_price purchase_price)
                      (h_shares holding)),
           Some (fmul (fsub (fdiv current_price purchase_price) (of_Z 1))
                      (of_Z 100)))
        else (None, None)
    | None => (None, None)
    end in
  {| p_shares := h_shares holding;
     p_current_price := current_price;
     p_position_value := position_value;
     p_purchase_price := h_purchase_price holding;
     p_gain_loss := fst gain;
     p_gain_loss_pct := snd gain;
     p_weight := None |}.

(** The body of that loop, for one [(ticker, holding)] of
    [self.holdings.items()]. *)
Definition value_holding (f : StockDataFetcher.t F DataFrame)
    (acc : F * dict position) (item : string * holding)
  : F * dict position :=
  let '(total_value, positions) := acc in
  let '(ticker, holding) := item in
  match StockDataFetcher.get_current_price f ticker with
  | Some current_price =>
      if truthy current_price then
        let entry := position_entry current_price holding in
        (fadd total_value (p_position_value entry),
         dict_set ticker entry positions)
      else acc
  | None => acc
  end.

(** [positions[ticker]['weight'] = ...] *)
Definition set_weight (w : F) (p : position) : position :=
  {| p_shares := p_shares p;
     p_current_price := p_current_price p;
     p_position_value := p_position_value p;
     p_purchase_price := p_purchase_price p;
     p_gain_loss := p_gain_loss p;
     p_gain_loss_pct := p_gain_loss_pct p;
     p_weight := Some w |}.

(** [calculate_portfolio_value()] *)
Definition calculate_portfolio_value : M valuation :=
  fun self =>
    let '(total_value, positions) :=
      fold_left (value_holding (fetcher self)) (holdings self) (of_Z 0, [])
    in
    let positions :=
      map (fun '(ticker, p) =>
             (ticker, set_weight (fdiv (p_position_value p) total_value) p))
          positions in
    (Ok {| total_value := total_value; positions := positions |}, self).

(** A [for] loop whose body may raise: the first exception ends it. *)
Fixpoint for_each {A B : Type} (body : A -> B -> result A) (xs : list B)
    (acc : A) : result A :=
  match xs with
  | [] => Ok acc
  | x :: rest => result_bind (body acc x) (for_each body rest)
  end.

(** [{k: v for ...}] from the pairs in the order they are produced. *)
Definition dict_of {V : Type} (items : list (string * V)) : dict V :=
  fold_left (fun d kv => dict_set (fst kv) (snd kv) d) items [].

(** [pos['weight']] *)
Definition weight_of (p : position) : result F :=
  match p_weight p with
  | Some w => Ok w
  | None => Raise (KeyError "weight")
  end.

(** [[p['weight'] for p in positions.values()]] *)
Definition weights_list (positions : dict position) : result (list F) :=
  for_each (fun acc p => result_bind (weight_of p) (fun w => Ok (acc ++ [w])))
           (dict_values positions) [].

(** [{ticker: pos['weight'] for ticker, pos in positions.items()}] *)
Definition weights_dict (positions : dict position) : result (dict F) :=
  for_each (fun acc item =>
              result_bind (weight_of (snd item))
                (fun w => Ok (dict_set (fst item) w acc)))
           positions [].

(** The body of the sector loop of [analyze_diversification]. *)
Definition add_sector (f : StockDataFetcher.t F DataFrame)
    (positions : dict position) (sectors : dict F) (ticker : string)
  : result (dict F) :=
  match StockDataFetcher.get_stock_info f ticker with
  | Some info =>
      let sector := StockDataFetcher.sector info in
      result_bind (dict_item ticker positions) (fun p =>
        let position_value := p_position_value p in
        match dict_get sector sectors with
        | Some v => Ok (dict_set sector (fadd v position_value) sectors)
        | None => Ok (dict_set sector position_value sectors)
        end)
  | None => Ok sectors
  end.

(** The score of [analyze_diversification] from the four quantities it
    depends on. *)
Definition score_of (num_holdings num_sectors : nat)
    (top_position top_3 : F) : F :=
  let diversification_score :=
    py_min (of_Z 10)
      (fadd (fmul (of_Z (Z.of_nat num_holdings)) (of_decimal 5 1))
            (fmul (of_Z (Z.of_nat num_sectors)) (of_decimal 15 1))) in
  let diversification_score :=
    if fgtb top_position (of_decimal 40 2)
    then fsub diversification_score (of_Z 2)
    else diversification_score in
  let diversification_score :=
    if fgtb top_3 (of_decimal 70 2)
    then fsub diversification_score (of_Z 1)
    else diversification_score in
  let diversification_score := py_max (of_Z 0) diversification_score in
  round1 diversification_score.

(** [analyze_diversification()] *)
Definition analyze_diversification : M diversification :=
  portfolio_value <- calculate_portfolio_value ;;
  self <- get_self ;;
  sectors <- lift (for_each (add_sector (fetcher self)
                               (positions portfolio_value))
                            (dict_keys (holdings self)) []) ;;
  let total_value := total_value portfolio_value in
  let sector_weights :=
    map (fun '(sector, value) => (sector, fdiv value total_value)) sectors in
  let num_holdings := List.length (holdings self) in
  let num_sectors := List.length sectors in
  weights <- lift (weights_list (positions portfolio_value)) ;;
  let sorted_weights := sorted_desc weights in
  let top_position :=
    match sorted_weights with
    | w :: _ => w
    | [] => of_Z 0
    end in
  let top_3 :=
    if (3 <=? List.length sorted_weights)%nat
    then py_sum (firstn 3 sorted_weights)
    else py_sum sorted_weights in
  ret {| num_holdings := num_holdings;
         num_sectors := num_sectors;
         sector_allocation := sector_weights;
         top_position_weight := top_position;
         top_3_weight := top_3;
         diversification_score :=
           score_of num_holdings num_sectors top_position top_3 |}.

(** [calculate_risk_metrics()]; the outer [None] is Python's. *)
Definition calculate_risk_metrics : M (option metrics) :=
  self <- get_self ;;
  match portfolio_data self with
  | [] => ret None
  | _ :: _ =>
      portfolio_value <- calculate_portfolio_value ;;
      weights <- lift (weights_dict (positions portfolio_value)) ;;
      m <- lift (calculate_portfolio_metrics (calculator self)
                   (portfolio_data self) weights) ;;
      level <- lift (RiskCalculator.assess_risk_level (calculator self)
                       (sharpe_ratio m) (volatility m)) ;;
      ret (Some {| annual_return := annual_return m;
                   volatility := volatility m;
                   sharpe_ratio := sharpe_ratio m;
                   var_95 := var_95 m;
                   max_drawdown := max_drawdown m;
                   risk_level := Some level |})
  end.

(** [d.get(k, 0)] *)
Definition get_or_0 (k : string) (d : dict F) : F :=
  match dict_get k d with
  | Some v => v
  | None => of_Z 0
  end.

(** ['BUY' if shares_to_trade > 0 else 'SELL' if shares_to_trade < 0 else
    'HOLD'] *)
Definition action_of (shares_to_trade : F) : string :=
  if fgtb shares_to_trade (of_Z 0) then "BUY"
  else if fltb shares_to_trade (of_Z 0) then "SELL"
  else "HOLD".

(** The body of the loop of [get_rebalancing_recommendations]. *)
Definition recommend (portfolio_value : valuation)
    (current_weights target_weights : dict F)
    (recommendations : dict recommendation) (ticker : string)
  : result (dict recommendation) :=
  let current_weight := get_or_0 ticker current_weights in
  let target_weight := get_or_0 ticker target_weights in
  let difference := fsub target_weight current_weight in
  let dollar_difference := fmul difference (total_value portfolio_value) in
  result_bind (dict_item ticker (positions portfolio_value)) (fun p =>
    let current_price := p_current_price p in
    let shares_to_trade := fdiv dollar_difference current_price in
    Ok (dict_set ticker
          {| current_weight := current_weight;
             target_weight := target_weight;
             difference_pct := difference;
             dollar_difference := dollar_difference;
             shares_to_trade := shares_to_trade;
             action := action_of shares_to_trade |}
          recommendations)).

(** [get_rebalancing_recommendations(target_weights=None)] *)
Definition get_rebalancing_recommendations (target_weights : option (dict F))
  : M (dict recommendation) :=
  portfolio_value <- calculate_portfolio_value ;;
  current_weights <- lift (weights_dict (positions portfolio_value)) ;;
  self <- get_self ;;
  let target_weights :=
    match target_weights with
    | Some tw => tw
    | None =>
        dict_of
          (map (fun ticker =>
                  (ticker,
                   fdiv (of_Z 1)
                        (of_Z (Z.of_nat (List.length (holdings self))))))
               (dict_keys (holdings self)))
    end in
  lift (for_each (recommend portfolio_value current_weights target_weights)
                 (dict_keys (holdings self)) []).

(** [generate_portfolio_report()] *)
Definition generate_portfolio_report : M report :=
  valuation <- calculate_portfolio_value ;;
  diversification <- analyze_diversification ;;
  risk_metrics <- calculate_risk_metrics ;;
  ret {| r_valuation := valuation;
         r_diversification := diversification;
         r_risk_metrics := risk_metrics |}.
End Methods.

Arguments holding F : clear implicits.
Arguments position F : clear implicits.
Arguments valuation F : clear implicits.
Arguments diversification F : clear implicits.
Arguments metrics F : clear implicits.
Arguments recommendation F : clear implicits.
Arguments report F : clear implicits.
Arguments t F DataFrame : clear implicits.
Arguments M F DataFrame A : clear implicits.
End PortfolioAnalyzer.

(** * Vocabulary of the statements *)

Section Vocabulary.
Context {F : Type} `{Arith F}.

(** The relative change at row [i] of a price series, as the source computes
    it. *)
Definition change_at (prices : list F) (i : nat) : F :=
  fsub (fdiv (nth i prices fnan) (nth (i - 1) prices fnan)) (of_Z 1).

Variable DataFrame : Type.

(** A ticker is resolved when [get_current_price] answers a price that passes
    the source's test [if current_price:]. *)
Definition resolved (f : StockDataFetcher.t F DataFrame) (ticker : string)
  : bool :=
  PortfolioAnalyzer.truthy_opt (StockDataFetcher.get_current_price f ticker).

(** The holdings whose ticker is resolved, in their order. *)
Definition resolved_holdings (f : StockDataFetcher.t F DataFrame)
    (hs : dict (PortfolioAnalyzer.holding F))
  : dict (PortfolioAnalyzer.holding F) :=
  filter (fun item => resolved f (fst item)) hs.


Definition with_fetcher (self : PortfolioAnalyzer.t F DataFrame)
    (f : StockDataFetcher.t F DataFrame)
  : PortfolioAnalyzer.t F DataFrame :=
  {| PortfolioAnalyzer.fetcher := f;
     PortfolioAnalyzer.calculator := PortfolioAnalyzer.calculator self;
     PortfolioAnalyzer.portfolio_data := PortfolioAnalyzer.portfolio_data self;
     PortfolioAnalyzer.holdings := PortfolioAnalyzer.holdings self |}.

(** A method that leaves the analyzer object as it found it, whether it
    returns or raises. *)
Definition read_only {A : Type} (m : PortfolioAnalyzer.M F DataFrame A)
  : Prop :=
  forall self, snd (m self) = self.

(** The [positions] entries of the resolved holdings, in the order of the
    holdings and before the weights are set. *)
Definition entries (f : StockDataFetcher.t F DataFrame)
    (hs : dict (PortfolioAnalyzer.holding F))
  : dict (PortfolioAnalyzer.position F) :=
  flat_map
    (fun item =>
       match StockDataFetcher.get_current_price f (fst item) with
       | Some current_price =>
           if truthy current_price
           then [(fst item,
                  PortfolioAnalyzer.position_entry current_price (snd item))]
           else []
       | None => []
       end)
    hs.

(** The position values of some entries, and their sum as the loop
    accumulates it, from the int [0]. *)
Definition values_of (es : dict (PortfolioAnalyzer.position F)) : list F :=
  map (fun e => PortfolioAnalyzer.p_position_value (snd e)) es.

Definition total_of (es : dict (PortfolioAnalyzer.position F)) : F :=
  py_sum (values_of es).

(** The valuation in closed form: the entries of the resolved holdings, each
    with its value over the total as weight. *)
Definition valuation_of (f : StockDataFetcher.t F DataFrame)
    (hs : dict (PortfolioAnalyzer.holding F))
  : PortfolioAnalyzer.valuation F :=
  let es := entries f hs in
  {| PortfolioAnalyzer.total_value := total_of es;
     PortfolioAnalyzer.positions :=
       map (fun '(ticker, p) =>
              (ticker,
               PortfolioAnalyzer.set_weight
                 (fdiv (PortfolioAnalyzer.p_position_value p) (total_of es))
                 p))
           es |}.

(** The first ticker of the holdings, in their order, that is not resolved. *)
Definition first_unresolved (f : StockDataFetcher.t F DataFrame)
    (hs : dict (PortfolioAnalyzer.holding F)) : option string :=
  find (fun ticker => negb (resolved f ticker)) (dict_keys hs).


(** The fetcher that answers [None] wherever [f] answers the price 0.0. *)
Definition drop_zero_prices (f : StockDataFetcher.t F DataFrame)
  : StockDataFetcher.t F DataFrame :=
  {| StockDataFetcher.fetch_stock_data := StockDataFetcher.fetch_stock_data f;
     StockDataFetcher.get_current_price := fun ticker =>
       match StockDataFetcher.get_current_price f ticker with
       | Some p => if feqb p (of_Z 0) then None else Some p
       | None => None
       end;
     StockDataFetcher.get_stock_info := StockDataFetcher.get_stock_info f |}.

(** A purchase price that is absent, or present and equal to 0.0. *)
Definition no_purchase_price (h : PortfolioAnalyzer.holding F) : Prop :=
  PortfolioAnalyzer.h_purchase_price h = None \/
  exists pp, PortfolioAnalyzer.h_purchase_price h = Some pp /\
             feqb pp (of_Z 0) = true.
End Vocabulary.

(** ** Concrete inputs and the specification's formulas *)

(** The calculator with the default risk-free rate, on doubles. *)
Definition calc64 : RiskCalculator.t B64.binary64 := RiskCalculator.init None.

(** A market snapshot: AAPL trades at 160, MSFT at 290, JPM at 200, JNJ at
    100, PENNY is quoted at 0.0, and nothing else resolves; sector
    information exists for the first four only.  No price history is used: a
    data frame is [unit]. *)
Definition sample_price (ticker : string) : option Z :=
  if String.eqb ticker "AAPL" then Some 160%Z
  else if String.eqb ticker "MSFT" then Some 290%Z
  else if String.eqb ticker "JPM" then Some 200%Z
  else if String.eqb ticker "JNJ" then Some 100%Z
  else if String.eqb ticker "PENNY" then Some 0%Z
  else None.

Definition sample_sector (ticker : string) : option string :=
  if String.eqb ticker "AAPL" then Some "Technology"%string
  else if String.eqb ticker "MSFT" then Some "Technology"%string
  else if String.eqb ticker "JPM" then Some "Financial Services"%string
  else if String.eqb ticker "JNJ" then Some "Healthcare"%string
  else None.

Definition sample_market {F : Type} `{Arith F} : StockDataFetcher.t F unit :=
  {| StockDataFetcher.fetch_stock_data := fun _ _ => None;
     StockDataFetcher.get_current_price := fun ticker =>
       option_map of_Z (sample_price ticker);
     StockDataFetcher.get_stock_info := fun ticker =>
       option_map
         (fun sector =>
            {| StockDataFetcher.name := ticker;
               StockDataFetcher.sector := sector;
               StockDataFetcher.industry := "N/A";
               StockDataFetcher.market_cap := of_Z 0;
               StockDataFetcher.pe_ratio := of_Z 0 |})
         (sample_sector ticker) |}.

(** The analyzer after [add_holding(ticker, shares, purchase_price)] for each
    triple in turn, on a fresh [PortfolioAnalyzer()]. *)
Definition sample_portfolio {F : Type} `{Arith F}
    (hs : list (string * Z * option Z)) : PortfolioAnalyzer.t F unit :=
  fold_left
    (fun self '(ticker, shares, purchase_price) =>
       snd (PortfolioAnalyzer.add_holding ticker (of_Z shares)
              (option_map of_Z purchase_price) self))
    hs (PortfolioAnalyzer.init sample_market None).

(** The same, on doubles and in exact arithmetic. *)
Definition portfolio64 (hs : list (string * Z * option Z))
  : PortfolioAnalyzer.t B64.binary64 unit := sample_portfolio hs.

Definition portfolioX (hs : list (string * Z * option Z))
  : PortfolioAnalyzer.t XR.xreal unit := sample_portfolio hs.

(** The sum of rationals. *)
Definition Qc_sum (qs : list Qc) : Qc := fold_right Qcplus (XR.Qc_of_Z 0) qs.

(** The diversification score as the specification words it, on rationals:
    the base score [min(10, numHoldings*0.5 + numSectors*1.5)], minus 2 when
    the top position weighs more than 0.40, minus a further 1 when the top
    three weigh more than 0.70, floored at 0 and rounded to one decimal. *)
Definition Qc_min (a b : Qc) : Qc := if Qle_bool a b then a else b.
Definition Qc_max (a b : Qc) : Qc := if Qle_bool a b then b else a.

Definition Qc_decimal (m : Z) (k : nat) : Qc := Q2Qc (m # pow10 k).

Definition Qc_round1 (q : Qc) : Qc :=
  Q2Qc (round_half_even (10 * Qnum q) (Zpos (Qden q)) # 10).

Definition spec_score (numHoldings numSectors : nat)
    (topOver40 top3Over70 : bool) : Qc :=
  let base :=
    Qc_min (XR.Qc_of_Z 10)
      (XR.Qc_of_Z (Z.of_nat numHoldings) * Qc_decimal 5 1
       + XR.Qc_of_Z (Z.of_nat numSectors) * Qc_decimal 15 1)%Qc in
  let penalty :=
    ((if topOver40 then XR.Qc_of_Z 2 else XR.Qc_of_Z 0)
     + (if top3Over70 then XR.Qc_of_Z 1 else XR.Qc_of_Z 0))%Qc in
  Qc_round1 (Qc_max (XR.Qc_of_Z 0) (base - penalty)%Qc).

(** The double nearest to a rational, a weight on one side of a threshold,
    and the check that on doubles the score of the source is the double
    nearest to the score of the specification and is not outside [0, 10],
    for every count of holdings and of sectors up to a bound. *)
Definition b64_of_Qc (q : Qc) : B64.binary64 := B64.of_ratio (Qnum q) (Qden q).

Definition flag64 (over : bool) : B64.binary64 :=
  if over then B64.of_Z 1 else B64.of_Z 0.

Definition b64_same (x y : B64.binary64) : bool :=
  match x, y with
  | S754_zero s, S754_zero s' => Bool.eqb s s'
  | S754_infinity s, S754_infinity s' => Bool.eqb s s'
  | S754_nan, S754_nan => true
  | S754_finite s m e, S754_finite s' m' e' =>
      Bool.eqb s s' && Pos.eqb m m' && Z.eqb e e'
  | _, _ => false
  end.

Definition score64_ok (n s : nat) (over40 over70 : bool) : bool :=
  let score :=
    PortfolioAnalyzer.score_of n s (flag64 over40) (flag64 over70) in
  b64_same score (b64_of_Qc (spec_score n s over40 over70))
  && negb (fltb score (of_Z 0)) && negb (fltb (of_Z 10) score).

Definition scores64_ok (bound : nat) : bool :=
  forallb
    (fun n =>
       forallb
         (fun s =>
            forallb
              (fun over40 =>
                 forallb (fun over70 => score64_ok n s over40 over70)
                         [true; false])
              [true; false])
         (seq 0 (S bound)))
    (seq 0 (S bound)).

(** A finite non-zero double. *)
Definition b64_finite (x : B64.binary64) : Prop :=
  exists s m e, x = S754_finite s m e.

(** * Vocabulary of the further properties *)

Section MoreVocabulary.
Context {F : Type} `{Arith F}.
Variable DataFrame : Type.

(** [x is not None] *)
Definition is_some {A : Type} (x : option A) : bool :=
  match x with Some _ => true | None => false end.

(** The first held ticker, in the order of the holdings, for which the
    fetcher has sector information but no resolved price. *)
Definition first_unpriced_sector (f : StockDataFetcher.t F DataFrame)
    (hs : dict (PortfolioAnalyzer.holding F)) : option string :=
  find (fun ticker =>
          is_some (StockDataFetcher.get_stock_info f ticker)
          && negb (resolved f ticker))
       (dict_keys hs).
(** The sample market with a price history, here [tt], for every ticker it
    prices. *)
Definition sample_market_history : StockDataFetcher.t F unit :=
  {| StockDataFetcher.fetch_stock_data := fun ticker _ =>
       option_map (fun _ => tt) (sample_price ticker);
     StockDataFetcher.get_current_price :=
       StockDataFetcher.get_current_price sample_market;
     StockDataFetcher.get_stock_info :=
       StockDataFetcher.get_stock_info sample_market |}.
(** The sample market when the fetcher also has sector information for
    PENNY, whose price 0.0 does not resolve. *)
Definition sample_market_penny : StockDataFetcher.t F unit :=
  {| StockDataFetcher.fetch_stock_data :=
       StockDataFetcher.fetch_stock_data sample_market_history;
     StockDataFetcher.get_current_price :=
       StockDataFetcher.get_current_price sample_market;
     StockDataFetcher.get_stock_info := fun ticker =>
       if String.eqb ticker "PENNY"
       then Some {| StockDataFetcher.name := ticker;
                    StockDataFetcher.sector := "Shell Companies";
                    StockDataFetcher.industry := "N/A";
                    StockDataFetcher.market_cap := of_Z 0;
                    StockDataFetcher.pe_ratio := of_Z 0 |}
       else StockDataFetcher.get_stock_info sample_market ticker |}.

(** A calculator back end that fails, as the source does on an empty frame
    of returns. *)
Definition failing_metrics :
  RiskCalculator.t F -> dict unit -> dict F
  -> result (PortfolioAnalyzer.metrics F) :=
  fun _ _ _ => Raise (AttributeError "mean").

(** The weights [calculate_risk_metrics] and
    [get_rebalancing_recommendations] read off the valuation: one per
    resolved holding, its value over the total. *)
Definition current_weights_of (f : StockDataFetcher.t F DataFrame)
    (hs : dict (PortfolioAnalyzer.holding F)) : dict F :=
  map (fun '(ticker, p) =>
         (ticker,
          fdiv (PortfolioAnalyzer.p_position_value p)
               (total_of (entries f hs))))
      (entries f hs).

(** [metrics['risk_level'] = ...] *)
Definition with_risk_level (m : PortfolioAnalyzer.metrics F)
    (level : string) : PortfolioAnalyzer.metrics F :=
  {| PortfolioAnalyzer.annual_return := PortfolioAnalyzer.annual_return m;
     PortfolioAnalyzer.volatility := PortfolioAnalyzer.volatility m;
     PortfolioAnalyzer.sharpe_ratio := PortfolioAnalyzer.sharpe_ratio m;
     PortfolioAnalyzer.var_95 := PortfolioAnalyzer.var_95 m;
     PortfolioAnalyzer.max_drawdown := PortfolioAnalyzer.max_drawdown m;
     PortfolioAnalyzer.risk_level := Some level |}.
(** A calculator back end that answers the same metrics whatever the data. *)
Definition constant_metrics :
  RiskCalculator.t F -> dict unit -> dict F
  -> result (PortfolioAnalyzer.metrics F) :=
  fun _ _ _ =>
    Ok {| PortfolioAnalyzer.annual_return := of_decimal 12 2;
          PortfolioAnalyzer.volatility := of_decimal 10 2;
          PortfolioAnalyzer.sharpe_ratio := of_Z 2;
          PortfolioAnalyzer.var_95 := of_decimal 2 2;
          PortfolioAnalyzer.max_drawdown := of_decimal 5 2;
          PortfolioAnalyzer.risk_level := None |}.

(** The target weights [get_rebalancing_recommendations] works with: the
    given ones, or [1/len(holdings)] for every held ticker. *)
Definition target_weights_of (target_weights : option (dict F))
    (hs : dict (PortfolioAnalyzer.holding F)) : dict F :=
  match target_weights with
  | Some tw => tw
  | None =>
      PortfolioAnalyzer.dict_of
        (map (fun ticker =>
                (ticker,
                 fdiv (of_Z 1) (of_Z (Z.of_nat (List.length hs)))))
             (dict_keys hs))
  end.

(** The current price recorded in a valuation for a ticker. *)
Definition position_price (v : PortfolioAnalyzer.valuation F)
    (ticker : string) : F :=
  match dict_get ticker (PortfolioAnalyzer.positions v) with
  | Some p => PortfolioAnalyzer.p_current_price p
  | None => fnan
  end.

(** The recommendation for a ticker that has a position. *)
Definition recommendation_of (v : PortfolioAnalyzer.valuation F)
    (current_weights target_weights : dict F) (ticker : string)
  : PortfolioAnalyzer.recommendation F :=
  let current_weight := PortfolioAnalyzer.get_or_0 ticker current_weights in
  let target_weight := PortfolioAnalyzer.get_or_0 ticker target_weights in
  let difference := fsub target_weight current_weight in
  let dollar_difference :=
    fmul difference (PortfolioAnalyzer.total_value v) in
  let shares_to_trade := fdiv dollar_difference (position_price v ticker) in
  {| PortfolioAnalyzer.current_weight := current_weight;
     PortfolioAnalyzer.target_weight := target_weight;
     PortfolioAnalyzer.difference_pct := difference;
     PortfolioAnalyzer.dollar_difference := dollar_difference;
     PortfolioAnalyzer.shares_to_trade := shares_to_trade;
     PortfolioAnalyzer.action := PortfolioAnalyzer.action_of shares_to_trade |}.

(** All recommendations when every held ticker resolves. *)
Definition recommendations_of (f : StockDataFetcher.t F DataFrame)
    (target_weights : option (dict F))
    (hs : dict (PortfolioAnalyzer.holding F))
  : dict (PortfolioAnalyzer.recommendation F) :=
  map (fun ticker =>
         (ticker,
          recommendation_of (valuation_of f hs) (current_weights_of f hs)
            (target_weights_of target_weights hs) ticker))
      (dict_keys hs).
End MoreVocabulary.

(** ** [risk_calculator.py]: [calculate_max_drawdown] *)

(** The method needs one more operation on numbers, [abs]. *)
Class ArithAbs (F : Type) `{Arith F} : Type := {
  fabs : F -> F;
  (** the absolute value of a NaN is a NaN, and of nothing else *)
  is_nan_fabs : forall x, is_nan (fabs x) = is_nan x
}.

Arguments ArithAbs F {_}.

#[export] Instance binary64_abs : ArithAbs B64.binary64 := {
  fabs := SFabs;
  is_nan_fabs := ltac:(intros []; reflexivity)
}.

Definition Qc_abs (q : Qc) : Qc := if XR.negative q then (- q)%Qc else q.

Definition xreal_abs (x : XR.xreal) : XR.xreal :=
  match x with
  | XR.XFin q => XR.XFin (Qc_abs q)
  | XR.XInf _ => XR.XInf false
  | XR.XNaN => XR.XNaN
  end.

#[export] Instance xreal_arith_abs : ArithAbs XR.xreal := {
  fabs := xreal_abs;
  is_nan_fabs := ltac:(intros []; reflexivity)
}.

Section MaxDrawdown.
Context {F : Type} `{ArithAbs F}.

(** [numpy.cumprod]: the running products, the first one being the first
    value itself. *)
Fixpoint np_cumprod_from (acc : F) (vals : list F) : list F :=
  match vals with
  | [] => []
  | v :: t => let acc := fmul acc v in acc :: np_cumprod_from acc t
  end.

Definition np_cumprod (vals : list F) : list F :=
  match vals with
  | [] => []
  | v :: t => v :: np_cumprod_from v t
  end.

(** [s.cumprod()]: pandas runs [numpy.cumprod] on the values with 1.0 in the
    place of every NaN, and puts the NaN back in those rows. *)
Definition cumprod (s : list F) : list F :=
  let vals := map (fun x => if is_nan x then of_Z 1 else x) s in
  map (fun '(x, r) => if is_nan x then fnan else r)
      (combine s (np_cumprod vals)).

(** [s.expanding().max()]: in each row the largest value so far, NaN values
    aside; NaN as long as there is none. *)
Fixpoint expanding_max_from (best : option F) (s : list F) : list F :=
  match s with
  | [] => []
  | x :: t =>
      let best :=
        if is_nan x then best
        else match best with
             | None => Some x
             | Some b => Some (if fltb b x then x else b)
             end in
      match best with Some b => b | None => fnan end
      :: expanding_max_from best t
  end.

Definition expanding_max (s : list F) : list F := expanding_max_from None s.

(** [a - b] and [a / b] on two series with the same index. *)
Definition series_sub (a b : list F) : list F :=
  map (fun '(x, y) => fsub x y) (combine a b).

Definition series_div (a b : list F) : list F :=
  map (fun '(x, y) => fdiv x y) (combine a b).

(** [s.min()]: the least value, NaN values aside; NaN when there is none. *)
Definition series_min (s : list F) : F :=
  match dropna s with
  | [] => fnan
  | x :: t => fold_left (fun least y => if fltb y least then y else least) t x
  end.

(** The drawdown of a series of cumulative values: in each row the distance
    to the running maximum, relative to it. *)
Definition drawdown_of (cumulative : list F) : list F :=
  let running_max := expanding_max cumulative in
  series_div (series_sub cumulative running_max) running_max.

Definition calculate_max_drawdown (self : RiskCalculator.t F)
    (prices : list F) : result F :=
  result_bind (RiskCalculator.calculate_returns self prices)
    (fun returns =>
       let cumulative := cumprod (map (fun r => fadd (of_Z 1) r) returns) in
       let running_max := expanding_max cumulative in
       let drawdown :=
         series_div (series_sub cumulative running_max) running_max in
       let max_drawdown := series_min drawdown in
       Ok (fabs max_drawdown)).
End MaxDrawdown.

(** The drawdowns of a series of rationals whose running maximum so far is
    [peak], and the least element of a series of rationals. *)
Fixpoint Qc_drawdowns (peak : Qc) (qs : list Qc) : list Qc :=
  match qs with
  | [] => []
  | q :: t =>
      let peak := if XR.Qc_ltb peak q then q else peak in
      ((q + - peak) / peak)%Qc :: Qc_drawdowns peak t
  end.

Definition Qc_least (q : Qc) (qs : list Qc) : Qc :=
  fold_left (fun least y => if XR.Qc_ltb y least then y else least) qs q.

(** The calculator of exact arithmetic. *)
Definition calcX : RiskCalculator.t XR.xreal := RiskCalculator.init None.


(** ** [portfolio_chat.py]: class [PortfolioChatAssistant] *)

Module PortfolioChatAssistant.
Section Methods.
(** What lies outside the class: the state of the service the client talks
    to ([World]), the exceptions a call may raise, with Python's [str] on
    them, the values of a [portfolio_context], and the f-string that renders
    such a context, which raises when a value does not fit its format. *)
Variables World Exception Value : Type.
Variable str : Exception -> string.
Variable context_str : dict Value -> string + Exception.

(** An entry of the conversation: [{"role": ..., "content": ...}]. *)
Record message : Type := { role : string; content : string }.

(** [client.messages.create(model=..., max_tokens=1024, system=...,
    messages=...)] followed by [response.content[0].text]: a text or an
    exception, and the service after the call. *)
Record Anthropic : Type := {
  messages_create :
    string -> list message -> World -> (string + Exception) * World
}.

Record t : Type := {
  client : Anthropic;
  conversation_history : list message
}.

(** [PortfolioChatAssistant()], given the value of the environment variable
    and the constructor of the client. *)
Definition init (api_key : option string) (make : string -> Anthropic)
  : result t :=
  match api_key with
  | None | Some EmptyString =>
      Raise (ValueError
               "ANTHROPIC_API_KEY not found in environment variables")
  | Some key => Ok {| client := make key; conversation_history := [] |}
  end.

Definition base_prompt : string :=
  "You are a professional financial advisor assistant helping retail banking clients understand their investment portfolios. 

Your role:
- Explain financial metrics in simple, accessible language
- Provide actionable investment advice based on portfolio data
- Help users understand risk, diversification, and rebalancing
- Be encouraging but honest about risks
- Cite specific numbers from their portfolio when relevant

Keep responses concise (2-3 paragraphs max) unless asked for detailed analysis.".

(** [get_system_prompt(portfolio_context)]: [None] and the empty dictionary
    are falsy. *)
Definition get_system_prompt (portfolio_context : option (dict Value))
  : string + Exception :=
  match portfolio_context with
  | None => inl base_prompt
  | Some context =>
      match context with
      | [] => inl base_prompt
      | _ :: _ =>
          match context_str context with
          | inl rendered => inl (base_prompt ++ rendered)%string
          | inr e => inr e
          end
      end
  end.

(** [except Exception as e: return f"Error: ... {str(e)}"] *)
Definition error_reply (e : Exception) : string :=
  ("Error: Unable to get response from AI assistant. " ++ str e)%string.

(** [chat(user_message, portfolio_context)]: the user's message is appended
    before anything that can raise, the reply only after the call
    returned. *)
Definition chat (user_message : string)
    (portfolio_context : option (dict Value)) (self : t) (w : World)
  : string * t * World :=
  let self :=
    {| client := client self;
       conversation_history :=
         conversation_history self
         ++ [{| role := "user"; content := user_message |}] |} in
  match get_system_prompt portfolio_context with
  | inr e => (error_reply e, self, w)
  | inl system_prompt =>
      match messages_create (client self) system_prompt
              (conversation_history self) w with
      | (inr e, w) => (error_reply e, self, w)
      | (inl assistant_message, w) =>
          (assistant_message,
           {| client := client self;
              conversation_history :=
                conversation_history self
                ++ [{| role := "assistant";
                       content := assistant_message |}] |},
           w)
      end
  end.

Definition reset_conversation (self : t) : t :=
  {| client := client self; conversation_history := [] |}.

(** One call of [chat] after the other, on the same assistant. *)
Fixpoint chats (calls : list (string * option (dict Value))) (self : t)
    (w : World) : list string * t * World :=
  match calls with
  | [] => ([], self, w)
  | (user_message, portfolio_context) :: rest =>
      let '(reply, self, w) := chat user_message portfolio_context self w in
      let '(replies, self, w) := chats rest self w in
      (reply :: replies, self, w)
  end.

(** The contents of the entries of a given role, in order. *)
Definition contents_of (who : string) (history : list message)
  : list string :=
  map content (filter (fun m => String.eqb (role m) who) history).

(** A conversation as the API expects it after a reply: user and assistant
    entries in turn, the first from the user, the last from the
    assistant. *)
Fixpoint alternating (history : list message) : bool :=
  match history with
  | [] => true
  | u :: a :: rest =>
      String.eqb (role u) "user" && String.eqb (role a) "assistant"
      && alternating rest
  | _ => false
  end.
End Methods.
End PortfolioChatAssistant.

(** The entry [chat] appends for a message of the user. *)
Definition user_entry (user_message : string)
  : PortfolioChatAssistant.message :=
  {| PortfolioChatAssistant.role := "user";
     PortfolioChatAssistant.content := user_message |}.

(** A service that counts its calls and answers each with the user's last
    message. *)
Definition echo_client : PortfolioChatAssistant.Anthropic nat string :=
  {| PortfolioChatAssistant.messages_create := fun _ messages calls =>
       (inl (PortfolioChatAssistant.content
               (last messages
                  {| PortfolioChatAssistant.role := "user";
                     PortfolioChatAssistant.content := EmptyString |})),
        S calls) |}.

(** A rendering of contexts whose values say whether they fit their format:
    it raises as soon as one of them does not. *)
Definition sample_context_str (context : dict bool) : string + string :=
  if forallb snd context
  then inl "

Current Portfolio Context:"%string
  else inr "Unknown format code 'f' for object of type 'str'"%string.

(** * Properties *)

(** ** Return series *)

Section ReturnSeries.
Context {F : Type} `{Arith F}.

Lemma pct_change_from_length (prev : F) (s : list F) :
  List.length (pct_change_from prev s) = List.length s.
Proof.
  revert prev; induction s as [|p t IH]; intros prev; simpl.
  - reflexivity.
  - now rewrite IH.
Qed.

Lemma pct_change_from_nth (s : list F) :
  forall (prev : F) (j : nat),
    (j < List.length s)%nat ->
    nth j (pct_change_from prev s) fnan = change_at (prev :: s) (S j).
Proof.
  induction s as [|p t IH]; intros prev j Hj; simpl in Hj.
  - lia.
  - destruct j as [|j].
    + reflexivity.
    + simpl pct_change_from. simpl nth at 1.
      rewrite IH by lia.
      unfold change_at. simpl. now rewrite Nat.sub_0_r.
Qed.

Lemma dropna_id (s : list F) :
  (forall x, In x s -> is_nan x = false) -> dropna s = s.
Proof.
  induction s as [|x t IH]; intros Hs; simpl.
  - reflexivity.
  - rewrite (Hs x (or_introl eq_refl)). simpl.
    f_equal. apply IH. intros y Hy. apply Hs. now right.
Qed.

Lemma dropna_pct_change (p : F) (t : list F) :
  dropna (pct_change (p :: t)) = dropna (pct_change_from p t).
Proof.
  unfold pct_change, dropna. simpl. now rewrite is_nan_fnan.
Qed.

(** One step of the pairwise summation. *)
Lemma pairwise_sum_fuel_unfold (fuel : nat) (a : list F) :
  pairwise_sum_fuel fuel a
  = let n := List.length a in
    if (n <? 8)%nat then
      match a with
      | [] => of_Z 0
      | x :: t => fold_left fadd t x
      end
    else if (n <=? 128)%nat then
      let '(r, rest) := sum_blocks (n / 8 - 1) (firstn 8 a) (skipn 8 a) in
      fold_left fadd rest (sum8 r)
    else
      match fuel with
      | O => fnan
      | S fuel =>
          let n2 := (n / 2)%nat in
          let n2 := (n2 - n2 mod 8)%nat in
          fadd (pairwise_sum_fuel fuel (firstn n2 a))
               (pairwise_sum_fuel fuel (skipn n2 a))
      end.
Proof. destruct fuel; reflexivity. Qed.

Lemma pairwise_split_lengths (n : nat) :
  (128 < n)%nat ->
  let n2 := (n / 2 - (n / 2) mod 8)%nat in
  (0 < n2 < n)%nat.
Proof.
  intros Hn n2. subst n2.
  pose proof (Nat.mod_upper_bound (n / 2) 8 ltac:(lia)) as Hmod.
  pose proof (Nat.div_mod_eq n 2) as Hdiv.
  pose proof (Nat.mod_upper_bound n 2 ltac:(lia)) as Hmod2.
  lia.
Qed.

(** The length of the array is enough fuel: with any larger amount the sum
    is the same, so the branch without fuel is never taken. *)
Lemma pairwise_sum_fuel_enough (fuel : nat) :
  forall (fuel' : nat) (a : list F),
    (List.length a <= fuel)%nat -> (List.length a <= fuel')%nat ->
    pairwise_sum_fuel fuel a = pairwise_sum_fuel fuel' a.
Proof.
  induction fuel as [|fuel IH]; intros fuel' a Hlen Hlen';
    rewrite (pairwise_sum_fuel_unfold _ a),
            (pairwise_sum_fuel_unfold fuel' a); cbv zeta.
  - destruct a; [reflexivity|simpl in Hlen; lia].
  - destruct (List.length a <? 8)%nat; [reflexivity|].
    destruct (List.length a <=? 128)%nat eqn:Hblock; [reflexivity|].
    apply Nat.leb_gt in Hblock.
    destruct (pairwise_split_lengths Hblock) as [Hpos Hlt].
    destruct fuel' as [|fuel']; [lia|].
    f_equal; apply IH;
      rewrite ?length_firstn, ?length_skipn; lia.
Qed.

(** The eight accumulators stay eight. *)
Lemma sum_blocks_length (blocks : nat) :
  forall (r a : list F),
    List.length r = 8%nat -> (8 * blocks <= List.length a)%nat ->
    List.length (fst (sum_blocks blocks r a)) = 8%nat /\
    List.length (snd (sum_blocks blocks r a))
    = (List.length a - 8 * blocks)%nat.
Proof.
  induction blocks as [|k IH]; intros r a Hr Ha; cbn [sum_blocks fst snd].
  - split; [exact Hr|lia].
  - destruct (IH (add8 r (firstn 8 a)) (skipn 8 a)) as [H1 H2].
    + unfold add8. rewrite length_map, length_combine, length_firstn. lia.
    + rewrite length_skipn. lia.
    + split; [exact H1|]. rewrite H2, length_skipn. lia.
Qed.
End ReturnSeries.

Section ReturnsClaims.
Context {F : Type} `{Arith F}.

(** C3 (amended).  For every price series of length at least 2 in which no
    relative change [prices[i]/prices[i-1] - 1] is NaN, [calculate_returns]
    returns a series of length [len(prices) - 1] whose element for row [i]
    (from 1) is exactly [prices[i]/prices[i-1] - 1]. *)
Theorem calculate_returns_changes (self : RiskCalculator.t F)
    (prices : list F) :
  (2 <= List.length prices)%nat ->
  (forall i, (1 <= i < List.length prices)%nat ->
             is_nan (change_at prices i) = false) ->
  exists returns,
    RiskCalculator.calculate_returns self prices = Ok returns /\
    List.length returns = (List.length prices - 1)%nat /\
    forall i, (1 <= i < List.length prices)%nat ->
              nth (i - 1) returns fnan = change_at prices i.
Proof.
  intros Hlen Hnan.
  destruct prices as [|p t]; [simpl in Hlen; lia|].
  assert (Hall : forall x, In x (pct_change_from p t) -> is_nan x = false).
  { intros x Hx.
    destruct (In_nth _ _ fnan Hx) as (j & Hj & <-).
    rewrite pct_change_from_length in Hj.
    rewrite pct_change_from_nth by exact Hj.
    apply Hnan. simpl. lia. }
  exists (pct_change_from p t).
  unfold RiskCalculator.calculate_returns.
  rewrite dropna_pct_change, (dropna_id _ Hall).
  split; [reflexivity|]. split.
  - rewrite pct_change_from_length. simpl. lia.
  - intros i Hi. simpl in Hi.
    destruct i as [|j]; [lia|].
    replace (S j - 1)%nat with j by lia.
    apply pct_change_from_nth. lia.
Qed.

(** C4 (amended).  For every price series with fewer than 2 observations
    [calculate_returns] returns the empty series; it raises nothing. *)
Theorem calculate_returns_short (self : RiskCalculator.t F)
    (prices : list F) :
  (List.length prices < 2)%nat ->
  RiskCalculator.calculate_returns self prices = Ok [].
Proof.
  intros Hlen. unfold RiskCalculator.calculate_returns.
  destruct prices as [|p [|q t]]; simpl in Hlen; try lia.
  - reflexivity.
  - now rewrite dropna_pct_change.
Qed.
End ReturnsClaims.

Lemma calculate_returns_changes_witness :
  let prices := map B64.of_Z [100; 110; 99]%Z in
  (2 <= List.length prices)%nat /\
  (forall i, (1 <= i < List.length prices)%nat ->
             is_nan (change_at prices i) = false) /\
  exists returns,
    RiskCalculator.calculate_returns calc64 prices = Ok returns /\
    List.length returns = (List.length prices - 1)%nat /\
    forall i, (1 <= i < List.length prices)%nat ->
              nth (i - 1) returns fnan = change_at prices i.
Proof.
  intros prices.
  assert (Hlen : (2 <= List.length prices)%nat) by (simpl; lia).
  assert (Hnan : forall i, (1 <= i < List.length prices)%nat ->
                           is_nan (change_at prices i) = false).
  { intros i Hi. simpl in Hi.
    destruct i as [|[|[|i]]]; try lia; reflexivity. }
  split; [exact Hlen|]. split; [exact Hnan|].
  exact (calculate_returns_changes calc64 prices Hlen Hnan).
Defined.

(** C3, as stated, fails: on the two prices [0.0, 0.0] the only relative
    change is [0.0/0.0 - 1], a NaN, which [dropna] removes; the result has
    length 0, not 1. *)
Lemma calculate_returns_zero_prices :
  let prices := [B64.of_Z 0; B64.of_Z 0] in
  (2 <= List.length prices)%nat /\
  RiskCalculator.calculate_returns calc64 prices = Ok [] /\
  ~ (exists returns,
       RiskCalculator.calculate_returns calc64 prices = Ok returns /\
       List.length returns = (List.length prices - 1)%nat).
Proof.
  intros prices. split; [simpl; lia|]. split; [reflexivity|].
  intros (returns & Hret & Hlen).
  vm_compute in Hret. inversion Hret; subst returns.
  discriminate Hlen.
Qed.

Lemma calculate_returns_short_witness :
  let prices := [B64.of_Z 100] in
  (List.length prices < 2)%nat /\
  RiskCalculator.calculate_returns calc64 prices = Ok [].
Proof.
  intros prices.
  assert (Hlen : (List.length prices < 2)%nat) by (simpl; lia).
  split; [exact Hlen|].
  exact (calculate_returns_short calc64 prices Hlen).
Defined.

(** C4, as stated, fails: on a single observation [calculate_returns]
    returns the empty series and raises no exception at all. *)
Lemma calculate_returns_single_price :
  let prices := [B64.of_Z 100] in
  (List.length prices < 2)%nat /\
  RiskCalculator.calculate_returns calc64 prices = Ok [] /\
  forall e, RiskCalculator.calculate_returns calc64 prices <> Raise e.
Proof.
  intros prices. split; [simpl; lia|]. split; [reflexivity|].
  intros e He. discriminate He.
Qed.

(** ** Risk level *)

Section RiskLevel.
Context {F : Type} `{Arith F}.

(** C8.  [assess_risk_level] is total: for every pair of numbers, NaN
    included, it returns one of 'Low Risk', 'Medium Risk', 'High Risk' and
    raises nothing; whenever neither [sharpe_ratio > 1.0 and volatility <
    0.20] nor [sharpe_ratio > 0.5 and volatility < 0.30] holds, and so
    whenever one of the two inputs is NaN, it returns 'High Risk'. *)
Theorem assess_risk_level_total (self : RiskCalculator.t F)
    (sharpe_ratio volatility : F) :
  let r := RiskCalculator.assess_risk_level self sharpe_ratio volatility in
  (r = Ok "Low Risk"%string \/ r = Ok "Medium Risk"%string \/
   r = Ok "High Risk"%string) /\
  (~ (fgtb sharpe_ratio (of_decimal 10 1) = true /\
      fltb volatility (of_decimal 20 2) = true) ->
   ~ (fgtb sharpe_ratio (of_decimal 5 1) = true /\
      fltb volatility (of_decimal 30 2) = true) ->
   r = Ok "High Risk"%string) /\
  (is_nan sharpe_ratio = true \/ is_nan volatility = true ->
   r = Ok "High Risk"%string).
Proof.
  intros r. subst r. unfold RiskCalculator.assess_risk_level.
  assert (Hhigh :
    ~ (fgtb sharpe_ratio (of_decimal 10 1) = true /\
       fltb volatility (of_decimal 20 2) = true) ->
    ~ (fgtb sharpe_ratio (of_decimal 5 1) = true /\
       fltb volatility (of_decimal 30 2) = true) ->
    (if fgtb sharpe_ratio (of_decimal 10 1) &&
        fltb volatility (of_decimal 20 2)
     then Ok "Low Risk"%string
     else if fgtb sharpe_ratio (of_decimal 5 1) &&
             fltb volatility (of_decimal 30 2)
          then Ok "Medium Risk"%string
          else Ok "High Risk"%string) = Ok "High Risk"%string).
  { intros Hlow Hmed.
    destruct (fgtb sharpe_ratio (of_decimal 10 1)) eqn:E1,
             (fltb volatility (of_decimal 20 2)) eqn:E2; simpl;
      try (exfalso; apply Hlow; now split);
      destruct (fgtb sharpe_ratio (of_decimal 5 1)) eqn:E3,
               (fltb volatility (of_decimal 30 2)) eqn:E4; simpl;
      try (exfalso; apply Hmed; now split); reflexivity. }
  split; [|split].
  - destruct (fgtb sharpe_ratio (of_decimal 10 1) &&
              fltb volatility (of_decimal 20 2)); [now left|].
    destruct (fgtb sharpe_ratio (of_decimal 5 1) &&
              fltb volatility (of_decimal 30 2)); [right; now left|].
    right; now right.
  - exact Hhigh.
  - intros Hnan. apply Hhigh.
    + intros [Hs Hv]. unfold fgtb in Hs.
      destruct Hnan as [Hn|Hn].
      * rewrite (fltb_nan_r _ _ Hn) in Hs. discriminate Hs.
      * rewrite (fltb_nan_l _ _ Hn) in Hv. discriminate Hv.
    + intros [Hs Hv]. unfold fgtb in Hs.
      destruct Hnan as [Hn|Hn].
      * rewrite (fltb_nan_r _ _ Hn) in Hs. discriminate Hs.
      * rewrite (fltb_nan_l _ _ Hn) in Hv. discriminate Hv.
Qed.
End RiskLevel.

Lemma assess_risk_level_total_witness :
  RiskCalculator.assess_risk_level calc64 S754_nan (B64.of_decimal 10 2)
    = Ok "High Risk"%string /\
  RiskCalculator.assess_risk_level calc64 (B64.of_Z 2) S754_nan
    = Ok "High Risk"%string.
Proof.
  split.
  - exact (proj2 (proj2 (assess_risk_level_total calc64 S754_nan
                           (B64.of_decimal 10 2)))
                 (or_introl eq_refl)).
  - exact (proj2 (proj2 (assess_risk_level_total calc64 (B64.of_Z 2)
                           S754_nan))
                 (or_intror eq_refl)).
Defined.

(** ** Valuation: what the first loop builds *)

Section ValuationFacts.
Context {F : Type} `{Arith F}.
Variable DataFrame : Type.
Variable f : StockDataFetcher.t F DataFrame.

Lemma value_holding_unresolved acc ticker h :
  resolved f ticker = false -> PortfolioAnalyzer.value_holding f acc (ticker, h) = acc.
Proof.
  intros Hr. destruct acc as [tot pos].
  unfold PortfolioAnalyzer.value_holding, resolved,
    PortfolioAnalyzer.truthy_opt in *.
  destruct (StockDataFetcher.get_current_price f ticker) as [p|];
    [|reflexivity].
  now rewrite Hr.
Qed.

(** Unresolved holdings are skipped by the loop. *)
Lemma fold_value_resolved hs : forall acc,
  fold_left (PortfolioAnalyzer.value_holding f) hs acc
  = fold_left (PortfolioAnalyzer.value_holding f) (resolved_holdings f hs) acc.
Proof.
  induction hs as [|[ticker h] rest IH]; intros acc; simpl.
  - reflexivity.
  - destruct (resolved f ticker) eqn:Hr; simpl.
    + apply IH.
    + rewrite value_holding_unresolved by exact Hr. apply IH.
Qed.

Lemma fold_value_no_resolved hs acc :
  (forall item, In item hs -> resolved f (fst item) = false) ->
  fold_left (PortfolioAnalyzer.value_holding f) hs acc = acc.
Proof.
  intros Hno. rewrite fold_value_resolved.
  unfold resolved_holdings.
  replace (filter (fun item => resolved f (fst item)) hs) with
    (@nil (string * PortfolioAnalyzer.holding F)); [reflexivity|].
  symmetry. induction hs as [|item rest IH]; simpl; [reflexivity|].
  rewrite (Hno item (or_introl eq_refl)).
  apply IH. intros i Hi. apply Hno. now right.
Qed.
End ValuationFacts.

Section EmptyValuation.
Context {F : Type} `{Arith F}.
Variable DataFrame : Type.

(** C2 (amended).  For every holdings set in which no holding resolves to a
    price (the empty set included), [calculate_portfolio_value] returns the
    valuation with total value 0 and no positions; it raises nothing, and no
    division is evaluated. *)
Theorem calculate_portfolio_value_unresolved
    (self : PortfolioAnalyzer.t F DataFrame) :
  (forall item, In item (PortfolioAnalyzer.holdings self) ->
                resolved (PortfolioAnalyzer.fetcher self) (fst item) = false) ->
  PortfolioAnalyzer.calculate_portfolio_value self
  = (Ok {| PortfolioAnalyzer.total_value := of_Z 0;
           PortfolioAnalyzer.positions := [] |}, self).
Proof.
  intros Hno. unfold PortfolioAnalyzer.calculate_portfolio_value.
  now rewrite (fold_value_no_resolved _ _ _ Hno).
Qed.
End EmptyValuation.

Lemma calculate_portfolio_value_unresolved_witness :
  let self := portfolio64 [("ZZZZ"%string, 10%Z, None)] in
  (forall item, In item (PortfolioAnalyzer.holdings self) ->
                resolved (PortfolioAnalyzer.fetcher self) (fst item) = false)
  /\ PortfolioAnalyzer.calculate_portfolio_value self
     = (Ok {| PortfolioAnalyzer.total_value := B64.of_Z 0;
              PortfolioAnalyzer.positions := [] |}, self).
Proof.
  intros self.
  assert (Hno : forall item, In item (PortfolioAnalyzer.holdings self) ->
                  resolved (PortfolioAnalyzer.fetcher self) (fst item)
                  = false).
  { intros item [<-|[]]. reflexivity. }
  split; [exact Hno|].
  exact (calculate_portfolio_value_unresolved self Hno).
Defined.

(** C2, as stated, fails: with one holding whose ticker does not resolve,
    [calculate_portfolio_value] returns a valuation (total 0, no positions)
    and raises no exception. *)
Lemma calculate_portfolio_value_no_error :
  let self := portfolio64 [("ZZZZ"%string, 10%Z, None)] in
  (forall item, In item (PortfolioAnalyzer.holdings self) ->
                StockDataFetcher.get_current_price
                  (PortfolioAnalyzer.fetcher self) (fst item) = None) /\
  fst (PortfolioAnalyzer.calculate_portfolio_value self)
  = Ok {| PortfolioAnalyzer.total_value := S754_zero false;
          PortfolioAnalyzer.positions := [] |} /\
  forall e, fst (PortfolioAnalyzer.calculate_portfolio_value self) <> Raise e.
Proof.
  intros self. split; [|split].
  - intros item [<-|[]]. reflexivity.
  - reflexivity.
  - intros e He. discriminate He.
Qed.

(** ** Frame: which methods write to the analyzer *)

Section Frame.
Context {F : Type} `{Arith F}.
Variable DataFrame : Type.
Variable calculate_portfolio_metrics :
  RiskCalculator.t F -> dict DataFrame -> dict F
  -> result (PortfolioAnalyzer.metrics F).

Lemma read_only_ret {A : Type} (a : A) :
  read_only (PortfolioAnalyzer.ret (F := F) (DataFrame := DataFrame) a).
Proof. intros self. reflexivity. Qed.

Lemma read_only_lift {A : Type} (r : result A) :
  read_only (PortfolioAnalyzer.lift (F := F) (DataFrame := DataFrame) r).
Proof. intros self. reflexivity. Qed.

Lemma read_only_get_self :
  read_only (PortfolioAnalyzer.get_self (F := F) (DataFrame := DataFrame)).
Proof. intros self. reflexivity. Qed.

Lemma read_only_bind {A B : Type} (m : PortfolioAnalyzer.M F DataFrame A)
    (k : A -> PortfolioAnalyzer.M F DataFrame B) :
  read_only m -> (forall a, read_only (k a)) ->
  read_only (PortfolioAnalyzer.bind m k).
Proof.
  intros Hm Hk self. unfold PortfolioAnalyzer.bind.
  specialize (Hm self).
  destruct (m self) as [[a|e] self']; simpl in Hm; subst self'.
  - apply Hk.
  - reflexivity.
Qed.

Lemma read_only_calculate_portfolio_value :
  read_only (PortfolioAnalyzer.calculate_portfolio_value
               (F := F) (DataFrame := DataFrame)).
Proof.
  intros self. unfold PortfolioAnalyzer.calculate_portfolio_value.
  now destruct (fold_left _ _ _).
Qed.

Lemma read_only_analyze_diversification :
  read_only (PortfolioAnalyzer.analyze_diversification
               (F := F) (DataFrame := DataFrame)).
Proof.
  unfold PortfolioAnalyzer.analyze_diversification.
  apply read_only_bind; [apply read_only_calculate_portfolio_value|].
  intros v. apply read_only_bind; [apply read_only_get_self|].
  intros s. apply read_only_bind; [apply read_only_lift|].
  intros sectors. apply read_only_bind; [apply read_only_lift|].
  intros ws. apply read_only_ret.
Qed.

Lemma read_only_calculate_risk_metrics :
  read_only (PortfolioAnalyzer.calculate_risk_metrics
               calculate_portfolio_metrics).
Proof.
  unfold PortfolioAnalyzer.calculate_risk_metrics.
  apply read_only_bind; [apply read_only_get_self|].
  intros s. destruct (PortfolioAnalyzer.portfolio_data s).
  - apply read_only_ret.
  - apply read_only_bind; [apply read_only_calculate_portfolio_value|].
    intros v. apply read_only_bind; [apply read_only_lift|].
    intros ws. apply read_only_bind; [apply read_only_lift|].
    intros m. apply read_only_bind; [apply read_only_lift|].
    intros level. apply read_only_ret.
Qed.

Lemma read_only_get_rebalancing_recommendations target_weights :
  read_only (PortfolioAnalyzer.get_rebalancing_recommendations
               (DataFrame := DataFrame) target_weights).
Proof.
  unfold PortfolioAnalyzer.get_rebalancing_recommendations.
  apply read_only_bind; [apply read_only_calculate_portfolio_value|].
  intros v. apply read_only_bind; [apply read_only_lift|].
  intros ws. apply read_only_bind; [apply read_only_get_self|].
  intros s. apply read_only_lift.
Qed.

Lemma read_only_generate_portfolio_report :
  read_only (PortfolioAnalyzer.generate_portfolio_report
               calculate_portfolio_metrics).
Proof.
  unfold PortfolioAnalyzer.generate_portfolio_report.
  apply read_only_bind; [apply read_only_calculate_portfolio_value|].
  intros v. apply read_only_bind; [apply read_only_analyze_diversification|].
  intros d. apply read_only_bind; [apply read_only_calculate_risk_metrics|].
  intros m. apply read_only_ret.
Qed.

(** C10.  Every analysis operation leaves the holdings as they were, whether
    it returns or raises: after [calculate_portfolio_value],
    [analyze_diversification], [get_rebalancing_recommendations],
    [calculate_risk_metrics], [generate_portfolio_report] and
    [load_portfolio_data] the holdings are the same dictionary.  Only
    [add_holding] writes to them: it stores the new entry under the ticker. *)
Theorem analysis_leaves_holdings (self : PortfolioAnalyzer.t F DataFrame) :
  PortfolioAnalyzer.holdings
    (snd (PortfolioAnalyzer.calculate_portfolio_value self))
  = PortfolioAnalyzer.holdings self /\
  PortfolioAnalyzer.holdings
    (snd (PortfolioAnalyzer.analyze_diversification self))
  = PortfolioAnalyzer.holdings self /\
  (forall target_weights,
     PortfolioAnalyzer.holdings
       (snd (PortfolioAnalyzer.get_rebalancing_recommendations
               target_weights self))
     = PortfolioAnalyzer.holdings self) /\
  PortfolioAnalyzer.holdings
    (snd (PortfolioAnalyzer.calculate_risk_metrics
            calculate_portfolio_metrics self))
  = PortfolioAnalyzer.holdings self /\
  PortfolioAnalyzer.holdings
    (snd (PortfolioAnalyzer.generate_portfolio_report
            calculate_portfolio_metrics self))
  = PortfolioAnalyzer.holdings self /\
  (forall period,
     PortfolioAnalyzer.holdings
       (snd (PortfolioAnalyzer.load_portfolio_data period self))
     = PortfolioAnalyzer.holdings self) /\
  (forall ticker shares purchase_price,
     PortfolioAnalyzer.holdings
       (snd (PortfolioAnalyzer.add_holding ticker shares purchase_price self))
     = dict_set ticker
         {| PortfolioAnalyzer.h_shares := shares;
            PortfolioAnalyzer.h_purchase_price := purchase_price |}
         (PortfolioAnalyzer.holdings self)).
Proof.
  repeat split.
  - now rewrite read_only_calculate_portfolio_value.
  - now rewrite read_only_analyze_diversification.
  - intros tw. now rewrite read_only_get_rebalancing_recommendations.
  - now rewrite read_only_calculate_risk_metrics.
  - now rewrite read_only_generate_portfolio_report.
  - intros period. unfold PortfolioAnalyzer.load_portfolio_data.
    now destruct (dict_keys (PortfolioAnalyzer.holdings self)).
Qed.
End Frame.

(** ** Dictionaries *)

Section DictFacts.
Context {V : Type}.

Lemma dict_get_app (k : string) (d1 d2 : dict V) :
  dict_get k (d1 ++ d2)
  = match dict_get k d1 with
    | Some v => Some v
    | None => dict_get k d2
    end.
Proof.
  induction d1 as [|[k' v'] t IH]; simpl.
  - reflexivity.
  - destruct (String.eqb k k'); [reflexivity|exact IH].
Qed.

Lemma dict_get_none_iff (k : string) (d : dict V) :
  dict_get k d = None <-> ~ In k (dict_keys d).
Proof.
  induction d as [|[k' v'] t IH]; simpl.
  - tauto.
  - destruct (String.eqb_spec k k') as [->|Hne].
    + split; [discriminate|]. intros Hn. exfalso. apply Hn. now left.
    + rewrite IH. split.
      * intros Hn [Heq|Hin]; [now apply Hne|now apply Hn].
      * intros Hn Hin. apply Hn. now right.
Qed.

Lemma dict_get_in (k : string) (v : V) (d : dict V) :
  dict_wf d -> In (k, v) d -> dict_get k d = Some v.
Proof.
  unfold dict_wf. induction d as [|[k' v'] t IH]; simpl; intros Hwf Hin.
  - contradiction.
  - inversion Hwf as [|? ? Hnotin Hwf']; subst.
    destruct Hin as [Heq|Hin].
    + inversion Heq; subst. now rewrite String.eqb_refl.
    + destruct (String.eqb_spec k k') as [->|Hne].
      * exfalso. apply Hnotin.
        change k' with (fst (k', v)). now apply in_map.
      * now apply IH.
Qed.

Lemma dict_get_some_in (k : string) (v : V) (d : dict V) :
  dict_get k d = Some v -> In (k, v) d.
Proof.
  induction d as [|[k' v'] t IH]; simpl; [discriminate|].
  destruct (String.eqb_spec k k') as [->|Hne].
  - intros Heq. inversion Heq; subst. now left.
  - intros Hget. right. now apply IH.
Qed.

(** Writing under a key that is not there appends the entry. *)
Lemma dict_set_fresh (k : string) (v : V) (d : dict V) :
  dict_get k d = None -> dict_set k v d = d ++ [(k, v)].
Proof.
  induction d as [|[k' v'] t IH]; simpl; intros Hget.
  - reflexivity.
  - destruct (String.eqb k k'); [discriminate|].
    now rewrite IH.
Qed.

Lemma dict_keys_set (k : string) (v : V) (d : dict V) :
  dict_keys (dict_set k v d)
  = if dict_mem k d then dict_keys d else dict_keys d ++ [k].
Proof.
  unfold dict_mem. induction d as [|[k' v'] t IH]; simpl.
  - reflexivity.
  - destruct (String.eqb_spec k k') as [->|Hne]; simpl.
    + reflexivity.
    + rewrite IH. now destruct (dict_get k t).
Qed.

(** [d[k] = v] keeps the keys unique. *)
Lemma dict_wf_set (k : string) (v : V) (d : dict V) :
  dict_wf d -> dict_wf (dict_set k v d).
Proof.
  unfold dict_wf. intros Hwf. rewrite dict_keys_set.
  unfold dict_mem. destruct (dict_get k d) eqn:Hget; [exact Hwf|].
  apply dict_get_none_iff in Hget.
  apply NoDup_app; [exact Hwf | repeat constructor; intros [] | ].
  intros x Hx [<-|[]]. now apply Hget.
Qed.
End DictFacts.

Lemma dict_get_map {V W : Type} (g : V -> W) (k : string) (d : dict V) :
  dict_get k (map (fun '(t, v) => (t, g v)) d) = option_map g (dict_get k d).
Proof.
  induction d as [|[k' v'] t IH]; simpl.
  - reflexivity.
  - destruct (String.eqb k k'); [reflexivity|exact IH].
Qed.

(** ** Valuation in closed form *)

Section ValuationClosedForm.
Context {F : Type} `{Arith F}.
Variable DataFrame : Type.
Variable f : StockDataFetcher.t F DataFrame.

Lemma entries_keys hs :
  dict_keys (entries f hs) = filter (resolved f) (dict_keys hs).
Proof.
  unfold entries, resolved, PortfolioAnalyzer.truthy_opt.
  induction hs as [|[ticker h] rest IH]; simpl; [reflexivity|].
  destruct (StockDataFetcher.get_current_price f ticker) as [p|];
    [destruct (truthy p)|]; simpl; now rewrite <- IH.
Qed.


(** The loop over holdings with distinct tickers, none of them yet in
    [positions], adds the values to the total and appends the entries. *)
Lemma fold_value_entries hs : forall total_value positions,
  dict_wf hs ->
  (forall k, In k (dict_keys hs) -> dict_get k positions = None) ->
  fold_left (PortfolioAnalyzer.value_holding f) hs (total_value, positions)
  = (fold_left fadd (values_of (entries f hs)) total_value,
     positions ++ entries f hs).
Proof.
  unfold dict_wf.
  induction hs as [|[ticker h] rest IH]; intros tot pos Hwf Hfresh.
  - simpl. now rewrite app_nil_r.
  - simpl in Hwf. inversion Hwf as [|? ? Hnotin Hwf']; subst.
    assert (Hrest : forall k, In k (dict_keys rest) -> dict_get k pos = None).
    { intros k Hk. apply Hfresh. now right. }
    simpl fold_left. unfold entries, values_of. simpl.
    destruct (StockDataFetcher.get_current_price f ticker) as [p|];
      [destruct (truthy p)|]; try (now apply IH).
    rewrite dict_set_fresh by (apply Hfresh; now left).
    rewrite IH; [|exact Hwf'|].
    + unfold values_of, entries. simpl. now rewrite <- app_assoc.
    + intros k Hk. rewrite dict_get_app, (Hrest k Hk). simpl.
      destruct (String.eqb_spec k ticker) as [->|Hne]; [|reflexivity].
      now exfalso.
Qed.

(** [calculate_portfolio_value] computes [valuation_of]. *)
Lemma calculate_portfolio_value_closed
    (self : PortfolioAnalyzer.t F DataFrame) :
  PortfolioAnalyzer.fetcher self = f ->
  dict_wf (PortfolioAnalyzer.holdings self) ->
  PortfolioAnalyzer.calculate_portfolio_value self
  = (Ok (valuation_of f (PortfolioAnalyzer.holdings self)), self).
Proof.
  intros Hf Hwf. unfold PortfolioAnalyzer.calculate_portfolio_value.
  rewrite Hf, fold_value_entries; [reflexivity|exact Hwf|reflexivity].
Qed.


Lemma positions_keys hs :
  dict_keys (PortfolioAnalyzer.positions (valuation_of f hs))
  = filter (resolved f) (dict_keys hs).
Proof.
  unfold valuation_of. simpl. rewrite <- entries_keys.
  unfold dict_keys. rewrite map_map. apply map_ext. now intros [k p].
Qed.

(** An unresolved ticker has no position. *)
Lemma positions_unresolved hs ticker :
  resolved f ticker = false ->
  dict_get ticker (PortfolioAnalyzer.positions (valuation_of f hs)) = None.
Proof.
  intros Hr. apply dict_get_none_iff. rewrite positions_keys.
  intros Hin. apply filter_In in Hin. destruct Hin as [_ Hres]. congruence.
Qed.

(** A resolved ticker of the holdings has one. *)
Lemma positions_resolved hs ticker :
  In ticker (dict_keys hs) -> resolved f ticker = true ->
  exists p,
    dict_get ticker (PortfolioAnalyzer.positions (valuation_of f hs))
    = Some p.
Proof.
  intros Hin Hr.
  destruct (dict_get ticker (PortfolioAnalyzer.positions (valuation_of f hs)))
    as [p|] eqn:Hget; [now exists p|].
  apply dict_get_none_iff in Hget. exfalso. apply Hget.
  rewrite positions_keys. apply filter_In. now split.
Qed.
End ValuationClosedForm.

(** ** Rebalancing *)

Section Rebalancing.
Context {F : Type} `{Arith F}.
Variable DataFrame : Type.
Variable f : StockDataFetcher.t F DataFrame.

Lemma weights_loop_weighted (g : PortfolioAnalyzer.position F -> F)
    (d : dict (PortfolioAnalyzer.position F)) : forall acc,
  PortfolioAnalyzer.for_each
    (fun acc p =>
       result_bind (PortfolioAnalyzer.weight_of p)
         (fun w => Ok (acc ++ [w])))
    (dict_values
       (map (fun '(t, p) => (t, PortfolioAnalyzer.set_weight (g p) p)) d))
    acc
  = Ok (acc ++ map (fun e => g (snd e)) d).
Proof.
  induction d as [|[t p] rest IH]; intros acc; simpl.
  - now rewrite app_nil_r.
  - rewrite IH. now rewrite <- app_assoc.
Qed.

(** Every position of a valuation carries its weight. *)
Lemma weights_list_weighted (g : PortfolioAnalyzer.position F -> F)
    (d : dict (PortfolioAnalyzer.position F)) :
  PortfolioAnalyzer.weights_list
    (map (fun '(t, p) => (t, PortfolioAnalyzer.set_weight (g p) p)) d)
  = Ok (map (fun e => g (snd e)) d).
Proof. apply (weights_loop_weighted g d []). Qed.

Lemma weights_dict_weighted (g : PortfolioAnalyzer.position F -> F)
    (d : dict (PortfolioAnalyzer.position F)) :
  exists current_weights,
    PortfolioAnalyzer.weights_dict
      (map (fun '(t, p) => (t, PortfolioAnalyzer.set_weight (g p) p)) d)
    = Ok current_weights.
Proof.
  unfold PortfolioAnalyzer.weights_dict.
  generalize (@nil (string * F)) as acc.
  induction d as [|[t p] rest IH]; intros acc; simpl.
  - now exists acc.
  - apply IH.
Qed.

(** The loop of [get_rebalancing_recommendations] stops at the first ticker
    without a position. *)
Lemma for_each_recommend_unresolved hs current_weights target_weights ticker :
  forall keys acc,
    (forall k, In k keys -> In k (dict_keys hs)) ->
    find (fun k => negb (resolved f k)) keys = Some ticker ->
    PortfolioAnalyzer.for_each
      (PortfolioAnalyzer.recommend (valuation_of f hs) current_weights
         target_weights)
      keys acc
    = Raise (KeyError ticker).
Proof.
  induction keys as [|k rest IH]; intros acc Hin Hfind; simpl in Hfind.
  - discriminate.
  - simpl. unfold PortfolioAnalyzer.recommend at 1. unfold dict_item.
    destruct (resolved f k) eqn:Hr; simpl in Hfind.
    + destruct (positions_resolved f hs k (Hin k (or_introl eq_refl)) Hr)
        as [p Hp].
      rewrite Hp. simpl. apply IH; [|exact Hfind].
      intros k' Hk'. apply Hin. now right.
    + inversion Hfind; subst k.
      now rewrite (positions_unresolved f hs ticker Hr).
Qed.
End Rebalancing.

Section RebalancingClaim.
Context {F : Type} `{Arith F}.
Variable DataFrame : Type.

(** C1 (what the code does).  When some held ticker has no resolved price,
    [get_rebalancing_recommendations] returns no recommendation at all: it
    raises [KeyError] for the first such ticker, at
    [portfolio_value['positions'][ticker]]. *)
Theorem get_rebalancing_recommendations_unresolved
    (self : PortfolioAnalyzer.t F DataFrame)
    (target_weights : option (dict F)) (ticker : string) :
  dict_wf (PortfolioAnalyzer.holdings self) ->
  first_unresolved (PortfolioAnalyzer.fetcher self)
    (PortfolioAnalyzer.holdings self) = Some ticker ->
  PortfolioAnalyzer.get_rebalancing_recommendations target_weights self
  = (Raise (KeyError ticker), self).
Proof.
  intros Hwf Hfirst.
  unfold PortfolioAnalyzer.get_rebalancing_recommendations,
    PortfolioAnalyzer.bind.
  rewrite (calculate_portfolio_value_closed self eq_refl Hwf).
  destruct (weights_dict_weighted
              (fun p => fdiv (PortfolioAnalyzer.p_position_value p)
                          (total_of (entries (PortfolioAnalyzer.fetcher self)
                                       (PortfolioAnalyzer.holdings self))))
              (entries (PortfolioAnalyzer.fetcher self)
                 (PortfolioAnalyzer.holdings self)))
    as [cw Hcw].
  unfold valuation_of at 1. simpl PortfolioAnalyzer.positions.
  unfold PortfolioAnalyzer.lift at 1. rewrite Hcw.
  unfold PortfolioAnalyzer.get_self, PortfolioAnalyzer.lift.
  f_equal.
  apply for_each_recommend_unresolved; [tauto|exact Hfirst].
Qed.
End RebalancingClaim.

(** ** Holdings are dictionaries *)

Lemma add_holding_wf {F : Type} {DataFrame : Type}
    (self : PortfolioAnalyzer.t F DataFrame) ticker shares purchase_price :
  dict_wf (PortfolioAnalyzer.holdings self) ->
  dict_wf (PortfolioAnalyzer.holdings
             (snd (PortfolioAnalyzer.add_holding ticker shares purchase_price
                     self))).
Proof. intros Hwf. simpl. now apply dict_wf_set. Qed.

Lemma sample_portfolio_wf {F : Type} `{Arith F} hs :
  dict_wf (PortfolioAnalyzer.holdings (sample_portfolio (F := F) hs)).
Proof.
  unfold sample_portfolio.
  assert (Hinit : dict_wf (PortfolioAnalyzer.holdings
                             (PortfolioAnalyzer.init (F := F) sample_market
                                None)))
    by constructor.
  revert Hinit.
  generalize (PortfolioAnalyzer.init (F := F) sample_market None) as self.
  induction hs as [|[[ticker shares] pp] rest IH]; intros self Hwf; simpl.
  - exact Hwf.
  - apply IH. now apply add_holding_wf.
Qed.

Lemma get_rebalancing_recommendations_unresolved_witness :
  let self := portfolio64 [("AAPL"%string, 10%Z, Some 150%Z);
                           ("GOOG"%string, 5%Z, None)] in
  dict_wf (PortfolioAnalyzer.holdings self) /\
  first_unresolved (PortfolioAnalyzer.fetcher self)
    (PortfolioAnalyzer.holdings self) = Some "GOOG"%string /\
  PortfolioAnalyzer.get_rebalancing_recommendations None self
  = (Raise (KeyError "GOOG"), self).
Proof.
  intros self.
  assert (Hwf : dict_wf (PortfolioAnalyzer.holdings self))
    by apply sample_portfolio_wf.
  assert (Hfirst : first_unresolved (PortfolioAnalyzer.fetcher self)
                     (PortfolioAnalyzer.holdings self) = Some "GOOG"%string)
    by reflexivity.
  split; [exact Hwf|]. split; [exact Hfirst|].
  exact (get_rebalancing_recommendations_unresolved self None Hwf Hfirst).
Defined.

(** ** Exact arithmetic: sums of finite values *)

Section ExactSums.
Local Open Scope Qc_scope.

Lemma Qc_eqb_eq (a b : Qc) : XR.Qc_eqb a b = true <-> a = b.
Proof.
  unfold XR.Qc_eqb. rewrite Qeq_bool_iff. split.
  - apply Qc_is_canon.
  - now intros ->.
Qed.

Lemma is_zero_false (a : Qc) : XR.is_zero a = false <-> a <> XR.Qc_of_Z 0.
Proof.
  unfold XR.is_zero. split.
  - intros Hz Heq. apply Qc_eqb_eq in Heq. congruence.
  - intros Hne. destruct (XR.Qc_eqb a (XR.Qc_of_Z 0)) eqn:E; [|reflexivity].
    apply Qc_eqb_eq in E. contradiction.
Qed.

Lemma Qc_of_Z_0 : XR.Qc_of_Z 0 = 0.
Proof. reflexivity. Qed.

Lemma Qc_of_Z_1 : XR.Qc_of_Z 1 = 1.
Proof. reflexivity. Qed.

Lemma xr_sum_finite (qs : list Qc) : forall a,
  fold_left XR.add (map XR.XFin qs) (XR.XFin a) = XR.XFin (a + Qc_sum qs).
Proof.
  induction qs as [|q rest IH]; intros a; simpl.
  - now rewrite Qc_of_Z_0, Qcplus_0_r.
  - rewrite IH. now rewrite Qcplus_assoc.
Qed.

Lemma xr_div_finite (q total : Qc) :
  total <> 0 -> XR.div (XR.XFin q) (XR.XFin total) = XR.XFin (q / total).
Proof.
  intros Hne. unfold XR.div.
  now rewrite (proj2 (is_zero_false total) Hne).
Qed.

End ExactSums.

(** ** Weights *)


Section ExactWeights.
Variable DataFrame : Type.
Variable f : StockDataFetcher.t XR.xreal DataFrame.

(** With finite prices and finite share counts, position values are finite. *)
Lemma values_of_finite (hs : dict (PortfolioAnalyzer.holding XR.xreal)) :
  (forall ticker h p,
     In (ticker, h) hs ->
     StockDataFetcher.get_current_price f ticker = Some p ->
     truthy p = true ->
     XR.finite p = true /\ XR.finite (PortfolioAnalyzer.h_shares h) = true) ->
  exists qs, values_of (entries f hs) = map XR.XFin qs.
Proof.
  induction hs as [|[ticker h] rest IH]; intros Hfin.
  - now exists [].
  - destruct IH as [qs Hqs].
    { intros t' h' p' Hin. apply Hfin. now right. }
    unfold entries, values_of in *. simpl.
    destruct (StockDataFetcher.get_current_price f ticker) as [p|] eqn:Hp;
      [destruct (truthy p) eqn:Ht|]; simpl; try (now exists qs).
    destruct (Hfin ticker h p (or_introl eq_refl) Hp Ht) as [Hfp Hfs].
    destruct p as [a| |]; try discriminate Hfp.
    destruct h as [[b| |] pp]; try discriminate Hfs.
    exists ((a * b)%Qc :: qs). simpl. now rewrite Hqs.
Qed.

End ExactWeights.

Section WeightsClaim.
Variable DataFrame : Type.

End WeightsClaim.



(** ** Truthiness of prices *)

Section Truthiness.
Context {F : Type} `{Arith F}.
Variable DataFrame : Type.
Variable f : StockDataFetcher.t F DataFrame.

Lemma entries_in hs ticker e :
  In (ticker, e) (entries f hs) ->
  exists h p,
    In (ticker, h) hs /\
    StockDataFetcher.get_current_price f ticker = Some p /\
    truthy p = true /\
    e = PortfolioAnalyzer.position_entry p h.
Proof.
  unfold entries. intros Hin. apply in_flat_map in Hin.
  destruct Hin as ([t h] & Hin & He). simpl in He.
  destruct (StockDataFetcher.get_current_price f t) as [p|] eqn:Hp;
    [destruct (truthy p) eqn:Ht|]; simpl in He; try contradiction.
  destruct He as [He|[]]. inversion He; subst.
  now exists h, p.
Qed.

Lemma entries_drop_zero_prices hs :
  entries (drop_zero_prices f) hs = entries f hs.
Proof.
  unfold entries. apply flat_map_ext. intros [ticker h]. simpl.
  destruct (StockDataFetcher.get_current_price f ticker) as [p|];
    [|reflexivity].
  unfold truthy. destruct (feqb p (of_Z 0)) eqn:Hz; simpl.
  - reflexivity.
  - unfold truthy. now rewrite Hz.
Qed.

Lemma position_entry_no_purchase_price p h :
  no_purchase_price h ->
  PortfolioAnalyzer.p_gain_loss (PortfolioAnalyzer.position_entry p h) = None
  /\ PortfolioAnalyzer.p_gain_loss_pct (PortfolioAnalyzer.position_entry p h)
     = None.
Proof.
  unfold PortfolioAnalyzer.position_entry. simpl.
  intros [Hnone|(pp & Hsome & Hz)].
  - now rewrite Hnone.
  - rewrite Hsome. unfold truthy. now rewrite Hz.
Qed.
End Truthiness.

Section TruthinessClaim.
Context {F : Type} `{Arith F}.
Variable DataFrame : Type.

(** C9.  In [calculate_portfolio_value] a current price equal to 0.0 is
    treated as an unresolved one: the valuation is the one obtained when the
    fetcher answers [None] instead of 0.0, and such a ticker has no entry in
    [positions].  A purchase price equal to 0.0 is treated as an absent one:
    in both cases the position has neither [gain_loss] nor
    [gain_loss_pct]. *)
Theorem zero_is_falsy (self : PortfolioAnalyzer.t F DataFrame)
    (v : PortfolioAnalyzer.valuation F) :
  dict_wf (PortfolioAnalyzer.holdings self) ->
  fst (PortfolioAnalyzer.calculate_portfolio_value self) = Ok v ->
  fst (PortfolioAnalyzer.calculate_portfolio_value
         (with_fetcher self
            (drop_zero_prices (PortfolioAnalyzer.fetcher self))))
  = Ok v /\
  (forall ticker p,
     StockDataFetcher.get_current_price (PortfolioAnalyzer.fetcher self)
       ticker = Some p ->
     feqb p (of_Z 0) = true ->
     dict_get ticker (PortfolioAnalyzer.positions v) = None) /\
  (forall ticker h pos,
     dict_get ticker (PortfolioAnalyzer.holdings self) = Some h ->
     dict_get ticker (PortfolioAnalyzer.positions v) = Some pos ->
     no_purchase_price h ->
     PortfolioAnalyzer.p_gain_loss pos = None /\
     PortfolioAnalyzer.p_gain_loss_pct pos = None).
Proof.
  intros Hwf Hv.
  set (f := PortfolioAnalyzer.fetcher self) in *.
  rewrite (calculate_portfolio_value_closed self eq_refl Hwf) in Hv.
  fold f in Hv. simpl in Hv. inversion Hv as [Hv']. clear Hv.
  split; [|split].
  - rewrite (calculate_portfolio_value_closed (f := drop_zero_prices f)
               (with_fetcher self (drop_zero_prices f)) eq_refl Hwf).
    simpl. unfold valuation_of. now rewrite entries_drop_zero_prices.
  - intros ticker p Hp Hz. apply positions_unresolved.
    unfold resolved, PortfolioAnalyzer.truthy_opt, truthy.
    now rewrite Hp, Hz.
  - intros ticker h pos Hh Hpos Hno.
    unfold valuation_of in Hpos. cbn [PortfolioAnalyzer.positions] in Hpos.
    rewrite (dict_get_map
               (fun p => PortfolioAnalyzer.set_weight
                           (fdiv (PortfolioAnalyzer.p_position_value p)
                                 (total_of (entries f
                                    (PortfolioAnalyzer.holdings self)))) p))
      in Hpos.
    destruct (dict_get ticker (entries f (PortfolioAnalyzer.holdings self)))
      as [e|] eqn:He; [|discriminate Hpos].
    simpl in Hpos. inversion Hpos; subst pos. simpl.
    apply dict_get_some_in in He.
    destruct (entries_in _ _ _ _ He) as (h' & p & Hin & _ & _ & ->).
    rewrite (dict_get_in _ _ Hwf Hin) in Hh. inversion Hh; subst h'.
    now apply position_entry_no_purchase_price.
Qed.
End TruthinessClaim.

Lemma zero_is_falsy_witness :
  let self := portfolio64 [("AAPL"%string, 10%Z, Some 0%Z);
                           ("PENNY"%string, 100%Z, Some 1%Z)] in
  let v := valuation_of (PortfolioAnalyzer.fetcher self)
             (PortfolioAnalyzer.holdings self) in
  fst (PortfolioAnalyzer.calculate_portfolio_value
         (with_fetcher self
            (drop_zero_prices (PortfolioAnalyzer.fetcher self))))
  = Ok v /\
  dict_get "PENNY"%string (PortfolioAnalyzer.positions v) = None /\
  (forall pos,
     dict_get "AAPL"%string (PortfolioAnalyzer.positions v) = Some pos ->
     PortfolioAnalyzer.p_gain_loss pos = None /\
     PortfolioAnalyzer.p_gain_loss_pct pos = None).
Proof.
  intros self v.
  assert (Hwf : dict_wf (PortfolioAnalyzer.holdings self))
    by apply sample_portfolio_wf.
  assert (Hv : fst (PortfolioAnalyzer.calculate_portfolio_value self) = Ok v)
    by reflexivity.
  destruct (zero_is_falsy self Hwf Hv) as (Hdrop & Hprice & Hgain).
  split; [exact Hdrop|]. split.
  - apply (Hprice "PENNY"%string (B64.of_Z 0)); reflexivity.
  - intros pos Hpos.
    apply (Hgain "AAPL"%string
             {| PortfolioAnalyzer.h_shares := B64.of_Z 10;
                PortfolioAnalyzer.h_purchase_price := Some (B64.of_Z 0) |}
             pos); [reflexivity|exact Hpos|].
    right. exists (B64.of_Z 0). split; reflexivity.
Defined.

(** ** Diversification score *)

Section ScoreBounds.
Local Open Scope Qc_scope.

Lemma Qc_ltb_lt (a b : Qc) : XR.Qc_ltb a b = true <-> a < b.
Proof.
  unfold XR.Qc_ltb, Qclt. rewrite negb_true_iff.
  split.
  - intros Hle. apply Qnot_le_lt. intros Hba.
    apply Qle_bool_iff in Hba. congruence.
  - intros Hlt. destruct (Qle_bool b a) eqn:E; [|reflexivity].
    apply Qle_bool_iff in E. exfalso. now apply (Qlt_not_le _ _ Hlt).
Qed.




End ScoreBounds.

Section ScoreSpec.
Local Open Scope Qc_scope.





End ScoreSpec.

Section ScoreOfReport.
Context {F : Type} `{Arith F}.
Variable DataFrame : Type.

End ScoreOfReport.

Section ScoreClaim.
Variable DataFrame : Type.
Local Open Scope Qc_scope.

End ScoreClaim.


(** ** Doubles: the facts about IEEE arithmetic that the risk metrics use *)

Section Binary64Facts.
Local Open Scope Z_scope.

(** [x == 0.0] holds of the two zeros only. *)
Lemma b64_eq_zero (x : B64.binary64) :
  feqb x (of_Z 0) = true -> exists s, x = S754_zero s.
Proof.
  destruct x as [s|s| |s m e]; simpl; try discriminate.
  - intros _. now exists s.
  - now destruct s.
  - now destruct s.
Qed.

(** A division by a zero returns an infinity or NaN. *)
Lemma b64_div_zero (x : B64.binary64) (s : bool) :
  fdiv x (S754_zero s) = S754_nan \/
  exists s', fdiv x (S754_zero s) = S754_infinity s'.
Proof.
  destruct x as [sx|sx| |sx m e]; simpl; eauto.
Qed.

(** A finite non-zero double divided by itself is [1.0]. *)
Lemma b64_div_self (s : bool) (m : positive) (e : Z) :
  fdiv (S754_finite s m e) (S754_finite s m e) = of_Z 1.
Proof.
  cbn [fdiv binary64_arith]. unfold SFdiv, SFdiv_core_binary.
  rewrite Z.sub_diag, Z.sub_diag.
  change (Z.min (fexp B64.prec B64.emax 0) 0) with (-53).
  change (0 - -53) with 53.
  rewrite Z.shiftl_mul_pow2 by lia.
  assert (Hdiv : Z.div_eucl (Zpos m * 2 ^ 53) (Zpos m) = (2 ^ 53, 0)).
  { pose proof (Z.div_mul (2 ^ 53) (Zpos m) ltac:(lia)) as Hq.
    pose proof (Z.mod_mul (2 ^ 53) (Zpos m) ltac:(lia)) as Hr.
    rewrite (Z.mul_comm (2 ^ 53)) in Hq, Hr.
    unfold Z.div, Z.modulo in Hq, Hr.
    destruct (Z.div_eucl (Zpos m * 2 ^ 53) (Zpos m)) as [q r].
    simpl in Hq, Hr. now subst. }
  rewrite Hdiv.
  assert (Hloc : new_location (Zpos m) 0 = loc_Exact).
  { unfold new_location, new_location_even, new_location_odd.
    now destruct (Z.even (Zpos m)). }
  rewrite Hloc, xorb_nilpotent. reflexivity.
Qed.

(** One step of the right shift halves a non-negative mantissa. *)
Lemma shr_1_m (r : shr_record) :
  0 <= shr_m r -> shr_m (shr_1 r) = shr_m r / 2.
Proof.
  destruct r as [m r s]. simpl. intros Hm.
  destruct m as [|p|p]; [reflexivity| |lia].
  destruct p as [p|p|]; simpl shr_m.
  - rewrite Pos2Z.inj_xI.
    apply (Z.div_unique_pos _ _ _ 1); lia.
  - rewrite Pos2Z.inj_xO.
    apply (Z.div_unique_pos _ _ _ 0); lia.
  - reflexivity.
Qed.

Lemma iter_shr_1_m (n : positive) : forall r,
  0 <= shr_m r -> shr_m (iter_pos shr_1 n r) = shr_m r / 2 ^ Zpos n.
Proof.
  assert (Hstep : forall r, 0 <= shr_m r -> 0 <= shr_m (shr_1 r)).
  { intros r Hr. rewrite shr_1_m by exact Hr. apply Z.div_pos; lia. }
  induction n as [n IH|n IH|]; intros r Hr; simpl iter_pos.
  - rewrite IH, IH, shr_1_m; trivial.
    + rewrite !Z.div_div by lia. f_equal.
      replace (Zpos n~1) with (1 + Zpos n + Zpos n) by lia.
      rewrite !Z.pow_add_r by lia. change (2 ^ 1) with 2. ring.
    + now apply Hstep.
    + rewrite IH by now apply Hstep.
      apply Z.div_pos; [now apply Hstep|lia].
  - rewrite IH, IH; trivial.
    + rewrite Z.div_div by lia. f_equal.
      replace (Zpos n~0) with (Zpos n + Zpos n) by lia.
      rewrite Z.pow_add_r by lia. reflexivity.
    + rewrite IH by exact Hr. apply Z.div_pos; [exact Hr|lia].
  - rewrite shr_1_m by exact Hr. reflexivity.
Qed.

(** A positive number has at least the size its digit count says. *)
Lemma digits2_pos_lower (m : positive) :
  2 ^ (Zpos (digits2_pos m) - 1) <= Zpos m.
Proof.
  induction m as [m IH|m IH|]; simpl digits2_pos.
  - rewrite Pos2Z.inj_succ, Pos2Z.inj_xI.
    replace (Z.succ (Zpos (digits2_pos m)) - 1)
      with (Z.succ (Zpos (digits2_pos m) - 1)) by lia.
    rewrite Z.pow_succ_r by lia.
    revert IH. generalize (2 ^ (Zpos (digits2_pos m) - 1)). lia.
  - rewrite Pos2Z.inj_succ. change (Zpos m~0) with (2 * Zpos m).
    replace (Z.succ (Zpos (digits2_pos m)) - 1)
      with (Z.succ (Zpos (digits2_pos m) - 1)) by lia.
    rewrite Z.pow_succ_r by lia.
    revert IH. generalize (2 ^ (Zpos (digits2_pos m) - 1)). lia.
  - simpl. lia.
Qed.

Lemma fexp_b64 (e : Z) : fexp B64.prec B64.emax e = Z.max (e - 53) (-1074).
Proof. reflexivity. Qed.

Lemma emin_b64 : emin B64.prec B64.emax = -1074.
Proof. reflexivity. Qed.

(** Shifting a positive mantissa to its format exponent leaves it positive,
    as long as the exponent is not below the smallest one. *)
Lemma shr_fexp_pos (m e : Z) (mrs : shr_record) (e' : Z) :
  0 < m -> emin B64.prec B64.emax <= e ->
  shr_fexp B64.prec B64.emax m e loc_Exact = (mrs, e') ->
  0 < shr_m mrs /\ emin B64.prec B64.emax <= e'.
Proof.
  rewrite emin_b64. intros Hm He. unfold shr_fexp, shr.
  destruct m as [|q|q]; try lia. cbn [Zdigits2 shr_record_of_loc].
  pose proof (digits2_pos_lower q) as Hdig.
  rewrite fexp_b64.
  destruct (Z.max (Zpos (digits2_pos q) + e - 53) (-1074) - e)
    as [|n|n] eqn:Hn; intros Heq; inversion Heq; subst; clear Heq.
  - simpl. lia.
  - rewrite iter_shr_1_m by (simpl; lia). cbn [shr_m]. split.
    + apply Z.div_str_pos. split; [apply Z.pow_pos_nonneg; lia|].
      apply Z.le_trans with (2 ^ (Zpos (digits2_pos q) - 1)); [|exact Hdig].
      apply Z.pow_le_mono_r; [lia|].
      clear Hdig. lia.
    + clear Hdig. lia.
  - simpl. lia.
Qed.

Lemma round_nearest_even_pos (m : Z) (l : location) :
  0 < m -> 0 < round_nearest_even m l.
Proof.
  intros Hm. unfold round_nearest_even.
  destruct l as [|[| |]]; try lia.
  destruct (Z.even m); lia.
Qed.

(** Rounding a positive mantissa never yields a zero or NaN. *)
Lemma binary_round_aux_pos (sx : bool) (m : positive) (e : Z) :
  emin B64.prec B64.emax <= e ->
  (exists m' e',
     binary_round_aux B64.prec B64.emax sx (Zpos m) e loc_Exact
     = S754_finite sx m' e') \/
  binary_round_aux B64.prec B64.emax sx (Zpos m) e loc_Exact
  = S754_infinity sx.
Proof.
  intros He. unfold binary_round_aux.
  destruct (shr_fexp B64.prec B64.emax (Zpos m) e loc_Exact)
    as [mrs1 e1] eqn:E1.
  destruct (@shr_fexp_pos (Zpos m) e mrs1 e1 ltac:(lia) He E1) as [Hm1 He1].
  pose proof (round_nearest_even_pos (loc_of_shr_record mrs1) Hm1) as Hr.
  destruct (shr_fexp B64.prec B64.emax
              (round_nearest_even (shr_m mrs1) (loc_of_shr_record mrs1))
              e1 loc_Exact) as [mrs2 e2] eqn:E2.
  destruct (@shr_fexp_pos _ e1 mrs2 e2 Hr He1 E2) as [Hm2 _].
  destruct (shr_m mrs2) as [|m2|m2]; try lia.
  destruct (e2 <=? B64.emax - B64.prec); [left|right]; eauto.
Qed.

(** The double of a positive integer is a positive number, or +infinity. *)
Lemma b64_of_Z_pos (z : Z) :
  0 < z ->
  (exists m e, B64.of_Z z = S754_finite false m e) \/
  B64.of_Z z = S754_infinity false.
Proof.
  intros Hz. destruct z as [|p|p]; try lia.
  unfold B64.of_Z, binary_normalize, binary_round, shl_align.
  rewrite fexp_b64.
  destruct (Z.max (Zpos (digits2_pos p) + 0 - 53) (-1074) - 0);
    apply binary_round_aux_pos; rewrite emin_b64; lia.
Qed.
End Binary64Facts.

(** ** Degenerate volatility *)

Section ConstantSeries.
Local Open Scope Z_scope.

Lemma b64_zero_div_of_Z (z : Z) :
  0 < z -> fdiv (S754_zero false) (B64.of_Z z) = S754_zero false.
Proof.
  intros Hz.
  destruct (b64_of_Z_pos Hz) as [(m & e & ->)| ->]; reflexivity.
Qed.

Lemma pct_change_from_constant (s : bool) (m : positive) (e : Z) (k : nat) :
  pct_change_from (S754_finite s m e) (repeat (S754_finite s m e) k)
  = repeat (S754_zero false) k.
Proof.
  induction k as [|k IH]; cbn [repeat pct_change_from]; [reflexivity|].
  now rewrite b64_div_self, IH.
Qed.

Lemma dropna_zeros (k : nat) :
  dropna (repeat (S754_zero false : B64.binary64) k)
  = repeat (S754_zero false) k.
Proof.
  apply dropna_id. intros x Hx. apply repeat_spec in Hx. now subst.
Qed.

Lemma py_sum_zeros (k : nat) :
  py_sum (repeat (S754_zero false : B64.binary64) k) = S754_zero false.
Proof.
  unfold py_sum. change (of_Z 0) with (S754_zero false : B64.binary64).
  induction k as [|k IH]; simpl; [reflexivity|exact IH].
Qed.

Lemma fold_add_zeros (l : list B64.binary64) :
  Forall (eq (S754_zero false)) l ->
  fold_left fadd l (S754_zero false) = S754_zero false.
Proof.
  induction 1 as [|x t <- _ IH]; simpl; [reflexivity|exact IH].
Qed.

Lemma add8_zeros (r block : list B64.binary64) :
  Forall (eq (S754_zero false)) r -> Forall (eq (S754_zero false)) block ->
  Forall (eq (S754_zero false)) (add8 r block).
Proof.
  intros Hr. revert block.
  induction Hr as [|x r <- _ IH]; intros block Hb; [constructor|].
  destruct Hb as [|y block <- Hb]; [constructor|].
  unfold add8 in *. simpl. constructor; [reflexivity|now apply IH].
Qed.

Lemma Forall_firstn {A : Type} (P : A -> Prop) (n : nat) (l : list A) :
  Forall P l -> Forall P (firstn n l).
Proof.
  intros Hl. revert n.
  induction Hl as [|x t Hx Ht IH]; intros [|n]; simpl; try constructor;
    [exact Hx|apply IH].
Qed.

Lemma Forall_skipn {A : Type} (P : A -> Prop) (n : nat) (l : list A) :
  Forall P l -> Forall P (skipn n l).
Proof.
  intros Hl. revert n.
  induction Hl as [|x t Hx Ht IH]; intros [|n]; simpl; try constructor;
    try assumption. apply IH.
Qed.

Lemma sum_blocks_zeros (blocks : nat) :
  forall r a : list B64.binary64,
    Forall (eq (S754_zero false)) r -> Forall (eq (S754_zero false)) a ->
    Forall (eq (S754_zero false)) (fst (sum_blocks blocks r a)) /\
    Forall (eq (S754_zero false)) (snd (sum_blocks blocks r a)).
Proof.
  induction blocks as [|k IH]; intros r a Hr Ha; cbn [sum_blocks fst snd];
    [now split|].
  apply IH.
  - apply add8_zeros; [exact Hr|now apply Forall_firstn].
  - now apply Forall_skipn.
Qed.

Lemma pairwise_sum_zeros (fuel : nat) :
  forall a : list B64.binary64,
    (List.length a <= fuel)%nat ->
    Forall (eq (S754_zero false)) a ->
    pairwise_sum_fuel fuel a = S754_zero false.
Proof.
  induction fuel as [|fuel IH]; intros a Hlen Ha;
    rewrite pairwise_sum_fuel_unfold; cbv zeta.
  - destruct a; [reflexivity|simpl in Hlen; lia].
  - destruct (List.length a <? 8)%nat eqn:Hsmall.
    + destruct Ha as [|x t <- Ht]; [reflexivity|].
      now apply fold_add_zeros.
    + apply Nat.ltb_ge in Hsmall.
      destruct (List.length a <=? 128)%nat eqn:Hblock.
      * pose proof (Nat.div_mod_eq (List.length a) 8) as Hdiv.
        destruct (@sum_blocks_length B64.binary64 _
                    (List.length a / 8 - 1) (firstn 8 a) (skipn 8 a))
          as [Hr8 _].
        { rewrite length_firstn. lia. }
        { rewrite length_skipn. lia. }
        destruct (@sum_blocks_zeros (List.length a / 8 - 1)
                    (firstn 8 a) (skipn 8 a))
          as [Hr Hrest].
        { now apply Forall_firstn. }
        { now apply Forall_skipn. }
        destruct (sum_blocks _ _ _) as [r rest]. simpl in Hr8, Hr, Hrest.
        assert (Hsum : sum8 r = S754_zero false).
        { do 8 (destruct r as [|? r]; [discriminate Hr8|]).
          destruct r; [|discriminate Hr8].
          repeat match goal with
                 | H : Forall _ (_ :: _) |- _ =>
                     apply Forall_cons_iff in H; destruct H as [<- H]
                 end.
          reflexivity. }
        rewrite Hsum. now apply fold_add_zeros.
      * apply Nat.leb_gt in Hblock.
        destruct (pairwise_split_lengths Hblock) as [Hpos Hlt].
        rewrite !IH; try reflexivity;
          rewrite ?length_firstn, ?length_skipn; try lia;
          (apply Forall_firstn || apply Forall_skipn); exact Ha.
Qed.

Lemma np_sum_zeros (k : nat) :
  np_sum (repeat (S754_zero false : B64.binary64) k) = S754_zero false.
Proof.
  unfold np_sum, pairwise_sum. rewrite pairwise_sum_zeros; [reflexivity|lia|].
  apply Forall_forall. intros x Hx. apply repeat_spec in Hx. now subst.
Qed.

(** The sample standard deviation of two or more zeros is zero. *)
Lemma series_std_zeros (k : nat) :
  (2 <= k)%nat ->
  series_std (repeat (S754_zero false : B64.binary64) k) = S754_zero false.
Proof.
  intros Hk. unfold series_std, series_var, count.
  rewrite dropna_zeros, repeat_length.
  destruct (Z.of_nat k <=? 1) eqn:Hle; [apply Z.leb_le in Hle; lia|].
  assert (Hfill : fill_zero (repeat (S754_zero false : B64.binary64) k)
                  = repeat (S754_zero false) k).
  { unfold fill_zero. now rewrite map_repeat. }
  rewrite Hfill, np_sum_zeros.
  change (@fdiv B64.binary64 _) with (SFdiv B64.prec B64.emax).
  change (@of_Z B64.binary64 _) with B64.of_Z.
  change (SFdiv B64.prec B64.emax (S754_zero false) (B64.of_Z (Z.of_nat k)))
    with (fdiv (S754_zero false) (B64.of_Z (Z.of_nat k))).
  rewrite b64_zero_div_of_Z by lia.
  rewrite map_repeat.
  change (if is_nan (S754_zero false : B64.binary64)
          then B64.of_Z 0
          else fmul (fsub (S754_zero false) (S754_zero false))
                    (fsub (S754_zero false) (S754_zero false)))
    with (S754_zero false : B64.binary64).
  rewrite np_sum_zeros.
  change (SFdiv B64.prec B64.emax (S754_zero false)
            (B64.of_Z (Z.of_nat k - 1)))
    with (fdiv (S754_zero false) (B64.of_Z (Z.of_nat k - 1))).
  rewrite b64_zero_div_of_Z by lia.
  reflexivity.
Qed.

(** With fewer than two values it is NaN. *)
Lemma series_std_short (returns : list B64.binary64) :
  (List.length returns <= 1)%nat -> series_std returns = S754_nan.
Proof.
  intros Hlen. unfold series_std, series_var, count.
  assert (Hd : (List.length (dropna returns) <= 1)%nat).
  { unfold dropna.
    eapply Nat.le_trans; [apply filter_length_le|exact Hlen]. }
  destruct (Z.of_nat (List.length (dropna returns)) <=? 1) eqn:Hle.
  - reflexivity.
  - apply Z.leb_gt in Hle. lia.
Qed.
End ConstantSeries.

Section DegenerateVolatility.
Variable self : RiskCalculator.t B64.binary64.

Lemma sqrt_252 :
  fsqrt (of_Z 252) = (S754_finite false 8936553463969119 (-49) : B64.binary64).
Proof. reflexivity. Qed.

(** C6 (amended).  On doubles: for every return series whose sample standard
    deviation is zero, [calculate_sharpe_ratio] returns NaN or an infinity,
    the IEEE result of the division by zero, and raises nothing; for a constant
    series of at least three finite non-zero prices [calculate_volatility]
    returns 0; with fewer than three observations it returns NaN. *)
Theorem degenerate_volatility :
  (forall returns annualize,
     feqb (series_std returns) (of_Z 0) = true ->
     exists x,
       RiskCalculator.calculate_sharpe_ratio self returns annualize = Ok x /\
       (x = S754_nan \/ exists s, x = S754_infinity s)) /\
  (forall s m e n annualize,
     (3 <= n)%nat ->
     result_bind
       (RiskCalculator.calculate_returns self (repeat (S754_finite s m e) n))
       (fun returns =>
          RiskCalculator.calculate_volatility self returns annualize)
     = Ok (S754_zero false)) /\
  (forall prices annualize,
     (List.length prices <= 2)%nat ->
     result_bind (RiskCalculator.calculate_returns self prices)
       (fun returns =>
          RiskCalculator.calculate_volatility self returns annualize)
     = Ok S754_nan).
Proof.
  split; [|split].
  - intros returns annualize Hstd.
    destruct (b64_eq_zero _ Hstd) as [s Hs].
    unfold RiskCalculator.calculate_sharpe_ratio. rewrite Hs.
    eexists. split; [reflexivity|].
    destruct annualize.
    + rewrite sqrt_252.
      change (fmul (S754_zero s)
                (S754_finite false 8936553463969119 (-49)))
        with (S754_zero (xorb s false) : B64.binary64).
      apply b64_div_zero.
    + apply b64_div_zero.
  - intros s m e n annualize Hn.
    destruct n as [|k]; [lia|].
    unfold RiskCalculator.calculate_returns. cbn [repeat].
    rewrite dropna_pct_change, pct_change_from_constant, dropna_zeros.
    cbn [result_bind]. unfold RiskCalculator.calculate_volatility.
    rewrite series_std_zeros by lia.
    now destruct annualize.
  - intros prices annualize Hlen.
    unfold RiskCalculator.calculate_returns. cbn [result_bind].
    unfold RiskCalculator.calculate_volatility.
    rewrite series_std_short; [now destruct annualize|].
    destruct prices as [|p t]; [simpl; lia|].
    rewrite dropna_pct_change. unfold dropna.
    eapply Nat.le_trans; [apply filter_length_le|].
    rewrite pct_change_from_length. simpl in Hlen. lia.
Qed.
End DegenerateVolatility.

Lemma degenerate_volatility_witness :
  (exists x,
     RiskCalculator.calculate_sharpe_ratio calc64
       (repeat (B64.of_decimal 1 1) 8) true = Ok x /\
     (x = S754_nan \/ exists s, x = S754_infinity s)) /\
  result_bind
    (RiskCalculator.calculate_returns calc64 (repeat (B64.of_Z 100) 4))
    (fun returns => RiskCalculator.calculate_volatility calc64 returns true)
  = Ok (S754_zero false).
Proof.
  destruct (degenerate_volatility calc64) as (Hsharpe & Hvol & _).
  split.
  - apply Hsharpe. vm_compute. reflexivity.
  - apply (Hvol false 7036874417766400%positive (-46)%Z 4%nat true). lia.
Defined.

(** C6, as stated, fails: for the constant prices [100.0, 100.0] the return
    series is the single return [0.0], whose sample standard deviation
    (one value, [ddof = 1]) is NaN; [calculate_volatility] returns NaN, not
    0. *)
Lemma volatility_of_two_constant_prices :
  let prices := [B64.of_Z 100; B64.of_Z 100] in
  RiskCalculator.calculate_returns calc64 prices = Ok [S754_zero false] /\
  RiskCalculator.calculate_volatility calc64 [S754_zero false] true
  = Ok S754_nan /\
  RiskCalculator.calculate_volatility calc64 [S754_zero false] true
  <> Ok (B64.of_Z 0).
Proof.
  intros prices. split; [reflexivity|]. split; [reflexivity|].
  discriminate.
Qed.

(** ** Rebalancing when every ticker resolves *)

Section RebalancingResolved.
Context {F : Type} `{Arith F}.
Variable DataFrame : Type.

Lemma for_each_recommend_resolved (v : PortfolioAnalyzer.valuation F)
    (current_weights target_weights : dict F) (keys : list string)
    (acc : dict (PortfolioAnalyzer.recommendation F)) :
    NoDup keys ->
    (forall k, In k keys -> ~ In k (dict_keys acc)) ->
    (forall k, In k keys ->
               exists p, dict_get k (PortfolioAnalyzer.positions v) = Some p) ->
    exists recommendations,
      PortfolioAnalyzer.for_each
        (PortfolioAnalyzer.recommend v current_weights target_weights)
        keys acc
      = Ok recommendations /\
      dict_keys recommendations = dict_keys acc ++ keys.
Proof.
  revert acc.
  induction keys as [|k rest IH]; intros acc Hnd Hfresh Hpos.
  - exists acc. split; [reflexivity|]. now rewrite app_nil_r.
  - inversion Hnd as [|? ? Hnotin Hnd']; subst.
    destruct (Hpos k (or_introl eq_refl)) as [p Hp].
    cbn [PortfolioAnalyzer.for_each].
    unfold PortfolioAnalyzer.recommend at 1, dict_item.
    rewrite Hp. cbn [result_bind].
    match goal with
    | |- context [PortfolioAnalyzer.for_each _ rest (dict_set k ?r acc)] =>
        destruct (IH (dict_set k r acc) Hnd') as (recs & Hrecs & Hkeys);
        [ | | exists recs; split; [exact Hrecs|] ]
    end.
    + intros k' Hk' Hin. rewrite dict_keys_set in Hin.
      unfold dict_mem in Hin.
      assert (Hnone : dict_get k acc = None).
      { apply dict_get_none_iff. apply Hfresh. now left. }
      rewrite Hnone in Hin. apply in_app_or in Hin.
      destruct Hin as [Hin|[<-|[]]].
      * apply (Hfresh k'); [now right|exact Hin].
      * now apply Hnotin.
    + intros k' Hk'. apply Hpos. now right.
    + rewrite Hkeys, dict_keys_set. unfold dict_mem.
      assert (Hnone : dict_get k acc = None).
      { apply dict_get_none_iff. apply Hfresh. now left. }
      rewrite Hnone. now rewrite <- app_assoc.
Qed.

(** When every held ticker resolves, [get_rebalancing_recommendations]
    returns one recommendation per holding, in the order of the holdings. *)
Lemma get_rebalancing_recommendations_resolved
    (self : PortfolioAnalyzer.t F DataFrame)
    (target_weights : option (dict F)) :
  dict_wf (PortfolioAnalyzer.holdings self) ->
  first_unresolved (PortfolioAnalyzer.fetcher self)
    (PortfolioAnalyzer.holdings self) = None ->
  exists recommendations,
    PortfolioAnalyzer.get_rebalancing_recommendations target_weights self
    = (Ok recommendations, self) /\
    dict_keys recommendations = dict_keys (PortfolioAnalyzer.holdings self).
Proof.
  intros Hwf Hfirst.
  unfold PortfolioAnalyzer.get_rebalancing_recommendations,
    PortfolioAnalyzer.bind.
  rewrite (calculate_portfolio_value_closed self eq_refl Hwf).
  destruct (weights_dict_weighted
              (fun p => fdiv (PortfolioAnalyzer.p_position_value p)
                          (total_of (entries (PortfolioAnalyzer.fetcher self)
                                       (PortfolioAnalyzer.holdings self))))
              (entries (PortfolioAnalyzer.fetcher self)
                 (PortfolioAnalyzer.holdings self)))
    as [cw Hcw].
  unfold valuation_of at 1. simpl PortfolioAnalyzer.positions.
  unfold PortfolioAnalyzer.lift at 1. rewrite Hcw.
  unfold PortfolioAnalyzer.get_self, PortfolioAnalyzer.lift.
  match goal with
  | |- context [PortfolioAnalyzer.for_each
                  (PortfolioAnalyzer.recommend ?v ?c ?tw) ?keys []] =>
      destruct (@for_each_recommend_resolved v c tw keys [])
        as (recs & Hrecs & Hkeys)
  end.
  - exact Hwf.
  - intros k _ [].
  - intros k Hk. apply positions_resolved; [exact Hk|].
    unfold first_unresolved in Hfirst.
    pose proof (find_none _ _ Hfirst k Hk) as Hr. simpl in Hr.
    now destruct (resolved (PortfolioAnalyzer.fetcher self) k).
  - exists recs. split; [|exact Hkeys].
    f_equal. exact Hrecs.
Qed.
End RebalancingResolved.

(** ** The score on doubles *)

Lemma b64_same_eq (x y : B64.binary64) : b64_same x y = true -> x = y.
Proof.
  destruct x as [s|s| |s m e], y as [s'|s'| |s' m' e']; simpl;
    try discriminate; try reflexivity.
  - intros Hs. apply Bool.eqb_prop in Hs. now subst.
  - intros Hs. apply Bool.eqb_prop in Hs. now subst.
  - intros Hs. apply andb_prop in Hs. destruct Hs as [Hs He].
    apply andb_prop in Hs. destruct Hs as [Hs Hm].
    apply Bool.eqb_prop in Hs. apply Pos.eqb_eq in Hm. apply Z.eqb_eq in He.
    now subst.
Qed.

(** The score reads the two weights only through the two threshold tests. *)
Lemma score_of_flags (n s : nat) (top_position top_3 : B64.binary64) :
  PortfolioAnalyzer.score_of n s top_position top_3
  = PortfolioAnalyzer.score_of n s
      (flag64 (fgtb top_position (of_decimal 40 2)))
      (flag64 (fgtb top_3 (of_decimal 70 2))).
Proof.
  unfold PortfolioAnalyzer.score_of.
  assert (Hflag40 : forall b, fgtb (flag64 b) (of_decimal 40 2) = b)
    by (intros []; reflexivity).
  assert (Hflag70 : forall b, fgtb (flag64 b) (of_decimal 70 2) = b)
    by (intros []; reflexivity).
  now rewrite Hflag40, Hflag70.
Qed.

Lemma scores64_ok_spec (bound n s : nat) (over40 over70 : bool) :
  scores64_ok bound = true ->
  (n <= bound)%nat -> (s <= bound)%nat ->
  score64_ok n s over40 over70 = true.
Proof.
  unfold scores64_ok. intros Hall Hn Hs.
  rewrite forallb_forall in Hall.
  specialize (Hall n ltac:(apply in_seq; lia)).
  rewrite forallb_forall in Hall.
  specialize (Hall s ltac:(apply in_seq; lia)).
  rewrite forallb_forall in Hall.
  specialize (Hall over40 ltac:(destruct over40; simpl; tauto)).
  rewrite forallb_forall in Hall.
  apply Hall. destruct over70; simpl; tauto.
Qed.

Lemma scores64_ok_32 : scores64_ok 32 = true.
Proof. vm_compute. reflexivity. Qed.

(** X20.  On doubles, for up to 32 holdings and 32 sectors, the score of
    the source is the double nearest to the score of the specification, and
    it is neither below 0 nor above 10. *)
Lemma score_of_on_doubles (n s : nat) (top_position top_3 : B64.binary64) :
  (n <= 32)%nat -> (s <= 32)%nat ->
  let score := PortfolioAnalyzer.score_of n s top_position top_3 in
  score = b64_of_Qc (spec_score n s (fgtb top_position (of_decimal 40 2))
                       (fgtb top_3 (of_decimal 70 2))) /\
  fltb score (of_Z 0) = false /\ fltb (of_Z 10) score = false.
Proof.
  intros Hn Hs score. subst score. rewrite score_of_flags.
  pose proof (@scores64_ok_spec 32 n s
                (fgtb top_position (of_decimal 40 2))
                (fgtb top_3 (of_decimal 70 2)) scores64_ok_32 Hn Hs) as Hok.
  unfold score64_ok in Hok.
  apply andb_prop in Hok. destruct Hok as [Hok Hhi].
  apply andb_prop in Hok. destruct Hok as [Hsame Hlo].
  apply b64_same_eq in Hsame. apply negb_true_iff in Hlo, Hhi.
  now repeat split.
Qed.

(** ** Returns of finite non-zero prices on doubles *)

Section FiniteReturns.
Local Open Scope Z_scope.

Lemma shr_fexp_nonneg (m e : Z) (l : location) :
  0 <= m -> 0 <= shr_m (fst (shr_fexp B64.prec B64.emax m e l)).
Proof.
  intros Hm. unfold shr_fexp, shr.
  assert (Hrec : shr_m (shr_record_of_loc m l) = m)
    by (destruct l as [|[| |]]; reflexivity).
  destruct (fexp B64.prec B64.emax (Zdigits2 m + e) - e) as [|n|n];
    cbn [fst]; try (rewrite Hrec; exact Hm).
  rewrite iter_shr_1_m by (rewrite Hrec; exact Hm).
  rewrite Hrec. apply Z.div_pos; [exact Hm|].
  apply Z.pow_pos_nonneg; lia.
Qed.

Lemma round_nearest_even_nonneg (m : Z) (l : location) :
  0 <= m -> 0 <= round_nearest_even m l.
Proof.
  intros Hm. unfold round_nearest_even.
  destruct l as [|[| |]]; try lia.
  destruct (Z.even m); lia.
Qed.

(** Rounding a non-negative mantissa never yields NaN. *)
Lemma binary_round_aux_not_nan (sx : bool) (m e : Z) (l : location) :
  0 <= m -> binary_round_aux B64.prec B64.emax sx m e l <> S754_nan.
Proof.
  intros Hm. unfold binary_round_aux.
  pose proof (shr_fexp_nonneg e l Hm) as H1.
  destruct (shr_fexp B64.prec B64.emax m e l) as [mrs1 e1]. cbn [fst] in H1.
  pose proof (shr_fexp_nonneg e1 loc_Exact
                (round_nearest_even_nonneg (loc_of_shr_record mrs1) H1))
    as H2.
  destruct (shr_fexp B64.prec B64.emax
              (round_nearest_even (shr_m mrs1) (loc_of_shr_record mrs1))
              e1 loc_Exact) as [mrs2 e2]. cbn [fst] in H2.
  destruct (shr_m mrs2) as [|m2|m2]; try discriminate; try lia.
  destruct (e2 <=? B64.emax - B64.prec); discriminate.
Qed.

Lemma binary_normalize_not_nan (m e : Z) (szero : bool) :
  binary_normalize B64.prec B64.emax m e szero <> S754_nan.
Proof.
  unfold binary_normalize, binary_round.
  destruct m as [|p|p]; [discriminate| |];
    destruct (shl_align _ _ _) as [mz ez];
    apply binary_round_aux_not_nan; lia.
Qed.

Lemma b64_div_finite_not_nan (s s' : bool) (m m' : positive) (e e' : Z) :
  fdiv (S754_finite s m e) (S754_finite s' m' e') <> S754_nan.
Proof.
  cbn [fdiv binary64_arith]. unfold SFdiv, SFdiv_core_binary.
  set (shift := _ - _ - _).
  set (num := match shift with
              | 0 => Zpos m
              | Zpos _ => Z.shiftl (Zpos m) shift
              | Zneg _ => 0
              end).
  assert (Hnum : 0 <= num).
  { subst num. destruct shift; try lia. apply Z.shiftl_nonneg. lia. }
  pose proof (Z.div_pos num (Zpos m') Hnum ltac:(lia)) as Hq.
  unfold Z.div in Hq.
  destruct (Z.div_eucl num (Zpos m')) as [q r]. cbn [fst] in Hq.
  now apply binary_round_aux_not_nan.
Qed.

Lemma b64_sub_one_not_nan (x : B64.binary64) :
  x <> S754_nan -> fsub x (of_Z 1) <> S754_nan.
Proof.
  intros Hx.
  change (@of_Z B64.binary64 _ 1)
    with (S754_finite false 4503599627370496 (-52)).
  cbn [fsub binary64_arith]. unfold SFsub.
  destruct x as [s|s| |s m e]; try discriminate.
  - now elim Hx.
  - apply binary_normalize_not_nan.
Qed.

(** The relative change between two finite non-zero doubles is not NaN. *)
Lemma change_not_nan (p q : B64.binary64) :
  b64_finite p -> b64_finite q ->
  is_nan (fsub (fdiv p q) (of_Z 1)) = false.
Proof.
  intros (s & m & e & ->) (s' & m' & e' & ->).
  pose proof (b64_sub_one_not_nan (@b64_div_finite_not_nan s s' m m' e e'))
    as Hnan.
  now destruct (fsub _ _).
Qed.

(** X21.  On doubles, a series of at least two finite non-zero prices has
    its [len(prices) - 1] returns, each [prices[i]/prices[i-1] - 1]. *)
Lemma calculate_returns_finite_prices (self : RiskCalculator.t B64.binary64)
    (prices : list B64.binary64) :
  (2 <= List.length prices)%nat ->
  (forall p, In p prices -> b64_finite p) ->
  exists returns,
    RiskCalculator.calculate_returns self prices = Ok returns /\
    List.length returns = (List.length prices - 1)%nat /\
    forall i, (1 <= i < List.length prices)%nat ->
              nth (i - 1) returns fnan = change_at prices i.
Proof.
  intros Hlen Hfin.
  assert (Hnan : forall i, (1 <= i < List.length prices)%nat ->
                           is_nan (change_at prices i) = false).
  { intros i Hi. unfold change_at.
    apply change_not_nan; apply Hfin; apply nth_In; lia. }
  destruct prices as [|p t]; [simpl in Hlen; lia|].
  assert (Hall : forall x, In x (pct_change_from p t) -> is_nan x = false).
  { intros x Hx.
    destruct (In_nth _ _ fnan Hx) as (j & Hj & <-).
    rewrite pct_change_from_length in Hj.
    rewrite pct_change_from_nth by exact Hj.
    apply Hnan. simpl. lia. }
  exists (pct_change_from p t).
  unfold RiskCalculator.calculate_returns.
  rewrite dropna_pct_change, (dropna_id _ Hall).
  split; [reflexivity|]. split.
  - rewrite pct_change_from_length. simpl. lia.
  - intros i Hi. simpl in Hi.
    destruct i as [|j]; [lia|].
    replace (S j - 1)%nat with j by lia.
    apply pct_change_from_nth. lia.
Qed.
End FiniteReturns.

(** * Further properties of the code *)

(** ** Holdings: [add_holding] *)

Section DictSetFacts.
Context {V : Type}.

Lemma dict_get_set_same (k : string) (v : V) (d : dict V) :
  dict_get k (dict_set k v d) = Some v.
Proof.
  induction d as [|[k' v'] t IH]; simpl.
  - now rewrite String.eqb_refl.
  - destruct (String.eqb k k') eqn:E; simpl.
    + now rewrite String.eqb_refl.
    + now rewrite E.
Qed.

Lemma dict_get_set_other (k k' : string) (v : V) (d : dict V) :
  k <> k' -> dict_get k (dict_set k' v d) = dict_get k d.
Proof.
  intros Hne. induction d as [|[k'' v''] t IH]; simpl.
  - now rewrite (proj2 (String.eqb_neq k k') Hne).
  - destruct (String.eqb k' k'') eqn:E; simpl.
    + apply String.eqb_eq in E. subst k''.
      now rewrite (proj2 (String.eqb_neq k k') Hne).
    + now rewrite IH.
Qed.
End DictSetFacts.

Section AddHolding.
Context {F : Type} `{Arith F}.
Variable DataFrame : Type.

(** X1.  [add_holding] always returns; afterwards the ticker maps to the new
    shares and purchase price (an earlier entry of that ticker is
    overwritten, not accumulated), every other ticker keeps its entry, a new
    ticker goes to the end and a known one keeps its place, and the loaded
    price data are left as they were. *)
Theorem add_holding_lookup (self : PortfolioAnalyzer.t F DataFrame)
    (ticker : string) (shares : F) (purchase_price : option F) :
  let out :=
    PortfolioAnalyzer.add_holding ticker shares purchase_price self in
  fst out = Ok tt /\
  dict_get ticker (PortfolioAnalyzer.holdings (snd out))
  = Some {| PortfolioAnalyzer.h_shares := shares;
            PortfolioAnalyzer.h_purchase_price := purchase_price |} /\
  (forall other, other <> ticker ->
     dict_get other (PortfolioAnalyzer.holdings (snd out))
     = dict_get other (PortfolioAnalyzer.holdings self)) /\
  dict_keys (PortfolioAnalyzer.holdings (snd out))
  = (if dict_mem ticker (PortfolioAnalyzer.holdings self)
     then dict_keys (PortfolioAnalyzer.holdings self)
     else dict_keys (PortfolioAnalyzer.holdings self) ++ [ticker]) /\
  PortfolioAnalyzer.portfolio_data (snd out)
  = PortfolioAnalyzer.portfolio_data self.
Proof.
  intros out. subst out. cbn [PortfolioAnalyzer.add_holding fst snd
    PortfolioAnalyzer.holdings PortfolioAnalyzer.portfolio_data].
  split; [reflexivity|]. split; [apply dict_get_set_same|].
  split; [intros other Hne; now apply dict_get_set_other|].
  split; [apply dict_keys_set|reflexivity].
Qed.
End AddHolding.

(** ** Price data: [fetch_portfolio_data] and [load_portfolio_data] *)

Section FetchPortfolioData.
Context {F : Type}.
Variable DataFrame : Type.
Variable f : StockDataFetcher.t F DataFrame.
Variable period : string.

Lemma fetch_fold_lookup (ticker : string) (tickers : list string) :
  forall acc : dict DataFrame,
    dict_get ticker
      (fold_left
         (fun portfolio_data t =>
            match StockDataFetcher.fetch_stock_data f t period with
            | Some data => dict_set t data portfolio_data
            | None => portfolio_data
            end)
         tickers acc)
    = if existsb (String.eqb ticker) tickers
      then match StockDataFetcher.fetch_stock_data f ticker period with
           | Some data => Some data
           | None => dict_get ticker acc
           end
      else dict_get ticker acc.
Proof.
  induction tickers as [|t rest IH]; intros acc; simpl; [reflexivity|].
  rewrite IH.
  destruct (String.eqb_spec ticker t) as [->|Hne]; simpl.
  - destruct (StockDataFetcher.fetch_stock_data f t period) as [data|].
    + rewrite dict_get_set_same. now destruct (existsb _ rest).
    + now destruct (existsb _ rest).
  - destruct (StockDataFetcher.fetch_stock_data f t period) as [data|];
      [rewrite dict_get_set_other by exact Hne|]; reflexivity.
Qed.

Lemma fetch_fold_wf (tickers : list string) :
  forall acc : dict DataFrame,
    dict_wf acc ->
    dict_wf
      (fold_left
         (fun portfolio_data t =>
            match StockDataFetcher.fetch_stock_data f t period with
            | Some data => dict_set t data portfolio_data
            | None => portfolio_data
            end)
         tickers acc).
Proof.
  induction tickers as [|t rest IH]; intros acc Hwf; simpl; [exact Hwf|].
  apply IH.
  destruct (StockDataFetcher.fetch_stock_data f t period);
    [now apply dict_wf_set|exact Hwf].
Qed.

(** X2.  [fetch_portfolio_data] returns a dictionary that holds, for each
    requested ticker whose history could be fetched, that history, and no
    entry for any other ticker: a ticker whose fetch failed is left out, a
    ticker requested twice appears once. *)
Theorem fetch_portfolio_data_lookup (tickers : list string)
    (ticker : string) :
  dict_get ticker (StockDataFetcher.fetch_portfolio_data f tickers period)
  = (if existsb (String.eqb ticker) tickers
     then StockDataFetcher.fetch_stock_data f ticker period
     else None) /\
  dict_wf (StockDataFetcher.fetch_portfolio_data f tickers period).
Proof.
  unfold StockDataFetcher.fetch_portfolio_data. split.
  - rewrite fetch_fold_lookup. simpl.
    destruct (existsb _ tickers); [|reflexivity].
    now destruct (StockDataFetcher.fetch_stock_data f ticker period).
  - apply fetch_fold_wf. constructor.
Qed.
End FetchPortfolioData.

Section LoadPortfolioData.
Context {F : Type} `{Arith F}.
Variable DataFrame : Type.

Lemma length_zero_iff_no_key {V : Type} (d : dict V) :
  (0 <? List.length d)%nat = false <-> forall k, dict_get k d = None.
Proof.
  destruct d as [|[k v] t]; simpl.
  - split; [reflexivity|reflexivity].
  - split; [discriminate|].
    intros Hnone. specialize (Hnone k). now rewrite String.eqb_refl in Hnone.
Qed.

(** X3.  [load_portfolio_data] on an analyzer without holdings returns
    [False] and changes nothing.  With holdings it replaces the loaded data
    by what [fetch_portfolio_data] returns for the held tickers (so a held
    ticker maps to its fetched history, any other ticker to nothing, and
    data loaded earlier are discarded), keeps the holdings, and returns
    [False] exactly when no held ticker could be fetched. *)
Theorem load_portfolio_data_loads (self : PortfolioAnalyzer.t F DataFrame)
    (period : string) :
  let out := PortfolioAnalyzer.load_portfolio_data period self in
  (PortfolioAnalyzer.holdings self = [] -> out = (Ok false, self)) /\
  (PortfolioAnalyzer.holdings self <> [] ->
   (forall ticker,
      dict_get ticker (PortfolioAnalyzer.portfolio_data (snd out))
      = if dict_mem ticker (PortfolioAnalyzer.holdings self)
        then StockDataFetcher.fetch_stock_data
               (PortfolioAnalyzer.fetcher self) ticker period
        else None) /\
   PortfolioAnalyzer.holdings (snd out) = PortfolioAnalyzer.holdings self /\
   (fst out = Ok false <->
    forall ticker,
      In ticker (dict_keys (PortfolioAnalyzer.holdings self)) ->
      StockDataFetcher.fetch_stock_data
        (PortfolioAnalyzer.fetcher self) ticker period = None) /\
   (fst out = Ok true \/ fst out = Ok false)).
Proof.
  intros out. subst out. unfold PortfolioAnalyzer.load_portfolio_data.
  assert (Hmem : forall ticker,
            existsb (String.eqb ticker)
              (dict_keys (PortfolioAnalyzer.holdings self))
            = dict_mem ticker (PortfolioAnalyzer.holdings self)).
  { intros ticker. unfold dict_mem.
    induction (PortfolioAnalyzer.holdings self) as [|[k v] t IH]; simpl;
      [reflexivity|].
    destruct (String.eqb ticker k); [reflexivity|exact IH]. }
  split.
  - intros Hempty. now rewrite Hempty.
  - intros Hne.
    destruct (dict_keys (PortfolioAnalyzer.holdings self)) as [|k ks] eqn:Hk.
    { destruct (PortfolioAnalyzer.holdings self); [now elim Hne|].
      discriminate Hk. }
    cbn [fst snd PortfolioAnalyzer.portfolio_data PortfolioAnalyzer.holdings].
    assert (Hget : forall ticker,
              dict_get ticker
                (StockDataFetcher.fetch_portfolio_data
                   (PortfolioAnalyzer.fetcher self) (k :: ks) period)
              = if dict_mem ticker (PortfolioAnalyzer.holdings self)
                then StockDataFetcher.fetch_stock_data
                       (PortfolioAnalyzer.fetcher self) ticker period
                else None).
    { intros ticker. rewrite <- Hmem.
      apply fetch_portfolio_data_lookup. }
    split; [exact Hget|]. split; [reflexivity|]. split.
    + split.
      * intros Hfalse. inversion Hfalse as [Hlen].
        pose proof (proj1 (length_zero_iff_no_key _) Hlen) as Hnone.
        clear Hlen. rename Hnone into Hlen.
        intros ticker Hin. specialize (Hlen ticker).
        rewrite Hget, <- Hmem in Hlen.
        replace (existsb (String.eqb ticker) (k :: ks)) with true in Hlen;
          [exact Hlen|].
        symmetry. apply existsb_exists. exists ticker.
        split; [exact Hin|apply String.eqb_refl].
      * intros Hnone. f_equal. apply (proj2 (length_zero_iff_no_key _)).
        intros ticker. rewrite Hget, <- Hmem.
        destruct (existsb (String.eqb ticker) (k :: ks)) eqn:Hex;
          [|reflexivity].
        apply existsb_exists in Hex. destruct Hex as (t & Hin & Heq).
        apply String.eqb_eq in Heq. subst t. now apply Hnone.
    + destruct (0 <? _)%nat; [now left|now right].
Qed.
End LoadPortfolioData.

Lemma load_portfolio_data_loads_witness :
  let self :=
    with_fetcher (portfolio64 [("AAPL"%string, 10%Z, Some 150%Z);
                               ("GOOG"%string, 5%Z, None)])
      sample_market_history in
  let out := PortfolioAnalyzer.load_portfolio_data "1y" self in
  dict_get "AAPL"%string (PortfolioAnalyzer.portfolio_data (snd out))
  = Some tt /\
  dict_get "GOOG"%string (PortfolioAnalyzer.portfolio_data (snd out)) = None /\
  PortfolioAnalyzer.holdings (snd out) = PortfolioAnalyzer.holdings self.
Proof.
  intros self out.
  destruct (load_portfolio_data_loads self "1y") as [_ Hload].
  destruct (Hload ltac:(discriminate)) as (Hget & Hhold & _).
  split; [exact (Hget "AAPL"%string)|].
  split; [exact (Hget "GOOG"%string)|exact Hhold].
Defined.

(** ** Valuation: what a returned valuation always satisfies *)

Section ValuationInvariants.
Context {F : Type} `{Arith F}.
Variable DataFrame : Type.

(** X4.  In every valuation [calculate_portfolio_value] returns, the
    positions are those of the resolved holdings, in the order of the
    holdings; each position is what the loop computes from its holding and
    the fetched price, with the weight [position_value / total_value]; and
    [total_value] is the sum, from the left, of the position values. *)
Theorem valuation_invariants (self : PortfolioAnalyzer.t F DataFrame)
    (v : PortfolioAnalyzer.valuation F) :
  dict_wf (PortfolioAnalyzer.holdings self) ->
  fst (PortfolioAnalyzer.calculate_portfolio_value self) = Ok v ->
  dict_keys (PortfolioAnalyzer.positions v)
  = filter (resolved (PortfolioAnalyzer.fetcher self))
      (dict_keys (PortfolioAnalyzer.holdings self)) /\
  PortfolioAnalyzer.total_value v
  = py_sum (map (fun p => PortfolioAnalyzer.p_position_value p)
              (dict_values (PortfolioAnalyzer.positions v))) /\
  (forall ticker p,
     dict_get ticker (PortfolioAnalyzer.positions v) = Some p ->
     exists h price,
       dict_get ticker (PortfolioAnalyzer.holdings self) = Some h /\
       StockDataFetcher.get_current_price (PortfolioAnalyzer.fetcher self)
         ticker = Some price /\
       truthy price = true /\
       p = PortfolioAnalyzer.set_weight
             (fdiv (fmul price (PortfolioAnalyzer.h_shares h))
                   (PortfolioAnalyzer.total_value v))
             (PortfolioAnalyzer.position_entry price h)).
Proof.
  intros Hwf Hv.
  set (f := PortfolioAnalyzer.fetcher self) in *.
  rewrite (calculate_portfolio_value_closed self eq_refl Hwf) in Hv.
  fold f in Hv. simpl in Hv. inversion Hv as [Hv']. clear Hv.
  split; [apply positions_keys|]. split.
  - unfold valuation_of, total_of, values_of, dict_values. simpl.
    f_equal. rewrite !map_map. apply map_ext. now intros [t p].
  - intros ticker p Hp.
    unfold valuation_of in Hp. cbn [PortfolioAnalyzer.positions] in Hp.
    rewrite (dict_get_map
               (fun q => PortfolioAnalyzer.set_weight
                           (fdiv (PortfolioAnalyzer.p_position_value q)
                                 (total_of (entries f
                                    (PortfolioAnalyzer.holdings self)))) q))
      in Hp.
    destruct (dict_get ticker (entries f (PortfolioAnalyzer.holdings self)))
      as [e|] eqn:He; [|discriminate Hp].
    simpl in Hp. inversion Hp; subst p.
    apply dict_get_some_in in He.
    destruct (entries_in _ _ _ _ He) as (h & price & Hin & Hprice & Ht & ->).
    exists h, price.
    split; [now apply dict_get_in|]. split; [exact Hprice|].
    split; [exact Ht|reflexivity].
Qed.
End ValuationInvariants.

Lemma valuation_invariants_witness :
  let self := portfolio64 [("AAPL"%string, 10%Z, Some 150%Z);
                           ("GOOG"%string, 5%Z, None);
                           ("MSFT"%string, 15%Z, Some 300%Z)] in
  let v := valuation_of (PortfolioAnalyzer.fetcher self)
             (PortfolioAnalyzer.holdings self) in
  dict_keys (PortfolioAnalyzer.positions v) = ["AAPL"; "MSFT"]%string /\
  PortfolioAnalyzer.total_value v
  = py_sum (map (fun p => PortfolioAnalyzer.p_position_value p)
              (dict_values (PortfolioAnalyzer.positions v))).
Proof.
  intros self v.
  assert (Hwf : dict_wf (PortfolioAnalyzer.holdings self))
    by apply sample_portfolio_wf.
  assert (Hv : fst (PortfolioAnalyzer.calculate_portfolio_value self) = Ok v)
    by reflexivity.
  destruct (valuation_invariants self Hwf Hv) as (Hkeys & Htotal & _).
  split; [exact Hkeys|exact Htotal].
Defined.

(** ** Diversification: when it raises and when it returns *)

Lemma dict_set_length {V : Type} (k : string) (v : V) (d : dict V) :
  (List.length (dict_set k v d) <= S (List.length d))%nat.
Proof.
  induction d as [|[k' v'] t IH]; simpl; [lia|].
  destruct (String.eqb k k'); simpl; lia.
Qed.

Section SectorLoop.
Context {F : Type} `{Arith F}.
Variable DataFrame : Type.
Variable f : StockDataFetcher.t F DataFrame.
Variable hs : dict (PortfolioAnalyzer.holding F).

(** The sector loop stops at the first ticker that has sector information
    but no position. *)
Lemma for_each_add_sector_raises (ticker : string) (keys : list string)
    (acc : dict F) :
  (forall k, In k keys -> In k (dict_keys hs)) ->
  find (fun k => is_some (StockDataFetcher.get_stock_info f k)
                 && negb (resolved f k)) keys = Some ticker ->
  PortfolioAnalyzer.for_each
    (PortfolioAnalyzer.add_sector f
       (PortfolioAnalyzer.positions (valuation_of f hs)))
    keys acc
  = Raise (KeyError ticker).
Proof.
  revert acc.
  induction keys as [|k rest IH]; intros acc Hin Hfind; simpl in Hfind.
  - discriminate.
  - cbn [PortfolioAnalyzer.for_each].
    unfold PortfolioAnalyzer.add_sector at 1, dict_item.
    destruct (StockDataFetcher.get_stock_info f k) as [info|];
      cbn [is_some andb] in Hfind.
    + destruct (resolved f k) eqn:Hr; cbn [negb] in Hfind.
      * destruct (positions_resolved f hs k (Hin k (or_introl eq_refl)) Hr)
          as [p Hp].
        rewrite Hp. cbn [result_bind].
        destruct (dict_get (StockDataFetcher.sector info) acc);
          cbn [result_bind]; (apply IH; [|exact Hfind]);
          intros k' Hk'; apply Hin; now right.
      * inversion Hfind; subst k.
        now rewrite (positions_unresolved f hs ticker Hr).
    + cbn [result_bind]. apply IH; [|exact Hfind].
      intros k' Hk'. apply Hin. now right.
Qed.

(** Without such a ticker it runs to the end, adding at most one sector per
    ticker. *)
Lemma for_each_add_sector_returns (keys : list string) (acc : dict F) :
  (forall k, In k keys -> In k (dict_keys hs)) ->
  find (fun k => is_some (StockDataFetcher.get_stock_info f k)
                 && negb (resolved f k)) keys = None ->
  exists sectors,
    PortfolioAnalyzer.for_each
      (PortfolioAnalyzer.add_sector f
         (PortfolioAnalyzer.positions (valuation_of f hs)))
      keys acc
    = Ok sectors /\
    (List.length sectors <= List.length acc + List.length keys)%nat.
Proof.
  revert acc.
  induction keys as [|k rest IH]; intros acc Hin Hfind; simpl in Hfind.
  - exists acc. split; [reflexivity|lia].
  - cbn [PortfolioAnalyzer.for_each].
    unfold PortfolioAnalyzer.add_sector at 1, dict_item.
    assert (Hrest : forall k', In k' rest -> In k' (dict_keys hs))
      by (intros k' Hk'; apply Hin; now right).
    destruct (StockDataFetcher.get_stock_info f k) as [info|];
      cbn [is_some andb] in Hfind.
    + destruct (resolved f k) eqn:Hr; cbn [negb] in Hfind;
        [|discriminate Hfind].
      destruct (positions_resolved f hs k (Hin k (or_introl eq_refl)) Hr)
        as [p Hp].
      rewrite Hp. cbn [result_bind].
      destruct (dict_get (StockDataFetcher.sector info) acc);
        cbn [result_bind];
        match goal with
        | |- context [PortfolioAnalyzer.for_each _ rest (dict_set ?s ?x acc)]
          => destruct (IH (dict_set s x acc) Hrest Hfind)
               as (sectors & Hs & Hlen);
             exists sectors; split; [exact Hs|];
             pose proof (dict_set_length s x acc); simpl; lia
        end.
    + cbn [result_bind].
      destruct (IH acc Hrest Hfind) as (sectors & Hs & Hlen).
      exists sectors. split; [exact Hs|]. simpl. lia.
Qed.
End SectorLoop.

Section DiversificationOutcome.
Context {F : Type} `{Arith F}.
Variable DataFrame : Type.
Variable calculate_portfolio_metrics :
  RiskCalculator.t F -> dict DataFrame -> dict F
  -> result (PortfolioAnalyzer.metrics F).

(** [analyze_diversification] after its call of
    [calculate_portfolio_value]: an exception of the sector loop is its
    outcome, and it returns once the loop has. *)
Lemma analyze_diversification_steps (self : PortfolioAnalyzer.t F DataFrame) :
  dict_wf (PortfolioAnalyzer.holdings self) ->
  (forall e,
     PortfolioAnalyzer.for_each
       (PortfolioAnalyzer.add_sector (PortfolioAnalyzer.fetcher self)
          (PortfolioAnalyzer.positions
             (valuation_of (PortfolioAnalyzer.fetcher self)
                (PortfolioAnalyzer.holdings self))))
       (dict_keys (PortfolioAnalyzer.holdings self)) []
     = Raise e ->
     fst (PortfolioAnalyzer.analyze_diversification self) = Raise e) /\
  (forall sectors,
     PortfolioAnalyzer.for_each
       (PortfolioAnalyzer.add_sector (PortfolioAnalyzer.fetcher self)
          (PortfolioAnalyzer.positions
             (valuation_of (PortfolioAnalyzer.fetcher self)
                (PortfolioAnalyzer.holdings self))))
       (dict_keys (PortfolioAnalyzer.holdings self)) []
     = Ok sectors ->
     exists d,
       fst (PortfolioAnalyzer.analyze_diversification self) = Ok d /\
       PortfolioAnalyzer.num_holdings d
       = List.length (PortfolioAnalyzer.holdings self) /\
       PortfolioAnalyzer.num_sectors d = List.length sectors /\
       dict_keys (PortfolioAnalyzer.sector_allocation d) = dict_keys sectors).
Proof.
  intros Hwf.
  unfold PortfolioAnalyzer.analyze_diversification, PortfolioAnalyzer.bind.
  rewrite (calculate_portfolio_value_closed self eq_refl Hwf).
  unfold PortfolioAnalyzer.get_self, PortfolioAnalyzer.lift at 1.
  split.
  - intros e Hloop. now rewrite Hloop.
  - intros sectors Hloop. rewrite Hloop.
    unfold valuation_of at 1. cbn [PortfolioAnalyzer.positions].
    rewrite (weights_list_weighted
               (fun p => fdiv (PortfolioAnalyzer.p_position_value p)
                           (total_of (entries (PortfolioAnalyzer.fetcher
                                                 self)
                                        (PortfolioAnalyzer.holdings
                                           self))))).
    unfold PortfolioAnalyzer.lift, PortfolioAnalyzer.ret. cbn [fst].
    eexists. split; [reflexivity|].
    cbn [PortfolioAnalyzer.num_holdings PortfolioAnalyzer.num_sectors
         PortfolioAnalyzer.sector_allocation].
    split; [reflexivity|]. split; [reflexivity|].
    unfold dict_keys. rewrite map_map. apply map_ext. now intros [k x].
Qed.

(** X5.  When some held ticker has sector information but no resolved
    price, [analyze_diversification] raises [KeyError] for the first such
    ticker (at [portfolio_value['positions'][ticker]]), and so does
    [generate_portfolio_report]: no report is produced. *)
Theorem analyze_diversification_unpriced
    (self : PortfolioAnalyzer.t F DataFrame) (ticker : string) :
  dict_wf (PortfolioAnalyzer.holdings self) ->
  first_unpriced_sector (PortfolioAnalyzer.fetcher self)
    (PortfolioAnalyzer.holdings self) = Some ticker ->
  PortfolioAnalyzer.analyze_diversification self
  = (Raise (KeyError ticker), self) /\
  PortfolioAnalyzer.generate_portfolio_report calculate_portfolio_metrics self
  = (Raise (KeyError ticker), self).
Proof.
  intros Hwf Hfirst.
  assert (Hraise : PortfolioAnalyzer.analyze_diversification self
                   = (Raise (KeyError ticker), self)).
  { apply injective_projections.
    - destruct (analyze_diversification_steps self Hwf) as [Hsteps _].
      apply Hsteps.
      apply for_each_add_sector_raises; [tauto|exact Hfirst].
    - apply read_only_analyze_diversification. }
  split; [exact Hraise|].
  unfold PortfolioAnalyzer.generate_portfolio_report, PortfolioAnalyzer.bind.
  rewrite (calculate_portfolio_value_closed self eq_refl Hwf).
  now rewrite Hraise.
Qed.

(** X6.  When every held ticker with sector information has a resolved
    price, [analyze_diversification] returns a report and leaves the
    analyzer as it was; the report counts all holdings, resolved or not, and
    at most one sector per holding, and its sector allocation has one entry
    per counted sector. *)
Theorem analyze_diversification_returns
    (self : PortfolioAnalyzer.t F DataFrame) :
  dict_wf (PortfolioAnalyzer.holdings self) ->
  first_unpriced_sector (PortfolioAnalyzer.fetcher self)
    (PortfolioAnalyzer.holdings self) = None ->
  exists d,
    PortfolioAnalyzer.analyze_diversification self = (Ok d, self) /\
    PortfolioAnalyzer.num_holdings d
    = List.length (PortfolioAnalyzer.holdings self) /\
    (PortfolioAnalyzer.num_sectors d <= PortfolioAnalyzer.num_holdings d)%nat
    /\ List.length (PortfolioAnalyzer.sector_allocation d)
       = PortfolioAnalyzer.num_sectors d.
Proof.
  intros Hwf Hfirst.
  destruct (@for_each_add_sector_returns F _ DataFrame
              (PortfolioAnalyzer.fetcher self)
              (PortfolioAnalyzer.holdings self)
              (dict_keys (PortfolioAnalyzer.holdings self))
              [] ltac:(tauto) Hfirst)
    as (sectors & Hloop & Hlen).
  destruct (analyze_diversification_steps self Hwf) as [_ Hok].
  destruct (Hok sectors Hloop) as (d & Hd & Hn & Hs & Hkeys).
  exists d. split.
  - apply injective_projections;
      [exact Hd|apply read_only_analyze_diversification].
  - split; [exact Hn|]. split.
    + rewrite Hn, Hs. simpl in Hlen.
      unfold dict_keys in Hlen. rewrite length_map in Hlen. exact Hlen.
    + rewrite Hs. unfold dict_keys in Hkeys.
      apply (f_equal (@List.length string)) in Hkeys.
      now rewrite !length_map in Hkeys.
Qed.
End DiversificationOutcome.

Lemma analyze_diversification_unpriced_witness :
  let self :=
    with_fetcher (portfolio64 [("AAPL"%string, 10%Z, Some 150%Z);
                               ("PENNY"%string, 1000%Z, None)])
      sample_market_penny in
  PortfolioAnalyzer.analyze_diversification self
  = (Raise (KeyError "PENNY"), self) /\
  PortfolioAnalyzer.generate_portfolio_report failing_metrics self
  = (Raise (KeyError "PENNY"), self).
Proof.
  intros self.
  apply analyze_diversification_unpriced.
  - apply (sample_portfolio_wf (F := B64.binary64)).
  - reflexivity.
Defined.

Lemma analyze_diversification_returns_witness :
  let self := portfolio64 [("AAPL"%string, 10%Z, Some 150%Z);
                           ("GOOG"%string, 5%Z, None);
                           ("MSFT"%string, 15%Z, Some 300%Z)] in
  exists d,
    PortfolioAnalyzer.analyze_diversification self = (Ok d, self) /\
    PortfolioAnalyzer.num_holdings d
    = List.length (PortfolioAnalyzer.holdings self) /\
    (PortfolioAnalyzer.num_sectors d <= PortfolioAnalyzer.num_holdings d)%nat
    /\ List.length (PortfolioAnalyzer.sector_allocation d)
       = PortfolioAnalyzer.num_sectors d.
Proof.
  intros self.
  apply analyze_diversification_returns.
  - apply sample_portfolio_wf.
  - reflexivity.
Defined.

(** ** Risk metrics and the report: how the methods compose *)

Section Composition.
Context {F : Type} `{Arith F}.
Variable DataFrame : Type.
Variable calculate_portfolio_metrics :
  RiskCalculator.t F -> dict DataFrame -> dict F
  -> result (PortfolioAnalyzer.metrics F).

(** A method that writes nothing passes the same object on. *)
Lemma bind_read_only {A B : Type} (m : PortfolioAnalyzer.M F DataFrame A)
    (k : A -> PortfolioAnalyzer.M F DataFrame B)
    (self : PortfolioAnalyzer.t F DataFrame) :
  read_only m ->
  PortfolioAnalyzer.bind m k self
  = match fst (m self) with
    | Ok a => k a self
    | Raise e => (Raise e, self)
    end.
Proof.
  intros Hm. unfold PortfolioAnalyzer.bind. specialize (Hm self).
  destruct (m self) as [[a|e] self']; simpl in *; now subst.
Qed.

Lemma weights_loop_closed (g : PortfolioAnalyzer.position F -> F)
    (es : dict (PortfolioAnalyzer.position F)) : forall acc,
  NoDup (dict_keys es) ->
  (forall k, In k (dict_keys es) -> dict_get k acc = None) ->
  PortfolioAnalyzer.for_each
    (fun acc item =>
       result_bind (PortfolioAnalyzer.weight_of (snd item))
         (fun w => Ok (dict_set (fst item) w acc)))
    (map (fun '(t, p) => (t, PortfolioAnalyzer.set_weight (g p) p)) es)
    acc
  = Ok (acc ++ map (fun '(t, p) => (t, g p)) es).
Proof.
  induction es as [|[t p] rest IH]; intros acc Hnd Hfresh.
  - simpl. now rewrite app_nil_r.
  - simpl in Hnd. inversion Hnd as [|? ? Hnotin Hnd']; subst.
    cbn [map PortfolioAnalyzer.for_each]. cbn [snd fst].
    unfold PortfolioAnalyzer.weight_of at 1.
    cbn [PortfolioAnalyzer.set_weight PortfolioAnalyzer.p_weight result_bind].
    rewrite dict_set_fresh by (apply Hfresh; now left).
    rewrite IH; [now rewrite <- app_assoc|exact Hnd'|].
    intros k Hk. rewrite dict_get_app.
    rewrite (Hfresh k (or_intror Hk)). simpl.
    destruct (String.eqb_spec k t) as [->|Hne]; [now elim Hnotin|reflexivity].
Qed.

(** The weights read off a valuation are the current weights. *)
Lemma weights_dict_closed (f : StockDataFetcher.t F DataFrame)
    (hs : dict (PortfolioAnalyzer.holding F)) :
  dict_wf hs ->
  PortfolioAnalyzer.weights_dict
    (PortfolioAnalyzer.positions (valuation_of f hs))
  = Ok (current_weights_of f hs).
Proof.
  intros Hwf. unfold PortfolioAnalyzer.weights_dict, valuation_of.
  cbn [PortfolioAnalyzer.positions].
  rewrite (weights_loop_closed
             (fun p => fdiv (PortfolioAnalyzer.p_position_value p)
                         (total_of (entries f hs)))).
  - reflexivity.
  - rewrite entries_keys. now apply NoDup_filter.
  - reflexivity.
Qed.

(** X7.  [calculate_risk_metrics] returns [None] when no price data are
    loaded, without calling the calculator.  Otherwise it calls
    [calculate_portfolio_metrics] with the loaded data and the current
    weights of the resolved holdings; what that call raises is raised, and
    what it returns is returned with the risk level that [assess_risk_level]
    gives to its Sharpe ratio and volatility.  The analyzer is unchanged. *)
Theorem calculate_risk_metrics_outcome
    (self : PortfolioAnalyzer.t F DataFrame) :
  dict_wf (PortfolioAnalyzer.holdings self) ->
  PortfolioAnalyzer.calculate_risk_metrics calculate_portfolio_metrics self
  = (match PortfolioAnalyzer.portfolio_data self with
     | [] => Ok None
     | _ :: _ =>
         result_bind
           (calculate_portfolio_metrics (PortfolioAnalyzer.calculator self)
              (PortfolioAnalyzer.portfolio_data self)
              (current_weights_of (PortfolioAnalyzer.fetcher self)
                 (PortfolioAnalyzer.holdings self)))
           (fun m =>
              result_bind
                (RiskCalculator.assess_risk_level
                   (PortfolioAnalyzer.calculator self)
                   (PortfolioAnalyzer.sharpe_ratio m)
                   (PortfolioAnalyzer.volatility m))
                (fun level => Ok (Some (with_risk_level m level))))
     end, self).
Proof.
  intros Hwf.
  unfold PortfolioAnalyzer.calculate_risk_metrics.
  unfold PortfolioAnalyzer.bind at 1, PortfolioAnalyzer.get_self at 1.
  destruct (PortfolioAnalyzer.portfolio_data self) as [|d ds] eqn:Hdata;
    [reflexivity|].
  unfold PortfolioAnalyzer.bind at 1.
  rewrite (calculate_portfolio_value_closed self eq_refl Hwf).
  unfold PortfolioAnalyzer.bind at 1, PortfolioAnalyzer.lift at 1.
  rewrite (weights_dict_closed _ Hwf).
  unfold PortfolioAnalyzer.bind at 1, PortfolioAnalyzer.lift at 1.
  destruct (calculate_portfolio_metrics _ _ _) as [m|e]; [|reflexivity].
  cbn [result_bind].
  unfold PortfolioAnalyzer.bind, PortfolioAnalyzer.lift,
    PortfolioAnalyzer.ret.
  destruct (RiskCalculator.assess_risk_level _ _ _) as [level|e];
    reflexivity.
Qed.

(** X8.  [generate_portfolio_report] is its three parts run on the same
    analyzer, in the order valuation, diversification, risk metrics: the
    first exception among them is the outcome, otherwise the report holds
    exactly what [calculate_portfolio_value], [analyze_diversification] and
    [calculate_risk_metrics] return on their own. *)
Theorem generate_portfolio_report_parts
    (self : PortfolioAnalyzer.t F DataFrame) :
  PortfolioAnalyzer.generate_portfolio_report calculate_portfolio_metrics self
  = (result_bind (fst (PortfolioAnalyzer.calculate_portfolio_value self))
       (fun valuation =>
          result_bind (fst (PortfolioAnalyzer.analyze_diversification self))
            (fun diversification =>
               result_bind
                 (fst (PortfolioAnalyzer.calculate_risk_metrics
                         calculate_portfolio_metrics self))
                 (fun risk_metrics =>
                    Ok {| PortfolioAnalyzer.r_valuation := valuation;
                          PortfolioAnalyzer.r_diversification :=
                            diversification;
                          PortfolioAnalyzer.r_risk_metrics :=
                            risk_metrics |}))),
     self).
Proof.
  unfold PortfolioAnalyzer.generate_portfolio_report.
  rewrite bind_read_only by apply read_only_calculate_portfolio_value.
  destruct (fst (PortfolioAnalyzer.calculate_portfolio_value self))
    as [v|e]; [|reflexivity].
  rewrite bind_read_only by apply read_only_analyze_diversification.
  destruct (fst (PortfolioAnalyzer.analyze_diversification self))
    as [d|e]; [|reflexivity].
  rewrite bind_read_only by apply read_only_calculate_risk_metrics.
  destruct (fst (PortfolioAnalyzer.calculate_risk_metrics _ self))
    as [r|e]; reflexivity.
Qed.
End Composition.

Lemma calculate_risk_metrics_outcome_witness :
  let self :=
    snd (PortfolioAnalyzer.load_portfolio_data "1y"
           (with_fetcher (portfolio64 [("AAPL"%string, 10%Z, Some 150%Z);
                                       ("GOOG"%string, 5%Z, None)])
              sample_market_history)) in
  exists m,
    PortfolioAnalyzer.calculate_risk_metrics constant_metrics self
    = (Ok (Some m), self) /\
    PortfolioAnalyzer.risk_level m = Some "Low Risk"%string.
Proof.
  intros self.
  assert (Hwf : dict_wf (PortfolioAnalyzer.holdings self))
    by apply (sample_portfolio_wf (F := B64.binary64)).
  pose proof (calculate_risk_metrics_outcome constant_metrics self Hwf)
    as Hout.
  eexists. split; [exact Hout|reflexivity].
Defined.

(** ** Rebalancing: what the recommendations contain *)

Section RecommendationEntries.
Context {F : Type} `{Arith F}.
Variable DataFrame : Type.
Variable f : StockDataFetcher.t F DataFrame.

Lemma for_each_recommend_closed (hs : dict (PortfolioAnalyzer.holding F))
    (current_weights target_weights : dict F) (keys : list string)
    (acc : dict (PortfolioAnalyzer.recommendation F)) :
  NoDup keys ->
  (forall k, In k keys -> dict_get k acc = None) ->
  (forall k, In k keys ->
     exists p,
       dict_get k (PortfolioAnalyzer.positions (valuation_of f hs)) = Some p)
  ->
  PortfolioAnalyzer.for_each
    (PortfolioAnalyzer.recommend (valuation_of f hs) current_weights
       target_weights)
    keys acc
  = Ok (acc ++ map (fun ticker =>
                      (ticker,
                       recommendation_of (valuation_of f hs) current_weights
                         target_weights ticker))
                   keys).
Proof.
  revert acc.
  induction keys as [|k rest IH]; intros acc Hnd Hfresh Hpos.
  - simpl. now rewrite app_nil_r.
  - inversion Hnd as [|? ? Hnotin Hnd']; subst.
    destruct (Hpos k (or_introl eq_refl)) as [p Hp].
    cbn [PortfolioAnalyzer.for_each map].
    unfold PortfolioAnalyzer.recommend at 1, dict_item.
    rewrite Hp. cbn [result_bind].
    rewrite dict_set_fresh by (apply Hfresh; now left).
    rewrite IH.
    + rewrite <- app_assoc. cbn [app]. do 3 f_equal.
      unfold recommendation_of, position_price. now rewrite Hp.
    + exact Hnd'.
    + intros k' Hk'. rewrite dict_get_app.
      rewrite (Hfresh k' (or_intror Hk')). simpl.
      destruct (String.eqb_spec k' k) as [->|Hne];
        [now elim Hnotin|reflexivity].
    + intros k' Hk'. apply Hpos. now right.
Qed.

(** The entry of a resolved holding. *)
Lemma entries_get (hs : dict (PortfolioAnalyzer.holding F))
    (ticker : string) (h : PortfolioAnalyzer.holding F) (price : F) :
  dict_wf hs ->
  dict_get ticker hs = Some h ->
  StockDataFetcher.get_current_price f ticker = Some price ->
  truthy price = true ->
  dict_get ticker (entries f hs)
  = Some (PortfolioAnalyzer.position_entry price h).
Proof.
  intros Hwf Hh Hprice Ht.
  apply dict_get_in.
  - unfold dict_wf. rewrite entries_keys. now apply NoDup_filter.
  - unfold entries. apply in_flat_map.
    exists (ticker, h). split; [now apply dict_get_some_in|].
    simpl. rewrite Hprice, Ht. now left.
Qed.

(** The default target of a held ticker is [1/len(holdings)]. *)
Lemma dict_of_const_lookup (c : F) (ticker : string) (keys : list string) :
  In ticker keys ->
  dict_get ticker
    (PortfolioAnalyzer.dict_of (map (fun k => (k, c)) keys))
  = Some c.
Proof.
  unfold PortfolioAnalyzer.dict_of.
  assert (Hgen : forall acc : dict F,
            In ticker keys ->
            dict_get ticker
              (fold_left (fun d kv => dict_set (fst kv) (snd kv) d)
                 (map (fun k => (k, c)) keys) acc)
            = Some c).
  { induction keys as [|k rest IH]; intros acc Hin; [contradiction|].
    simpl. destruct (in_dec string_dec ticker rest) as [Hrest|Hnot].
    - now apply IH.
    - destruct Hin as [->|Hin]; [|contradiction].
      clear IH. revert Hnot.
      generalize (dict_set ticker c acc), (dict_get_set_same ticker c acc).
      induction rest as [|k' rest' IH']; intros d Hd Hnot; [exact Hd|].
      simpl. apply IH'.
      + rewrite dict_get_set_other; [exact Hd|].
        intros ->. apply Hnot. now left.
      + intros Hin. apply Hnot. now right. }
  apply Hgen.
Qed.
End RecommendationEntries.

Section RecommendationsClosed.
Context {F : Type} `{Arith F}.
Variable DataFrame : Type.

(** When every held ticker resolves, the recommendations are
    [recommendations_of]. *)
Lemma get_rebalancing_recommendations_closed
    (self : PortfolioAnalyzer.t F DataFrame)
    (target_weights : option (dict F)) :
  dict_wf (PortfolioAnalyzer.holdings self) ->
  first_unresolved (PortfolioAnalyzer.fetcher self)
    (PortfolioAnalyzer.holdings self) = None ->
  PortfolioAnalyzer.get_rebalancing_recommendations target_weights self
  = (Ok (recommendations_of (PortfolioAnalyzer.fetcher self) target_weights
           (PortfolioAnalyzer.holdings self)), self).
Proof.
  intros Hwf Hfirst.
  unfold PortfolioAnalyzer.get_rebalancing_recommendations,
    PortfolioAnalyzer.bind.
  rewrite (calculate_portfolio_value_closed self eq_refl Hwf).
  unfold PortfolioAnalyzer.lift at 1.
  rewrite (weights_dict_closed _ Hwf).
  unfold PortfolioAnalyzer.get_self, PortfolioAnalyzer.lift.
  f_equal.
  fold (target_weights_of target_weights (PortfolioAnalyzer.holdings self)).
  rewrite for_each_recommend_closed; [reflexivity|exact Hwf| |].
  - reflexivity.
  - intros k Hk. apply positions_resolved; [exact Hk|].
    unfold first_unresolved in Hfirst.
    pose proof (find_none _ _ Hfirst k Hk) as Hr. simpl in Hr.
    now destruct (resolved (PortfolioAnalyzer.fetcher self) k).
Qed.

(** X9.  When every held ticker resolves,
    [get_rebalancing_recommendations] returns one recommendation per
    holding, in the order of the holdings.  For a holding of [shares] at the
    fetched [price], the current weight is [price * shares / total_value],
    the target weight is the given one (0 when the ticker has none) or
    [1/len(holdings)], the difference is target minus current, the dollar
    difference is the difference times the total value, the shares to trade
    are the dollar difference over the price, and the action is BUY, SELL
    or HOLD by the sign of the shares to trade. *)
Theorem get_rebalancing_recommendations_entries
    (self : PortfolioAnalyzer.t F DataFrame)
    (target_weights : option (dict F)) :
  dict_wf (PortfolioAnalyzer.holdings self) ->
  first_unresolved (PortfolioAnalyzer.fetcher self)
    (PortfolioAnalyzer.holdings self) = None ->
  exists recommendations total,
    PortfolioAnalyzer.get_rebalancing_recommendations target_weights self
    = (Ok recommendations, self) /\
    fst (PortfolioAnalyzer.calculate_portfolio_value self)
    = Ok (valuation_of (PortfolioAnalyzer.fetcher self)
            (PortfolioAnalyzer.holdings self)) /\
    total = PortfolioAnalyzer.total_value
              (valuation_of (PortfolioAnalyzer.fetcher self)
                 (PortfolioAnalyzer.holdings self)) /\
    dict_keys recommendations = dict_keys (PortfolioAnalyzer.holdings self) /\
    forall ticker h price,
      dict_get ticker (PortfolioAnalyzer.holdings self) = Some h ->
      StockDataFetcher.get_current_price (PortfolioAnalyzer.fetcher self)
        ticker = Some price ->
      exists r,
        dict_get ticker recommendations = Some r /\
        PortfolioAnalyzer.current_weight r
        = fdiv (fmul price (PortfolioAnalyzer.h_shares h)) total /\
        PortfolioAnalyzer.target_weight r
        = match target_weights with
          | Some tw => PortfolioAnalyzer.get_or_0 ticker tw
          | None =>
              fdiv (of_Z 1)
                (of_Z (Z.of_nat
                         (List.length (PortfolioAnalyzer.holdings self))))
          end /\
        PortfolioAnalyzer.difference_pct r
        = fsub (PortfolioAnalyzer.target_weight r)
               (PortfolioAnalyzer.current_weight r) /\
        PortfolioAnalyzer.dollar_difference r
        = fmul (PortfolioAnalyzer.difference_pct r) total /\
        PortfolioAnalyzer.shares_to_trade r
        = fdiv (PortfolioAnalyzer.dollar_difference r) price /\
        PortfolioAnalyzer.action r
        = PortfolioAnalyzer.action_of (PortfolioAnalyzer.shares_to_trade r).
Proof.
  intros Hwf Hfirst.
  set (f := PortfolioAnalyzer.fetcher self).
  set (hs := PortfolioAnalyzer.holdings self).
  exists (recommendations_of f target_weights hs),
         (PortfolioAnalyzer.total_value (valuation_of f hs)).
  split; [now apply get_rebalancing_recommendations_closed|].
  split; [now rewrite (calculate_portfolio_value_closed self eq_refl Hwf)|].
  split; [reflexivity|]. split.
  { unfold recommendations_of, dict_keys. rewrite map_map. simpl.
    now rewrite map_id. }
  intros ticker h price Hh Hprice.
  assert (Hin : In ticker (dict_keys hs)).
  { apply dict_get_some_in in Hh.
    change ticker with (fst (ticker, h)). now apply in_map. }
  assert (Ht : truthy price = true).
  { unfold first_unresolved in Hfirst.
    pose proof (find_none _ _ Hfirst ticker Hin) as Hr. simpl in Hr.
    unfold resolved, PortfolioAnalyzer.truthy_opt in Hr.
    fold f in Hr. rewrite Hprice in Hr.
    now destruct (truthy price). }
  pose proof (@entries_get F _ DataFrame f hs ticker h price Hwf Hh Hprice
                Ht) as Hentry.
  exists (recommendation_of (valuation_of f hs) (current_weights_of f hs)
            (target_weights_of target_weights hs) ticker).
  split.
  { apply dict_get_in.
    - unfold dict_wf, recommendations_of, dict_keys.
      rewrite map_map. simpl. rewrite map_id. exact Hwf.
    - unfold recommendations_of. apply in_map_iff. now exists ticker. }
  unfold recommendation_of.
  cbn [PortfolioAnalyzer.current_weight PortfolioAnalyzer.target_weight
       PortfolioAnalyzer.difference_pct PortfolioAnalyzer.dollar_difference
       PortfolioAnalyzer.shares_to_trade PortfolioAnalyzer.action].
  assert (Hcw : PortfolioAnalyzer.get_or_0 ticker (current_weights_of f hs)
                = fdiv (fmul price (PortfolioAnalyzer.h_shares h))
                       (PortfolioAnalyzer.total_value (valuation_of f hs))).
  { unfold PortfolioAnalyzer.get_or_0, current_weights_of.
    rewrite (dict_get_map
               (fun p => fdiv (PortfolioAnalyzer.p_position_value p)
                           (total_of (entries f hs)))).
    now rewrite Hentry. }
  assert (Hpp : position_price (valuation_of f hs) ticker = price).
  { unfold position_price, valuation_of.
    cbn [PortfolioAnalyzer.positions].
    rewrite (dict_get_map
               (fun p => PortfolioAnalyzer.set_weight
                           (fdiv (PortfolioAnalyzer.p_position_value p)
                                 (total_of (entries f hs))) p)).
    now rewrite Hentry. }
  rewrite Hcw, Hpp.
  split; [reflexivity|]. split.
  { unfold target_weights_of. destruct target_weights as [tw|];
      [reflexivity|].
    unfold PortfolioAnalyzer.get_or_0.
    now rewrite dict_of_const_lookup. }
  repeat split.
Qed.
End RecommendationsClosed.

Lemma get_rebalancing_recommendations_entries_witness :
  let self := portfolio64 [("AAPL"%string, 10%Z, Some 150%Z);
                           ("MSFT"%string, 15%Z, Some 300%Z)] in
  exists recommendations r,
    PortfolioAnalyzer.get_rebalancing_recommendations None self
    = (Ok recommendations, self) /\
    dict_keys recommendations = ["AAPL"; "MSFT"]%string /\
    dict_get "AAPL"%string recommendations = Some r /\
    PortfolioAnalyzer.target_weight r = fdiv (B64.of_Z 1) (B64.of_Z 2) /\
    PortfolioAnalyzer.action r = "BUY"%string.
Proof.
  intros self.
  assert (Hwf : dict_wf (PortfolioAnalyzer.holdings self))
    by apply sample_portfolio_wf.
  assert (Hfirst : first_unresolved (PortfolioAnalyzer.fetcher self)
                     (PortfolioAnalyzer.holdings self) = None)
    by reflexivity.
  destruct (get_rebalancing_recommendations_entries self None Hwf Hfirst)
    as (recs & total & Hrun & _ & _ & Hkeys & Hentry).
  assert (Hh : dict_get "AAPL"%string (PortfolioAnalyzer.holdings self)
               = Some {| PortfolioAnalyzer.h_shares := B64.of_Z 10;
                         PortfolioAnalyzer.h_purchase_price :=
                           Some (B64.of_Z 150) |})
    by reflexivity.
  assert (Hp : StockDataFetcher.get_current_price
                 (PortfolioAnalyzer.fetcher self) "AAPL"%string
               = Some (B64.of_Z 160))
    by reflexivity.
  destruct (Hentry _ _ _ Hh Hp) as (r & Hr & _ & Htw & _ & _ & _ & Hact).
  exists recs, r.
  split; [exact Hrun|]. split; [exact Hkeys|]. split; [exact Hr|].
  split; [exact Htw|].
  rewrite Hact.
  rewrite (get_rebalancing_recommendations_closed self None Hwf Hfirst)
    in Hrun.
  inversion Hrun; subst recs.
  vm_compute in Hr. inversion Hr. reflexivity.
Defined.

(** ** Rebalancing to equal weights moves no money in or out *)

Lemma dict_lookup_own {V : Type} (d : dict V) :
  dict_wf d ->
  map (fun k => dict_get k d) (dict_keys d) = map Some (dict_values d).
Proof.
  intros Hwf. unfold dict_keys, dict_values. rewrite !map_map.
  apply map_ext_in. intros [k v] Hin. simpl. now apply dict_get_in.
Qed.

Section ExactCounts.
Local Open Scope Qc_scope.

Lemma Qc_of_nat_succ (k : nat) :
  XR.Qc_of_Z (Z.of_nat (S k)) = XR.Qc_of_Z (Z.of_nat k) + 1.
Proof.
  apply Qc_is_canon. unfold XR.Qc_of_Z, Qcplus. cbn [this Q2Qc].
  rewrite !Qred_correct, Nat2Z.inj_succ. unfold Z.succ.
  rewrite inject_Z_plus. reflexivity.
Qed.

Lemma Qc_of_nat_nonzero (k : nat) : XR.Qc_of_Z (Z.of_nat (S k)) <> 0.
Proof.
  intros Heq. apply (f_equal this) in Heq.
  unfold XR.Qc_of_Z in Heq. cbn [this Q2Qc] in Heq.
  assert (Hq : (inject_Z (Z.of_nat (S k)) == 0)%Q).
  { rewrite <- (Qred_correct (inject_Z (Z.of_nat (S k)))), Heq.
    reflexivity. }
  unfold Qeq in Hq. simpl in Hq. lia.
Qed.

(** The differences to a common target [c], in money, add up to the target
    total minus the actual one. *)
Lemma Qc_sum_differences (c total : Qc) (qs : list Qc) :
  total <> 0 ->
  Qc_sum (map (fun q => (c + - (q / total)) * total) qs)
  = XR.Qc_of_Z (Z.of_nat (List.length qs)) * c * total - Qc_sum qs.
Proof.
  intros Hne. induction qs as [|q rest IH].
  - simpl. rewrite Qc_of_Z_0. ring.
  - cbn [map List.length].
    change (Qc_sum ((c + - (q / total)) * total
                    :: map (fun q => (c + - (q / total)) * total) rest))
      with ((c + - (q / total)) * total
            + Qc_sum (map (fun q => (c + - (q / total)) * total) rest)).
    change (Qc_sum (q :: rest)) with (q + Qc_sum rest).
    rewrite IH, Qc_of_nat_succ. now field.
Qed.
End ExactCounts.

Section CashNeutral.
Variable DataFrame : Type.
Local Open Scope Qc_scope.

Lemma filter_all {A : Type} (keep : A -> bool) (l : list A) :
  (forall x, In x l -> keep x = true) -> filter keep l = l.
Proof.
  induction l as [|x t IH]; intros Hall; simpl; [reflexivity|].
  rewrite (Hall x (or_introl eq_refl)). f_equal.
  apply IH. intros y Hy. apply Hall. now right.
Qed.

(** X10.  In exact arithmetic: when every held ticker resolves, prices and
    share counts are finite and the portfolio is worth something, the dollar
    differences that [get_rebalancing_recommendations] recommends for the
    default equal weights add up to zero: what is to be bought is paid by
    what is to be sold. *)
Theorem equal_weight_rebalancing_is_cash_neutral
    (self : PortfolioAnalyzer.t XR.xreal DataFrame) :
  dict_wf (PortfolioAnalyzer.holdings self) ->
  first_unresolved (PortfolioAnalyzer.fetcher self)
    (PortfolioAnalyzer.holdings self) = None ->
  (forall ticker h p,
     In (ticker, h) (PortfolioAnalyzer.holdings self) ->
     StockDataFetcher.get_current_price (PortfolioAnalyzer.fetcher self)
       ticker = Some p ->
     truthy p = true ->
     XR.finite p = true /\ XR.finite (PortfolioAnalyzer.h_shares h) = true) ->
  feqb (PortfolioAnalyzer.total_value
          (valuation_of (PortfolioAnalyzer.fetcher self)
             (PortfolioAnalyzer.holdings self)))
       (of_Z 0) = false ->
  exists recommendations,
    PortfolioAnalyzer.get_rebalancing_recommendations None self
    = (Ok recommendations, self) /\
    py_sum (map (fun r => PortfolioAnalyzer.dollar_difference r)
              (dict_values recommendations))
    = of_Z 0.
Proof.
  intros Hwf Hfirst Hfin Hnz.
  set (f := PortfolioAnalyzer.fetcher self) in *.
  set (hs := PortfolioAnalyzer.holdings self) in *.
  exists (recommendations_of f None hs).
  split; [now apply get_rebalancing_recommendations_closed|].
  destruct (values_of_finite f hs Hfin) as [qs Hqs].
  assert (Hkeys : dict_keys (entries f hs) = dict_keys hs).
  { rewrite entries_keys. apply filter_all. intros k Hk.
    unfold first_unresolved in Hfirst.
    pose proof (find_none _ _ Hfirst k Hk) as Hr. simpl in Hr.
    now destruct (resolved f k). }
  assert (Htotal : total_of (entries f hs)
                   = XR.XFin (XR.Qc_of_Z 0 + Qc_sum qs)).
  { unfold total_of, py_sum. rewrite Hqs.
    change (of_Z 0) with (XR.XFin (XR.Qc_of_Z 0)). apply xr_sum_finite. }
  unfold valuation_of in Hnz. cbn [PortfolioAnalyzer.total_value] in Hnz.
  rewrite Htotal in Hnz.
  assert (Hne : XR.Qc_of_Z 0 + Qc_sum qs <> XR.Qc_of_Z 0)
    by (apply is_zero_false; exact Hnz).
  set (total := XR.Qc_of_Z 0 + Qc_sum qs) in *.
  assert (Hlen : List.length qs = List.length hs).
  { apply (f_equal (@List.length XR.xreal)) in Hqs.
    apply (f_equal (@List.length string)) in Hkeys.
    unfold values_of, dict_keys in *. rewrite !length_map in *. lia. }
  destruct (List.length hs) as [|n] eqn:Hn.
  { destruct qs; [|discriminate Hlen].
    exfalso. apply Hne. subst total. simpl. rewrite Qc_of_Z_0. ring. }
  set (c := 1 / XR.Qc_of_Z (Z.of_nat (S n))).
  assert (Hcw : dict_values (current_weights_of f hs)
                = map (fun q => XR.XFin (q / total)) qs).
  { unfold current_weights_of, dict_values. rewrite map_map.
    rewrite Htotal.
    transitivity (map (fun v => XR.div v (XR.XFin total))
                      (values_of (entries f hs))).
    - unfold values_of. rewrite map_map. apply map_ext. now intros [t p].
    - rewrite Hqs, map_map. apply map_ext. intros q.
      now apply xr_div_finite. }
  assert (Hcwkeys : dict_keys (current_weights_of f hs) = dict_keys hs).
  { rewrite <- Hkeys. unfold current_weights_of, dict_keys.
    rewrite map_map. apply map_ext. now intros [t p]. }
  assert (Hcwwf : dict_wf (current_weights_of f hs))
    by (unfold dict_wf; rewrite Hcwkeys; exact Hwf).
  assert (Hdollars :
    map (fun r => PortfolioAnalyzer.dollar_difference r)
        (dict_values (recommendations_of f None hs))
    = map (fun q => XR.XFin ((c + - (q / total)) * total)) qs).
  { unfold recommendations_of, dict_values. rewrite !map_map.
    cbn [snd]. unfold recommendation_of.
    cbn [PortfolioAnalyzer.dollar_difference].
    unfold valuation_of. cbn [PortfolioAnalyzer.total_value].
    rewrite Htotal.
    transitivity
      (map (fun o => XR.mul (XR.sub (XR.XFin c)
                               (match o with
                                | Some w => w
                                | None => XR.of_Z 0
                                end))
                            (XR.XFin total))
           (map (fun k => dict_get k (current_weights_of f hs))
                (dict_keys hs))).
    - rewrite map_map. apply map_ext_in. intros k Hk.
      unfold PortfolioAnalyzer.get_or_0 at 1, target_weights_of.
      rewrite dict_of_const_lookup by exact Hk.
      fold hs. rewrite Hn.
      unfold PortfolioAnalyzer.get_or_0.
      cbn [fmul fsub fdiv of_Z xreal_arith]. f_equal. f_equal.
      unfold XR.div, XR.of_Z.
      rewrite (proj2 (is_zero_false _) (@Qc_of_nat_nonzero n)).
      now rewrite Qc_of_Z_1.
    - rewrite <- Hcwkeys, (dict_lookup_own Hcwwf), Hcw, !map_map.
      apply map_ext. intros q. reflexivity. }
  rewrite Hdollars.
  rewrite <- (map_map (fun q => (c + - (q / total)) * total) XR.XFin).
  unfold py_sum. change (of_Z 0) with (XR.XFin (XR.Qc_of_Z 0)).
  rewrite xr_sum_finite, Qc_sum_differences by exact Hne.
  f_equal. rewrite Hlen. subst c total.
  pose proof (@Qc_of_nat_nonzero n) as Hnn.
  rewrite Qc_of_Z_0 in *. field. exact Hnn.
Qed.
End CashNeutral.

Lemma equal_weight_rebalancing_is_cash_neutral_witness :
  let self := portfolioX [("AAPL"%string, 10%Z, Some 150%Z);
                          ("MSFT"%string, 15%Z, Some 300%Z);
                          ("JPM"%string, 7%Z, Some 90%Z)] in
  exists recommendations,
    PortfolioAnalyzer.get_rebalancing_recommendations None self
    = (Ok recommendations, self) /\
    py_sum (map (fun r => PortfolioAnalyzer.dollar_difference r)
              (dict_values recommendations))
    = of_Z 0.
Proof.
  intros self.
  apply (equal_weight_rebalancing_is_cash_neutral self).
  - apply sample_portfolio_wf.
  - reflexivity.
  - intros ticker h p Hin Hp Ht.
    destruct Hin as [Heq|[Heq|[Heq|[]]]]; inversion Heq; subst ticker h;
      vm_compute in Hp; inversion Hp; subst p; split; reflexivity.
  - vm_compute. reflexivity.
Defined.

(** ** Maximum drawdown *)

Section MaxDrawdownShort.
Context {F : Type} `{ArithAbs F}.

(** X11.  With fewer than two prices there is no return, and
    [calculate_max_drawdown] returns NaN: the minimum of an empty series,
    which [abs] leaves a NaN.  It raises nothing. *)
Theorem calculate_max_drawdown_short (self : RiskCalculator.t F)
    (prices : list F) :
  (List.length prices < 2)%nat ->
  exists x, calculate_max_drawdown self prices = Ok x /\ is_nan x = true.
Proof.
  intros Hlen.
  unfold calculate_max_drawdown, RiskCalculator.calculate_returns.
  cbn [result_bind].
  assert (Hret : dropna (pct_change prices) = []).
  { destruct prices as [|p [|q t]]; [reflexivity| |simpl in Hlen; lia].
    now rewrite dropna_pct_change. }
  rewrite Hret. eexists. split; [reflexivity|].
  rewrite is_nan_fabs. apply is_nan_fnan.
Qed.

Lemma np_cumprod_from_length (vals : list F) :
  forall acc, List.length (np_cumprod_from acc vals) = List.length vals.
Proof.
  induction vals as [|v t IH]; intros acc; simpl; [reflexivity|].
  now rewrite IH.
Qed.

Lemma np_cumprod_length (vals : list F) :
  List.length (np_cumprod vals) = List.length vals.
Proof.
  destruct vals as [|v t]; [reflexivity|]. simpl.
  now rewrite np_cumprod_from_length.
Qed.

Lemma cumprod_no_nan (s : list F) :
  (forall x, In x s -> is_nan x = false) -> cumprod s = np_cumprod s.
Proof.
  intros Hs. unfold cumprod.
  assert (Hvals : map (fun x => if is_nan x then of_Z 1 else x) s = s).
  { rewrite <- (map_id s) at 2. apply map_ext_in. intros x Hx.
    now rewrite (Hs x Hx). }
  rewrite Hvals. clear Hvals.
  pose proof (np_cumprod_length s) as Hlen.
  revert Hs Hlen. generalize (np_cumprod s) as r.
  induction s as [|x t IH]; intros [|y r] Hs Hlen; simpl in *;
    try discriminate; [reflexivity|].
  rewrite (Hs x (or_introl eq_refl)). f_equal.
  apply IH; [|lia]. intros z Hz. apply Hs. now right.
Qed.
End MaxDrawdownShort.

Lemma calculate_max_drawdown_short_witness :
  exists x,
    calculate_max_drawdown calc64 [B64.of_Z 100] = Ok x /\
    is_nan x = true.
Proof.
  apply (calculate_max_drawdown_short calc64 [B64.of_Z 100]).
  simpl. lia.
Defined.

Section MaxDrawdownExact.
Local Open Scope Qc_scope.

Lemma Qc_pos_nonzero (q : Qc) : 0 < q -> q <> 0.
Proof. intros Hq Heq. rewrite Heq in Hq. now apply Qclt_not_eq in Hq. Qed.

Lemma Qc_div_pos (a b : Qc) : 0 < a -> 0 < b -> 0 < a / b.
Proof.
  intros Ha Hb. unfold Qcdiv.
  assert (Hinv : 0 < / b).
  { unfold Qclt in *. destruct b as [b Hcanon]. simpl in *.
    rewrite Qred_correct. now apply Qinv_lt_0_compat. }
  replace 0 with (0 * / b) by ring.
  now apply Qcmult_lt_compat_r.
Qed.

Lemma Qc_ltb_div (a b k : Qc) :
  0 < k -> XR.Qc_ltb (a / k) (b / k) = XR.Qc_ltb a b.
Proof.
  intros Hk.
  assert (Hinv : 0 < / k).
  { replace (/ k) with (1 / k) by (unfold Qcdiv; ring).
    apply Qc_div_pos; [reflexivity|exact Hk]. }
  unfold Qcdiv.
  destruct (XR.Qc_ltb a b) eqn:E.
  - apply Qc_ltb_lt. apply Qc_ltb_lt in E.
    now apply Qcmult_lt_compat_r.
  - destruct (XR.Qc_ltb (a * / k) (b * / k)) eqn:E'; [|reflexivity].
    apply Qc_ltb_lt in E'.
    assert (Hba : b <= a).
    { apply Qcnot_lt_le. intros Hab. apply (proj2 (Qc_ltb_lt a b)) in Hab.
      congruence. }
    apply (Qcmult_le_compat_r _ _ (/ k)) in Hba;
      [|now apply Qclt_le_weak].
    now apply Qcle_not_lt in Hba.
Qed.

(** In exact arithmetic the cumulative returns of positive prices are the
    prices over the first one. *)
Lemma cumulative_returns (p0 : Qc) (qs : list Qc) :
  0 < p0 -> Forall (Qclt 0) qs ->
  forall prev, 0 < prev ->
  exists rs,
    pct_change_from (XR.XFin prev) (map XR.XFin qs) = map XR.XFin rs /\
    np_cumprod_from (XR.XFin (prev / p0))
      (map (fun r => fadd (of_Z 1) r) (map XR.XFin rs))
    = map (fun q => XR.XFin (q / p0)) qs.
Proof.
  intros Hp0 Hqs. induction Hqs as [|q t Hq Ht IH]; intros prev Hprev.
  - exists []. now split.
  - destruct (IH q Hq) as (rs & Hrs & Hcum).
    exists (q / prev + - XR.Qc_of_Z 1 :: rs). split.
    + cbn [map pct_change_from]. rewrite Hrs. f_equal.
      cbn [fsub fdiv of_Z xreal_arith]. unfold XR.sub, XR.of_Z.
      rewrite (xr_div_finite q (Qc_pos_nonzero Hprev)). reflexivity.
    + cbn [map np_cumprod_from].
      assert (Hstep :
        fmul (XR.XFin (prev / p0))
          (fadd (of_Z 1) (XR.XFin (q / prev + - XR.Qc_of_Z 1)))
        = XR.XFin (q / p0)).
      { cbn [fmul fadd of_Z xreal_arith XR.mul XR.add XR.of_Z]. f_equal.
        rewrite Qc_of_Z_1. field.
        split; apply Qc_pos_nonzero; assumption. }
      rewrite Hstep. f_equal. exact Hcum.
Qed.

Lemma np_cumprod_from_one (qs : list Qc) :
  np_cumprod (map XR.XFin qs) = np_cumprod_from (XR.XFin 1) (map XR.XFin qs).
Proof.
  destruct qs as [|q t]; [reflexivity|].
  cbn [map np_cumprod np_cumprod_from fmul xreal_arith XR.mul].
  now rewrite Qcmult_1_l.
Qed.

Lemma in_map_finite (qs : list Qc) (x : XR.xreal) :
  In x (map XR.XFin qs) -> is_nan x = false.
Proof. intros Hx. apply in_map_iff in Hx. now destruct Hx as (q & <- & _). Qed.

(** The cumulative series [calculate_max_drawdown] works on. *)
Lemma cumulative_of_prices (self : RiskCalculator.t XR.xreal)
    (p0 : Qc) (qs : list Qc) :
  0 < p0 -> Forall (Qclt 0) qs ->
  result_bind (RiskCalculator.calculate_returns self
                 (map XR.XFin (p0 :: qs)))
    (fun returns => Ok (cumprod (map (fun r => fadd (of_Z 1) r) returns)))
  = Ok (map (fun q => XR.XFin (q / p0)) qs).
Proof.
  intros Hp0 Hqs.
  destruct (cumulative_returns Hp0 Hqs Hp0) as (rs & Hrs & Hcum).
  unfold RiskCalculator.calculate_returns. cbn [result_bind map].
  rewrite dropna_pct_change, Hrs.
  rewrite (dropna_id _ (in_map_finite rs)). f_equal.
  assert (Hone : map (fun r => fadd (of_Z 1) r) (map XR.XFin rs)
                 = map XR.XFin (map (fun r => XR.Qc_of_Z 1 + r) rs)).
  { rewrite !map_map. apply map_ext. reflexivity. }
  rewrite Hone in *.
  rewrite (cumprod_no_nan _ (in_map_finite _)), np_cumprod_from_one.
  rewrite <- Hcum. f_equal. f_equal. field. now apply Qc_pos_nonzero.
Qed.

(** The drawdown does not change when the series is divided by a positive
    number. *)
Lemma drawdown_scale (k : Qc) (qs : list Qc) :
  0 < k -> Forall (Qclt 0) qs ->
  forall b, 0 < b ->
  let s := map (fun q => XR.XFin (q / k)) qs in
  let s' := map XR.XFin qs in
  series_div
    (series_sub s (expanding_max_from (Some (XR.XFin (b / k))) s))
    (expanding_max_from (Some (XR.XFin (b / k))) s)
  = series_div
      (series_sub s' (expanding_max_from (Some (XR.XFin b)) s'))
      (expanding_max_from (Some (XR.XFin b)) s').
Proof.
  intros Hk Hqs. induction Hqs as [|q t Hq Ht IH]; intros b Hb s s'.
  - reflexivity.
  - subst s s'. unfold series_div, series_sub in *.
    cbn [map expanding_max_from combine is_nan xreal_arith XR.is_nan
         fltb XR.ltb].
    rewrite (Qc_ltb_div b q Hk).
    destruct (XR.Qc_ltb b q) eqn:E.
    + f_equal; [|exact (IH q Hq)].
      cbn [fsub fdiv xreal_arith XR.sub XR.opp XR.add].
      rewrite !xr_div_finite
        by (apply Qc_pos_nonzero; try assumption; now apply Qc_div_pos).
      f_equal. field. split; apply Qc_pos_nonzero; assumption.
    + f_equal; [|exact (IH b Hb)].
      cbn [fsub fdiv xreal_arith XR.sub XR.opp XR.add].
      rewrite !xr_div_finite
        by (apply Qc_pos_nonzero; try assumption; now apply Qc_div_pos).
      f_equal. field. split; apply Qc_pos_nonzero; assumption.
Qed.

Lemma drawdown_of_scaled (k : Qc) (qs : list Qc) :
  0 < k -> Forall (Qclt 0) qs ->
  drawdown_of (map (fun q => XR.XFin (q / k)) qs)
  = drawdown_of (map XR.XFin qs).
Proof.
  intros Hk Hqs. unfold drawdown_of, expanding_max.
  destruct Hqs as [|q t Hq Ht]; [reflexivity|].
  pose proof (drawdown_scale Hk Ht Hq) as Hrest.
  unfold series_div, series_sub in *.
  cbn [map expanding_max_from combine is_nan xreal_arith XR.is_nan].
  f_equal; [|exact Hrest].
  cbn [fsub fdiv xreal_arith XR.sub XR.opp XR.add].
  rewrite !xr_div_finite
    by (apply Qc_pos_nonzero; try assumption; now apply Qc_div_pos).
  f_equal. field. split; apply Qc_pos_nonzero; assumption.
Qed.

Lemma calculate_max_drawdown_closed (self : RiskCalculator.t XR.xreal)
    (p0 : Qc) (qs : list Qc) :
  0 < p0 -> Forall (Qclt 0) qs ->
  calculate_max_drawdown self (map XR.XFin (p0 :: qs))
  = Ok (fabs (series_min (drawdown_of (map XR.XFin qs)))).
Proof.
  intros Hp0 Hqs.
  pose proof (cumulative_of_prices self Hp0 Hqs) as Hcum.
  unfold calculate_max_drawdown.
  destruct (RiskCalculator.calculate_returns self (map XR.XFin (p0 :: qs)))
    as [returns|e]; [|discriminate Hcum].
  assert (Hc : cumprod (map (fun r => fadd (of_Z 1) r) returns)
               = map (fun q => XR.XFin (q / p0)) qs)
    by (injection Hcum; trivial).
  change (Ok (fabs (series_min
                      (drawdown_of
                         (cumprod (map (fun r => fadd (of_Z 1) r) returns)))))
          = Ok (fabs (series_min (drawdown_of (map XR.XFin qs))))).
  now rewrite Hc, (drawdown_of_scaled Hp0 Hqs).
Qed.

(** X12.  In exact arithmetic, on positive prices, [calculate_max_drawdown]
    does not look at the first price: the cumulative returns start at the
    second price, so the result is the largest relative fall below the
    running maximum of the prices after the first, and the same whatever
    the first price was. *)
Theorem calculate_max_drawdown_ignores_first_price
    (self : RiskCalculator.t XR.xreal) (p0 p0' : Qc) (qs : list Qc) :
  0 < p0 -> 0 < p0' -> Forall (Qclt 0) qs ->
  calculate_max_drawdown self (map XR.XFin (p0 :: qs))
  = Ok (fabs (series_min (drawdown_of (map XR.XFin qs)))) /\
  calculate_max_drawdown self (map XR.XFin (p0' :: qs))
  = calculate_max_drawdown self (map XR.XFin (p0 :: qs)).
Proof.
  intros Hp0 Hp0' Hqs.
  rewrite !calculate_max_drawdown_closed by assumption. now split.
Qed.
End MaxDrawdownExact.

Lemma calculate_max_drawdown_ignores_first_price_witness :
  let after := [XR.Qc_of_Z 50; XR.Qc_of_Z 60] in
  calculate_max_drawdown calcX (map XR.XFin (XR.Qc_of_Z 100 :: after))
  = Ok (fabs (series_min (drawdown_of (map XR.XFin after)))) /\
  calculate_max_drawdown calcX (map XR.XFin (XR.Qc_of_Z 40 :: after))
  = calculate_max_drawdown calcX (map XR.XFin (XR.Qc_of_Z 100 :: after)).
Proof.
  intros after.
  apply (@calculate_max_drawdown_ignores_first_price calcX
           (XR.Qc_of_Z 100) (XR.Qc_of_Z 40) after).
  - reflexivity.
  - reflexivity.
  - repeat constructor.
Defined.

Section MaxDrawdownBounds.
Local Open Scope Qc_scope.

Lemma Qc_peak_pos (b q : Qc) :
  0 < b -> 0 < q -> 0 < (if XR.Qc_ltb b q then q else b).
Proof. intros Hb Hq. now destruct (XR.Qc_ltb b q). Qed.

Lemma Qc_peak_ge (b q : Qc) : q <= (if XR.Qc_ltb b q then q else b).
Proof.
  destruct (XR.Qc_ltb b q) eqn:E; [apply Qcle_refl|].
  apply Qcnot_lt_le. intros Hlt. apply (proj2 (Qc_ltb_lt b q)) in Hlt.
  congruence.
Qed.

Lemma drawdowns_exact (qs : list Qc) :
  Forall (Qclt 0) qs ->
  forall b, 0 < b ->
  let s := map XR.XFin qs in
  series_div
    (series_sub s (expanding_max_from (Some (XR.XFin b)) s))
    (expanding_max_from (Some (XR.XFin b)) s)
  = map XR.XFin (Qc_drawdowns b qs).
Proof.
  intros Hqs. induction Hqs as [|q t Hq Ht IH]; intros b Hb s.
  - reflexivity.
  - subst s. unfold series_div, series_sub in *.
    cbn [map expanding_max_from combine is_nan xreal_arith XR.is_nan
         fltb XR.ltb Qc_drawdowns].
    pose proof (Qc_peak_pos Hb Hq) as Hpeak.
    destruct (XR.Qc_ltb b q) eqn:E.
    + f_equal; [|exact (IH q Hq)].
      cbn [fsub fdiv xreal_arith XR.sub XR.opp XR.add].
      now rewrite xr_div_finite by now apply Qc_pos_nonzero.
    + f_equal; [|exact (IH b Hb)].
      cbn [fsub fdiv xreal_arith XR.sub XR.opp XR.add].
      now rewrite xr_div_finite by now apply Qc_pos_nonzero.
Qed.

Lemma drawdown_of_exact (q : Qc) (qs : list Qc) :
  0 < q -> Forall (Qclt 0) qs ->
  drawdown_of (map XR.XFin (q :: qs))
  = map XR.XFin (Qc_drawdowns q (q :: qs)).
Proof.
  intros Hq Hqs. unfold drawdown_of, expanding_max.
  pose proof (drawdowns_exact Hqs Hq) as Hrest.
  unfold series_div, series_sub in *.
  cbn [map expanding_max_from combine is_nan xreal_arith XR.is_nan
       Qc_drawdowns].
  assert (Hqq : XR.Qc_ltb q q = false).
  { destruct (XR.Qc_ltb q q) eqn:E; [|reflexivity].
    apply Qc_ltb_lt in E. now apply Qclt_not_eq in E. }
  rewrite Hqq. f_equal; [|exact Hrest].
  cbn [fsub fdiv xreal_arith XR.sub XR.opp XR.add].
  now rewrite xr_div_finite by now apply Qc_pos_nonzero.
Qed.

Lemma series_min_exact (e : Qc) (es : list Qc) :
  series_min (map XR.XFin (e :: es)) = XR.XFin (Qc_least e es).
Proof.
  unfold series_min. rewrite (dropna_id _ (in_map_finite (e :: es))).
  cbn [map]. unfold Qc_least. revert e.
  induction es as [|y t IH]; intros e; [reflexivity|].
  cbn [map fold_left fltb xreal_arith XR.ltb].
  destruct (XR.Qc_ltb y e); apply IH.
Qed.

Lemma Qc_least_one_of (P : Qc -> Prop) (es : list Qc) :
  Forall P es -> forall e, P e -> P (Qc_least e es).
Proof.
  unfold Qc_least. induction 1 as [|y t Hy Ht IH]; intros e He.
  - exact He.
  - simpl. destruct (XR.Qc_ltb y e); now apply IH.
Qed.

Lemma Qc_least_below (es : list Qc) :
  forall e, Qc_least e es <= e /\ Forall (Qcle (Qc_least e es)) es.
Proof.
  unfold Qc_least. induction es as [|y t IH]; intros e.
  - split; [apply Qcle_refl|constructor].
  - simpl. destruct (XR.Qc_ltb y e) eqn:E.
    + destruct (IH y) as [Hy Ht]. apply Qc_ltb_lt in E.
      split; [|now constructor].
      eapply Qcle_trans; [exact Hy|now apply Qclt_le_weak].
    + destruct (IH e) as [He Ht].
      split; [exact He|]. constructor; [|exact Ht].
      eapply Qcle_trans; [exact He|].
      apply Qcnot_lt_le. intros Hlt.
      apply (proj2 (Qc_ltb_lt y e)) in Hlt. congruence.
Qed.

Lemma Qc_drawdown_range (q m : Qc) :
  0 < q -> q <= m -> -(1) < (q + - m) / m /\ (q + - m) / m <= 0.
Proof.
  intros Hq Hqm.
  assert (Hm : 0 < m) by (eapply Qclt_le_trans; eassumption).
  assert (Hm0 : m <> 0) by now apply Qc_pos_nonzero.
  split.
  - apply Qclt_minus_iff.
    replace ((q + - m) / m + - - (1)) with (q / m) by (field; exact Hm0).
    now apply Qc_div_pos.
  - apply Qcle_minus_iff.
    replace (0 + - ((q + - m) / m)) with ((m + - q) * / m)
      by (field; exact Hm0).
    replace 0 with (0 * / m) at 1 by ring.
    apply Qcmult_le_compat_r.
    + exact (proj1 (Qcle_minus_iff q m) Hqm).
    + apply Qclt_le_weak.
      replace (/ m) with (1 / m) by (field; exact Hm0).
      apply Qc_div_pos; [reflexivity|exact Hm].
Qed.

Lemma Qc_drawdown_zero (q m : Qc) :
  0 < m -> ((q + - m) / m = 0 <-> q = m).
Proof.
  intros Hm. pose proof (Qc_pos_nonzero Hm) as Hm0. split.
  - intros He.
    replace q with ((q + - m) / m * m + m) by (field; exact Hm0).
    rewrite He. ring.
  - intros ->. field. exact Hm0.
Qed.

Lemma Qc_drawdowns_range (qs : list Qc) :
  Forall (Qclt 0) qs ->
  forall b, 0 < b ->
  Forall (fun e => -(1) < e /\ e <= 0) (Qc_drawdowns b qs).
Proof.
  induction 1 as [|q t Hq Ht IH]; intros b Hb; simpl; constructor.
  - apply Qc_drawdown_range; [exact Hq|apply Qc_peak_ge].
  - apply IH. now apply Qc_peak_pos.
Qed.

Lemma Qc_drawdowns_zero (qs : list Qc) :
  Forall (Qclt 0) qs ->
  forall b, 0 < b ->
  (Forall (eq 0) (Qc_drawdowns b qs) <-> Sorted Qcle (b :: qs)).
Proof.
  induction 1 as [|q t Hq Ht IH]; intros b Hb; simpl.
  - split; intros _; repeat constructor.
  - pose proof (Qc_peak_pos Hb Hq) as Hpeak.
    pose proof (Qc_drawdown_zero q Hpeak) as Hzero.
    specialize (IH _ Hpeak).
    destruct (XR.Qc_ltb b q) eqn:E.
    + apply Qc_ltb_lt in E. split.
      * intros Hall. inversion Hall as [|? ? _ Hrest]; subst.
        constructor; [now apply IH|].
        constructor. now apply Qclt_le_weak.
      * intros Hs. apply Sorted_inv in Hs. destruct Hs as [Hs _].
        constructor; [symmetry; now apply Hzero|now apply IH].
    + assert (Hqb : q <= b).
      { apply Qcnot_lt_le. intros Hlt.
        apply (proj2 (Qc_ltb_lt b q)) in Hlt. congruence. }
      split.
      * intros Hall. inversion Hall as [|? ? Hhead Hrest]; subst.
        symmetry in Hhead. apply Hzero in Hhead. subst q.
        constructor; [now apply IH|]. constructor. apply Qcle_refl.
      * intros Hs. apply Sorted_inv in Hs. destruct Hs as [Hs Hhd].
        apply HdRel_inv in Hhd.
        assert (Heq : q = b) by now apply Qcle_antisym.
        subst q.
        constructor; [symmetry; now apply Hzero|now apply IH].
Qed.

Lemma Qc_abs_range (e : Qc) :
  -(1) < e -> e <= 0 ->
  0 <= Qc_abs e /\ Qc_abs e < 1 /\ (Qc_abs e = 0 <-> e = 0).
Proof.
  intros Hlo Hhi. unfold Qc_abs, XR.negative. rewrite Qc_of_Z_0.
  destruct (XR.Qc_ltb e 0) eqn:E.
  - apply Qc_ltb_lt in E. split; [|split].
    + apply Qcopp_le_compat in Hhi. exact Hhi.
    + apply Qclt_minus_iff. apply Qclt_minus_iff in Hlo.
      rewrite Qcopp_involutive in *. now rewrite Qcplus_comm.
    + split; intros He.
      * rewrite <- (Qcopp_involutive e), He. reflexivity.
      * now rewrite He.
  - assert (He : e = 0).
    { apply Qcle_antisym; [exact Hhi|].
      apply Qcnot_lt_le. intros Hlt.
      apply (proj2 (Qc_ltb_lt e 0)) in Hlt. congruence. }
    subst e. split; [apply Qcle_refl|]. split; [reflexivity|tauto].
Qed.

(** X13.  In exact arithmetic, on at least two positive prices,
    [calculate_max_drawdown] returns a number in the interval [0, 1), and it
    returns 0 exactly when the prices after the first never fall. *)
Theorem calculate_max_drawdown_bounds (self : RiskCalculator.t XR.xreal)
    (p0 q : Qc) (qs : list Qc) :
  0 < p0 -> 0 < q -> Forall (Qclt 0) qs ->
  exists d,
    calculate_max_drawdown self (map XR.XFin (p0 :: q :: qs))
    = Ok (XR.XFin d) /\
    0 <= d /\ d < 1 /\
    (d = 0 <-> Sorted Qcle (q :: qs)).
Proof.
  intros Hp0 Hq Hqs.
  rewrite (calculate_max_drawdown_closed self Hp0 (Forall_cons q Hq Hqs)).
  rewrite (drawdown_of_exact Hq Hqs).
  pose proof (Qc_drawdowns_range (Forall_cons q Hq Hqs) Hq) as Hrange.
  pose proof (Qc_drawdowns_zero (Forall_cons q Hq Hqs) Hq) as Hzero.
  destruct (Qc_drawdowns q (q :: qs)) as [|e es] eqn:Hdd;
    [discriminate Hdd|].
  rewrite series_min_exact.
  exists (Qc_abs (Qc_least e es)).
  split; [reflexivity|].
  inversion Hrange as [|? ? He Hes]; subst.
  pose proof (@Qc_least_one_of (fun e => -(1) < e /\ e <= 0) es Hes e He)
    as [Hlo Hhi].
  destruct (Qc_abs_range Hlo Hhi) as (Habs0 & Habs1 & Habs).
  split; [exact Habs0|]. split; [exact Habs1|].
  rewrite Habs.
  assert (Hall : Qc_least e es = 0 <-> Forall (eq 0) (e :: es)).
  { split.
    - intros Hleast. destruct (Qc_least_below es e) as [Hbe Hbes].
      rewrite Hleast in *.
      constructor.
      + now apply Qcle_antisym; [|apply He].
      + rewrite Forall_forall in *. intros x Hx.
        apply Qcle_antisym; [now apply Hbes|now apply Hes].
    - intros Hall. inversion Hall as [|? ? He0 Hes0]; subst.
      symmetry.
      exact (@Qc_least_one_of (eq 0) es Hes0 0 eq_refl). }
  rewrite Hall, Hzero.
  split; intros Hs.
  - now apply Sorted_inv in Hs.
  - constructor; [exact Hs|]. constructor. apply Qcle_refl.
Qed.
End MaxDrawdownBounds.

Lemma calculate_max_drawdown_bounds_witness :
  exists d,
    calculate_max_drawdown calcX
      (map XR.XFin [XR.Qc_of_Z 100; XR.Qc_of_Z 50; XR.Qc_of_Z 60;
                    XR.Qc_of_Z 45])
    = Ok (XR.XFin d) /\
    (0 <= d)%Qc /\ (d < 1)%Qc /\
    (d = 0%Qc <-> Sorted Qcle [XR.Qc_of_Z 50; XR.Qc_of_Z 60; XR.Qc_of_Z 45]).
Proof.
  apply (@calculate_max_drawdown_bounds calcX (XR.Qc_of_Z 100)
           (XR.Qc_of_Z 50) [XR.Qc_of_Z 60; XR.Qc_of_Z 45]).
  - reflexivity.
  - reflexivity.
  - repeat constructor.
Defined.

(** * The chat assistant *)

Section Conversation.
Import PortfolioChatAssistant.
Variables World Exception Value : Type.
Variable str : Exception -> string.
Variable context_str : dict Value -> string + Exception.

(** What one call does to the assistant. *)
Lemma chat_appends (user_message : string)
    (portfolio_context : option (dict Value)) (self : t World Exception)
    (w : World) :
  let '(reply, self', _) := chat str context_str user_message portfolio_context self w in
  PortfolioChatAssistant.client self' = PortfolioChatAssistant.client self /\
  (conversation_history self'
   = conversation_history self ++ [user_entry user_message] \/
   conversation_history self'
   = conversation_history self
     ++ [user_entry user_message;
         {| PortfolioChatAssistant.role := "assistant";
            PortfolioChatAssistant.content := reply |}]).
Proof.
  unfold PortfolioChatAssistant.chat, user_entry.
  destruct (PortfolioChatAssistant.get_system_prompt context_str
              portfolio_context) as [prompt|e].
  - cbn [PortfolioChatAssistant.client
         PortfolioChatAssistant.conversation_history].
    destruct (PortfolioChatAssistant.messages_create _ _ _ _)
      as [[text|e] w'].
    + split; [reflexivity|]. right.
      cbn [PortfolioChatAssistant.conversation_history].
      now rewrite <- app_assoc.
    + split; [reflexivity|]. now left.
  - split; [reflexivity|]. now left.
Qed.

(** What a run of calls appends starts with a user entry, and holds the
    messages sent as its user entries. *)
Lemma chats_appends (calls : list (string * option (dict Value))) :
  forall (self : t World Exception) (w : World),
    let '(_, self', _) := chats str context_str calls self w in
    PortfolioChatAssistant.client self'
    = PortfolioChatAssistant.client self /\
    exists appended,
      conversation_history self' = conversation_history self ++ appended /\
      PortfolioChatAssistant.contents_of "user" appended = map fst calls /\
      (List.length calls <= List.length appended
       <= 2 * List.length calls)%nat /\
      match appended with
      | [] => calls = []
      | first :: _ => PortfolioChatAssistant.role first = "user"%string
      end.
Proof.
  induction calls as [|[user_message portfolio_context] rest IH];
    intros self w.
  - simpl. split; [reflexivity|]. exists [].
    rewrite app_nil_r. repeat split; simpl; lia.
  - cbn [PortfolioChatAssistant.chats].
    pose proof (chat_appends user_message portfolio_context self w) as H1.
    destruct (chat str context_str user_message portfolio_context self w)
      as [[reply self1] w1].
    destruct H1 as [Hc1 H1].
    specialize (IH self1 w1).
    destruct (chats str context_str rest self1 w1) as [[replies self2] w2].
    destruct IH as (Hc2 & appended & Happ & Husers & Hlen & _).
    split; [congruence|].
    destruct H1 as [H1|H1].
    + exists (user_entry user_message :: appended).
      split; [rewrite Happ, H1, <- app_assoc; reflexivity|].
      split; [unfold PortfolioChatAssistant.contents_of in *; simpl;
              now rewrite Husers|].
      split; [simpl; lia|reflexivity].
    + exists (user_entry user_message
              :: {| PortfolioChatAssistant.role := "assistant";
                    PortfolioChatAssistant.content := reply |}
              :: appended).
      split; [rewrite Happ, H1, <- app_assoc; reflexivity|].
      split; [unfold PortfolioChatAssistant.contents_of in *; simpl;
              now rewrite Husers|].
      split; [simpl; lia|reflexivity].
Qed.

(** X14.  Whatever the service does, a run of calls to [chat] only appends
    to the conversation: the history before is a prefix of the history
    after, every message the user sent is in it, in the order sent and also
    when its call failed, each call adds one or two entries, and the client
    is the same. *)
Theorem chat_keeps_every_user_message
    (calls : list (string * option (dict Value))) (self : t World Exception)
    (w : World) :
  let self' := snd (fst (chats str context_str calls self w)) in
  PortfolioChatAssistant.client self' = PortfolioChatAssistant.client self /\
  firstn (List.length (conversation_history self))
    (conversation_history self')
  = conversation_history self /\
  PortfolioChatAssistant.contents_of "user" (conversation_history self')
  = (PortfolioChatAssistant.contents_of "user" (conversation_history self)
     ++ map fst calls)%list /\
  (List.length (conversation_history self) + List.length calls
   <= List.length (conversation_history self')
   <= List.length (conversation_history self) + 2 * List.length calls)%nat.
Proof.
  pose proof (chats_appends calls self w) as Hrun.
  destruct (chats str context_str calls self w) as [[replies self1] w1]. simpl.
  destruct Hrun as (Hc & appended & Happ & Husers & Hlen & _).
  split; [exact Hc|].
  rewrite Happ. split; [|split].
  - rewrite firstn_app, Nat.sub_diag, firstn_all. simpl.
    now rewrite app_nil_r.
  - unfold PortfolioChatAssistant.contents_of in *.
    now rewrite filter_app, map_app, Husers.
  - rewrite length_app. lia.
Qed.

Lemma alternating_app (h l : list PortfolioChatAssistant.message) :
  PortfolioChatAssistant.alternating h = true ->
  PortfolioChatAssistant.alternating (h ++ l)
  = PortfolioChatAssistant.alternating l.
Proof.
  assert (Hall : forall n (h : list PortfolioChatAssistant.message),
             (List.length h <= n)%nat ->
             PortfolioChatAssistant.alternating h = true ->
             PortfolioChatAssistant.alternating (h ++ l)
             = PortfolioChatAssistant.alternating l).
  { induction n as [|n IH]; intros [|u [|a rest]] Hlen Halt;
      try reflexivity; try discriminate Halt; simpl in Hlen; try lia.
    cbn [PortfolioChatAssistant.alternating app] in *.
    apply andb_prop in Halt. destruct Halt as [Hroles Hrest].
    rewrite Hroles. simpl. apply IH; [lia|exact Hrest]. }
  now apply (Hall (List.length h)).
Qed.

(** X15.  When a call to [chat] fails, because the context does not render
    or because the service raises, [chat] raises nothing: it returns the
    error text, and the user's message stays in the history without a reply.
    From a conversation that alternated, the history then no longer
    alternates, and no later call to [chat] repairs it: every later request
    carries two user messages in a row. *)
Theorem chat_failure_leaves_user_message (user_message : string)
    (portfolio_context : option (dict Value)) (self : t World Exception)
    (w w' : World) (e : Exception) :
  PortfolioChatAssistant.alternating (conversation_history self) = true ->
  PortfolioChatAssistant.get_system_prompt context_str portfolio_context
  = inr e /\ w' = w \/
  (exists system_prompt,
     PortfolioChatAssistant.get_system_prompt context_str portfolio_context
     = inl system_prompt /\
     PortfolioChatAssistant.messages_create
       (PortfolioChatAssistant.client self) system_prompt
       (conversation_history self ++ [user_entry user_message]) w
     = (inr e, w')) ->
  exists self',
    chat str context_str user_message portfolio_context self w
    = (PortfolioChatAssistant.error_reply str e, self', w') /\
    conversation_history self'
    = conversation_history self ++ [user_entry user_message] /\
    forall later w1,
      PortfolioChatAssistant.alternating
        (conversation_history (snd (fst (chats str context_str later self' w1))))
      = false.
Proof.
  intros Halt Hfail.
  set (self' :=
         {| PortfolioChatAssistant.client :=
              PortfolioChatAssistant.client self;
            PortfolioChatAssistant.conversation_history :=
              conversation_history self ++ [user_entry user_message] |}
         : t World Exception).
  exists self'. split; [|split].
  - unfold PortfolioChatAssistant.chat.
    destruct Hfail as [[Hprompt ->]|(prompt & Hprompt & Hcall)];
      rewrite Hprompt; [reflexivity|].
    cbn [PortfolioChatAssistant.client
         PortfolioChatAssistant.conversation_history].
    unfold user_entry in Hcall. now rewrite Hcall.
  - reflexivity.
  - intros later w1.
    pose proof (chats_appends later self' w1) as Hrun.
    destruct (chats str context_str later self' w1) as [[replies self2] w2]. simpl.
    destruct Hrun as (_ & appended & Happ & _ & _ & Hfirst).
    rewrite Happ. subst self'.
    cbn [PortfolioChatAssistant.conversation_history].
    rewrite <- app_assoc, (alternating_app _ _ Halt).
    destruct appended as [|first rest]; [reflexivity|].
    cbn [app PortfolioChatAssistant.alternating
         PortfolioChatAssistant.role user_entry].
    rewrite Hfirst. reflexivity.
Qed.

Lemma chats_answered (calls : list (string * option (dict Value))) :
  forall (self : t World Exception) (w : World),
    PortfolioChatAssistant.alternating (conversation_history self) = true ->
    (forall call, In call calls ->
       exists system_prompt,
         PortfolioChatAssistant.get_system_prompt context_str (snd call)
         = inl system_prompt) ->
    (forall system_prompt messages w1,
       exists text w2,
         PortfolioChatAssistant.messages_create
           (PortfolioChatAssistant.client self) system_prompt messages w1
         = (inl text, w2)) ->
    let '(replies, self', _) := chats str context_str calls self w in
    PortfolioChatAssistant.alternating (conversation_history self') = true /\
    List.length (conversation_history self')
    = (List.length (conversation_history self) + 2 * List.length calls)%nat /\
    PortfolioChatAssistant.contents_of "assistant" (conversation_history self')
    = (PortfolioChatAssistant.contents_of "assistant"
         (conversation_history self)
       ++ replies)%list.
Proof.
  induction calls as [|[user_message portfolio_context] rest IH];
    intros self w Halt Hrender Hanswers.
  - simpl. split; [exact Halt|]. split; [lia|].
    now rewrite app_nil_r.
  - destruct (Hrender (user_message, portfolio_context)
                (or_introl eq_refl)) as [prompt Hprompt].
    simpl in Hprompt.
    destruct (Hanswers prompt
                (conversation_history self ++ [user_entry user_message]) w)
      as (text & w2 & Hcall).
    set (self1 :=
           {| PortfolioChatAssistant.client :=
                PortfolioChatAssistant.client self;
              PortfolioChatAssistant.conversation_history :=
                (conversation_history self ++ [user_entry user_message])
                ++ [{| PortfolioChatAssistant.role := "assistant";
                       PortfolioChatAssistant.content := text |}] |}
           : t World Exception).
    assert (Hchat : chat str context_str user_message portfolio_context self w
                    = (text, self1, w2)).
    { unfold PortfolioChatAssistant.chat. rewrite Hprompt.
      cbn [PortfolioChatAssistant.client
           PortfolioChatAssistant.conversation_history].
      unfold user_entry in Hcall. now rewrite Hcall. }
    assert (Halt1 : PortfolioChatAssistant.alternating
                      (conversation_history self1)
                    = true).
    { subst self1.
      cbn [PortfolioChatAssistant.conversation_history].
      rewrite <- app_assoc, (alternating_app _ _ Halt). reflexivity. }
    specialize (IH self1 w2 Halt1
                  (fun call Hin => Hrender call (or_intror Hin)) Hanswers).
    cbn [PortfolioChatAssistant.chats]. rewrite Hchat.
    destruct (chats str context_str rest self1 w2) as [[replies self2] w3].
    destruct IH as (Halt2 & Hlen2 & Hreplies).
    split; [exact Halt2|]. split.
    + rewrite Hlen2. subst self1.
      cbn [PortfolioChatAssistant.conversation_history].
      rewrite !length_app. simpl. lia.
    + rewrite Hreplies. subst self1.
      cbn [PortfolioChatAssistant.conversation_history].
      unfold PortfolioChatAssistant.contents_of.
      rewrite !filter_app, !map_app. simpl.
      now rewrite <- !app_assoc.
Qed.

(** X16.  As long as every context renders and the service answers, the
    conversation alternates after every run of calls to [chat], each call
    has added its two entries, and the replies returned are the assistant
    entries added, in order. *)
Theorem chat_alternates_while_service_answers
    (calls : list (string * option (dict Value))) (self : t World Exception)
    (w : World) :
  PortfolioChatAssistant.alternating (conversation_history self) = true ->
  (forall call, In call calls ->
     exists system_prompt,
       PortfolioChatAssistant.get_system_prompt context_str (snd call)
       = inl system_prompt) ->
  (forall system_prompt messages w1,
     exists text w2,
       PortfolioChatAssistant.messages_create
         (PortfolioChatAssistant.client self) system_prompt messages w1
       = (inl text, w2)) ->
  let self' := snd (fst (chats str context_str calls self w)) in
  PortfolioChatAssistant.alternating (conversation_history self') = true /\
  List.length (conversation_history self')
  = (List.length (conversation_history self) + 2 * List.length calls)%nat /\
  PortfolioChatAssistant.contents_of "assistant" (conversation_history self')
  = (PortfolioChatAssistant.contents_of "assistant" (conversation_history self)
     ++ fst (fst (chats str context_str calls self w)))%list.
Proof.
  intros Halt Hrender Hanswers.
  pose proof (chats_answered calls self w Halt Hrender Hanswers) as Hrun.
  destruct (chats str context_str calls self w) as [[replies self1] w1]. exact Hrun.
Qed.
End Conversation.

Lemma chat_failure_leaves_user_message_witness :
  let self :=
    {| PortfolioChatAssistant.client := echo_client;
       PortfolioChatAssistant.conversation_history := [] |} in
  let context := Some [("total_value"%string, false);
                       ("risk_level"%string, true)] in
  exists self',
    PortfolioChatAssistant.chat (fun e => e) sample_context_str
      "How is my portfolio doing?"%string context self 0%nat
    = (PortfolioChatAssistant.error_reply (fun e => e)
         "Unknown format code 'f' for object of type 'str'"%string,
       self', 0%nat) /\
    PortfolioChatAssistant.conversation_history self'
    = [user_entry "How is my portfolio doing?"] /\
    forall later w1,
      PortfolioChatAssistant.alternating
        (PortfolioChatAssistant.conversation_history
           (snd (fst (PortfolioChatAssistant.chats (fun e => e)
                        sample_context_str later self' w1))))
      = false.
Proof.
  intros self context.
  apply (@chat_failure_leaves_user_message nat string bool (fun e => e)
           sample_context_str "How is my portfolio doing?"%string context
           self 0%nat 0%nat
           "Unknown format code 'f' for object of type 'str'"%string).
  - reflexivity.
  - left. split; reflexivity.
Defined.

Lemma chat_alternates_while_service_answers_witness :
  let self :=
    {| PortfolioChatAssistant.client := echo_client;
       PortfolioChatAssistant.conversation_history := [] |} in
  let calls :=
    [("What is a Sharpe Ratio?"%string, None);
     ("How is my portfolio doing?"%string,
      Some [("total_value"%string, true); ("risk_level"%string, true)])] in
  let self' :=
    snd (fst (PortfolioChatAssistant.chats (fun e => e) sample_context_str
                calls self 0%nat)) in
  PortfolioChatAssistant.alternating
    (PortfolioChatAssistant.conversation_history self') = true /\
  List.length (PortfolioChatAssistant.conversation_history self') = 4%nat /\
  PortfolioChatAssistant.contents_of "assistant"
    (PortfolioChatAssistant.conversation_history self')
  = fst (fst (PortfolioChatAssistant.chats (fun e => e) sample_context_str
                calls self 0%nat)).
Proof.
  intros self calls.
  apply (@chat_alternates_while_service_answers nat string bool
           (fun e => e) sample_context_str calls self 0%nat).
  - reflexivity.
  - intros call [<-|[<-|[]]]; eexists; reflexivity.
  - intros system_prompt messages w1. eexists. eexists. reflexivity.
Defined.

(** * Returns and risk on any series *)

Section ReturnsOnAnySeries.
Context {F : Type} `{Arith F}.

Lemma filter_length_all {A : Type} (keep : A -> bool) (l : list A) :
  List.length (filter keep l) = List.length l <->
  (forall x, In x l -> keep x = true).
Proof.
  induction l as [|x t IH]; simpl.
  - split; [intros _ y []|reflexivity].
  - pose proof (filter_length_le keep t) as Hle.
    destruct (keep x) eqn:E; simpl.
    + split.
      * intros Hlen y [<-|Hy]; [exact E|].
        apply IH; [lia|exact Hy].
      * intros Hall. f_equal. apply IH. intros y Hy. apply Hall. now right.
    + split; [lia|].
      intros Hall. rewrite (Hall x (or_introl eq_refl)) in E. discriminate E.
Qed.

(** X17.  [calculate_returns] always returns, and never returns a NaN:
    every return is one of the relative changes [prices[i]/prices[i-1] - 1],
    there are at most [len(prices) - 1] of them, and exactly that many
    when, and only when, no relative change is NaN. *)
Theorem calculate_returns_drops_every_nan (self : RiskCalculator.t F)
    (prices : list F) :
  exists returns,
    RiskCalculator.calculate_returns self prices = Ok returns /\
    (forall r, In r returns ->
       is_nan r = false /\
       exists i, (1 <= i < List.length prices)%nat /\
                 r = change_at prices i) /\
    (List.length returns <= List.length prices - 1)%nat /\
    (List.length returns = (List.length prices - 1)%nat <->
     forall i, (1 <= i < List.length prices)%nat ->
               is_nan (change_at prices i) = false).
Proof.
  unfold RiskCalculator.calculate_returns. eexists. split; [reflexivity|].
  destruct prices as [|p t].
  - simpl. split; [intros r []|]. split; [lia|].
    split; [intros _ i Hi; lia|reflexivity].
  - rewrite dropna_pct_change. unfold dropna.
    pose proof (pct_change_from_length p t) as Hlen.
    split; [|split].
    + intros r Hr. apply filter_In in Hr. destruct Hr as [Hr Hnan].
      split; [now apply negb_true_iff|].
      destruct (In_nth _ _ fnan Hr) as (j & Hj & <-).
      rewrite Hlen in Hj. exists (S j).
      split; [simpl; lia|now apply pct_change_from_nth].
    + eapply Nat.le_trans; [apply filter_length_le|]. simpl. lia.
    + replace (List.length (p :: t) - 1)%nat
        with (List.length (pct_change_from p t)) by (simpl; lia).
      rewrite filter_length_all. split.
      * intros Hall i Hi. simpl in Hi.
        destruct i as [|j]; [lia|].
        rewrite <- (pct_change_from_nth t p) by lia.
        apply negb_true_iff, Hall, nth_In. lia.
      * intros Hall x Hx.
        destruct (In_nth _ _ fnan Hx) as (j & Hj & <-).
        rewrite Hlen in Hj.
        rewrite pct_change_from_nth by exact Hj.
        apply negb_true_iff, Hall. simpl. lia.
Qed.
End ReturnsOnAnySeries.

Section ShortHistory.
Variable self : RiskCalculator.t B64.binary64.

Lemma b64_div_nan (x : B64.binary64) : fdiv x S754_nan = S754_nan.
Proof. now destruct x. Qed.

(** X18.  On doubles, a price history of at most two observations has at
    most one return: its Sharpe ratio and its volatility are both NaN,
    annualized or not, and [assess_risk_level] calls that 'High Risk'. *)
Theorem short_history_is_high_risk (prices : list B64.binary64)
    (annualize : bool) :
  (List.length prices <= 2)%nat ->
  exists returns,
    RiskCalculator.calculate_returns self prices = Ok returns /\
    RiskCalculator.calculate_sharpe_ratio self returns annualize
    = Ok S754_nan /\
    RiskCalculator.calculate_volatility self returns annualize
    = Ok S754_nan /\
    RiskCalculator.assess_risk_level self S754_nan S754_nan
    = Ok "High Risk"%string.
Proof.
  intros Hlen.
  unfold RiskCalculator.calculate_returns. eexists. split; [reflexivity|].
  assert (Hstd : series_std (dropna (pct_change prices)) = S754_nan).
  { apply series_std_short.
    destruct prices as [|p t]; [simpl; lia|].
    rewrite dropna_pct_change. unfold dropna.
    eapply Nat.le_trans; [apply filter_length_le|].
    rewrite pct_change_from_length. simpl in Hlen. lia. }
  split; [|split].
  - unfold RiskCalculator.calculate_sharpe_ratio. rewrite Hstd.
    destruct annualize; f_equal; apply b64_div_nan.
  - unfold RiskCalculator.calculate_volatility. rewrite Hstd.
    now destruct annualize.
  - reflexivity.
Qed.
End ShortHistory.

Lemma short_history_is_high_risk_witness :
  exists returns,
    RiskCalculator.calculate_returns calc64 [B64.of_Z 100; B64.of_Z 101]
    = Ok returns /\
    RiskCalculator.calculate_sharpe_ratio calc64 returns true
    = Ok S754_nan /\
    RiskCalculator.calculate_volatility calc64 returns true = Ok S754_nan /\
    RiskCalculator.assess_risk_level calc64 S754_nan S754_nan
    = Ok "High Risk"%string.
Proof.
  apply (short_history_is_high_risk calc64 [B64.of_Z 100; B64.of_Z 101]
           true).
  simpl. lia.
Defined.

Lemma score_of_on_doubles_witness :
  let score :=
    PortfolioAnalyzer.score_of 5 3 (B64.of_decimal 45 2)
      (B64.of_decimal 80 2) in
  score = b64_of_Qc (spec_score 5 3 true true) /\
  fltb score (of_Z 0) = false /\ fltb (of_Z 10) score = false.
Proof.
  apply (@score_of_on_doubles 5 3 (B64.of_decimal 45 2)
           (B64.of_decimal 80 2)); lia.
Defined.

Lemma calculate_returns_finite_prices_witness :
  let prices := [B64.of_Z 100; B64.of_Z 110; B64.of_Z 99] in
  exists returns,
    RiskCalculator.calculate_returns calc64 prices = Ok returns /\
    List.length returns = 2%nat /\
    forall i, (1 <= i < 3)%nat ->
              nth (i - 1) returns fnan = change_at prices i.
Proof.
  intros prices.
  apply (@calculate_returns_finite_prices calc64 prices).
  - simpl. lia.
  - intros p [<-|[<-|[<-|[]]]]; vm_compute; eauto.
Defined.

(** * Concentration: the largest weights of the report *)

Section ConcentrationFields.
Context {F : Type} `{Arith F}.
Variable DataFrame : Type.

(** The two concentration figures of a report, read off the weights of the
    valuation. *)
Lemma analyze_diversification_tops (self : PortfolioAnalyzer.t F DataFrame)
    (d : PortfolioAnalyzer.diversification F) :
  dict_wf (PortfolioAnalyzer.holdings self) ->
  fst (PortfolioAnalyzer.analyze_diversification self) = Ok d ->
  let sorted_weights :=
    sorted_desc
      (dict_values (current_weights_of (PortfolioAnalyzer.fetcher self)
                      (PortfolioAnalyzer.holdings self))) in
  PortfolioAnalyzer.top_position_weight d
  = match sorted_weights with
    | w :: _ => w
    | [] => of_Z 0
    end /\
  PortfolioAnalyzer.top_3_weight d
  = if (3 <=? List.length sorted_weights)%nat
    then py_sum (firstn 3 sorted_weights)
    else py_sum sorted_weights.
Proof.
  intros Hwf.
  unfold PortfolioAnalyzer.analyze_diversification, PortfolioAnalyzer.bind.
  rewrite (calculate_portfolio_value_closed self eq_refl Hwf).
  unfold PortfolioAnalyzer.get_self, PortfolioAnalyzer.lift at 1.
  destruct (PortfolioAnalyzer.for_each _ _ _) as [sectors|e];
    [|discriminate].
  unfold valuation_of at 1. cbn [PortfolioAnalyzer.positions].
  rewrite (weights_list_weighted
             (fun p => fdiv (PortfolioAnalyzer.p_position_value p)
                         (total_of (entries (PortfolioAnalyzer.fetcher
                                               self)
                                      (PortfolioAnalyzer.holdings
                                         self))))).
  unfold PortfolioAnalyzer.lift, PortfolioAnalyzer.ret. cbn [fst].
  intros Hd. injection Hd as <-.
  cbn [PortfolioAnalyzer.top_position_weight
       PortfolioAnalyzer.top_3_weight].
  assert (Hws :
    map (fun e => fdiv (PortfolioAnalyzer.p_position_value (snd e))
                    (total_of (entries (PortfolioAnalyzer.fetcher self)
                                 (PortfolioAnalyzer.holdings self))))
        (entries (PortfolioAnalyzer.fetcher self)
           (PortfolioAnalyzer.holdings self))
    = dict_values (current_weights_of (PortfolioAnalyzer.fetcher self)
                     (PortfolioAnalyzer.holdings self))).
  { unfold current_weights_of, dict_values. rewrite map_map.
    apply map_ext. now intros [ticker p]. }
  rewrite Hws. now split.
Qed.
End ConcentrationFields.

Section SortedExact.
Local Open Scope Qc_scope.

Lemma insert_desc_exact (q : Qc) (l : list Qc) :
  exists l',
    insert_desc (XR.XFin q) (map XR.XFin l) = map XR.XFin l' /\
    Permutation (q :: l) l' /\
    (StronglySorted (fun a b => b <= a) l ->
     StronglySorted (fun a b => b <= a) l').
Proof.
  induction l as [|h t IH].
  - exists [q]. split; [reflexivity|]. split; [apply Permutation_refl|].
    intros _. repeat constructor.
  - destruct IH as (l' & Hins & Hperm & Hsorted).
    cbn [map insert_desc fltb xreal_arith XR.ltb].
    destruct (XR.Qc_ltb q h) eqn:E.
    + exists (h :: l'). split; [now rewrite Hins|]. split.
      * eapply Permutation_trans; [apply perm_swap|now apply perm_skip].
      * intros Hs. apply StronglySorted_inv in Hs. destruct Hs as [Hs Hh].
        constructor; [now apply Hsorted|].
        apply (Permutation_Forall Hperm). constructor; [|exact Hh].
        apply Qclt_le_weak. now apply Qc_ltb_lt.
    + exists (q :: h :: t). split; [reflexivity|].
      split; [apply Permutation_refl|].
      intros Hs. constructor; [exact Hs|].
      assert (Hhq : h <= q).
      { apply Qcnot_lt_le. intros Hlt.
        apply (proj2 (Qc_ltb_lt q h)) in Hlt. congruence. }
      constructor; [exact Hhq|].
      apply StronglySorted_inv in Hs. destruct Hs as [_ Hh].
      eapply Forall_impl; [|exact Hh].
      intros x Hx. simpl in Hx. now apply Qcle_trans with h.
Qed.

Lemma sorted_desc_exact (l : list Qc) :
  exists l',
    sorted_desc (map XR.XFin l) = map XR.XFin l' /\
    Permutation l l' /\
    StronglySorted (fun a b => b <= a) l'.
Proof.
  induction l as [|q t IH].
  - exists []. split; [reflexivity|]. split; constructor.
  - destruct IH as (t' & Hsort & Hperm & Hsorted).
    destruct (insert_desc_exact q t') as (l' & Hins & Hperm' & Hsorted').
    exists l'. unfold sorted_desc in *. cbn [map fold_right].
    rewrite Hsort, Hins. split; [reflexivity|]. split.
    + eapply Permutation_trans; [|exact Hperm']. now apply perm_skip.
    + now apply Hsorted'.
Qed.

Lemma Qc_sum_permutation (l l' : list Qc) :
  Permutation l l' -> Qc_sum l = Qc_sum l'.
Proof.
  induction 1 as [|x l l' _ IH|x y l|l l' l'' _ IH1 _ IH2].
  - reflexivity.
  - unfold Qc_sum in *. simpl. now rewrite IH.
  - unfold Qc_sum. simpl. ring.
  - congruence.
Qed.

Lemma Qc_sum_shares (total : Qc) (qs : list Qc) :
  total <> 0 ->
  Qc_sum (map (fun q => q / total) qs) = Qc_sum qs / total.
Proof.
  intros Hne. induction qs as [|q t IH].
  - cbn [map]. change (Qc_sum []) with 0. now field.
  - cbn [map]. change (Qc_sum (q / total :: map (fun q => q / total) t))
      with (q / total + Qc_sum (map (fun q => q / total) t)).
    change (Qc_sum (q :: t)) with (q + Qc_sum t).
    rewrite IH. now field.
Qed.
End SortedExact.

Section Concentration.
Variable DataFrame : Type.
Local Open Scope Qc_scope.

(** X19.  In exact arithmetic, when the resolved positions have finite
    prices and share counts and a total value other than zero, the
    [top_position_weight] of the report is the weight of some position and
    no position weighs more; and with at most three positions the
    [top_3_weight] is exactly 1, so that the score always loses the point
    for the concentration of the top three. *)
Theorem top_position_is_largest_weight
    (self : PortfolioAnalyzer.t XR.xreal DataFrame)
    (d : PortfolioAnalyzer.diversification XR.xreal) :
  dict_wf (PortfolioAnalyzer.holdings self) ->
  (forall ticker h p,
     In (ticker, h) (PortfolioAnalyzer.holdings self) ->
     StockDataFetcher.get_current_price (PortfolioAnalyzer.fetcher self)
       ticker = Some p ->
     truthy p = true ->
     XR.finite p = true /\ XR.finite (PortfolioAnalyzer.h_shares h) = true) ->
  feqb (PortfolioAnalyzer.total_value
          (valuation_of (PortfolioAnalyzer.fetcher self)
             (PortfolioAnalyzer.holdings self)))
       (of_Z 0) = false ->
  fst (PortfolioAnalyzer.analyze_diversification self) = Ok d ->
  let weights :=
    current_weights_of (PortfolioAnalyzer.fetcher self)
      (PortfolioAnalyzer.holdings self) in
  (exists ticker,
     dict_get ticker weights
     = Some (PortfolioAnalyzer.top_position_weight d)) /\
  (forall ticker w,
     dict_get ticker weights = Some w ->
     fltb (PortfolioAnalyzer.top_position_weight d) w = false) /\
  ((List.length weights <= 3)%nat ->
   PortfolioAnalyzer.top_3_weight d = of_Z 1 /\
   fgtb (PortfolioAnalyzer.top_3_weight d) (of_decimal 70 2) = true).
Proof.
  intros Hwf Hfin Hnz Hd weights.
  destruct (analyze_diversification_tops self Hwf Hd) as [Htop Htop3].
  fold weights in Htop, Htop3.
  set (f := PortfolioAnalyzer.fetcher self) in *.
  set (hs := PortfolioAnalyzer.holdings self) in *.
  destruct (values_of_finite f hs Hfin) as [qs Hqs].
  assert (Htotal : total_of (entries f hs)
                   = XR.XFin (XR.Qc_of_Z 0 + Qc_sum qs)).
  { unfold total_of, py_sum. rewrite Hqs.
    change (of_Z 0) with (XR.XFin (XR.Qc_of_Z 0)). apply xr_sum_finite. }
  unfold valuation_of in Hnz. cbn [PortfolioAnalyzer.total_value] in Hnz.
  rewrite Htotal in Hnz.
  assert (Hne : XR.Qc_of_Z 0 + Qc_sum qs <> 0)
    by (apply is_zero_false; exact Hnz).
  set (total := XR.Qc_of_Z 0 + Qc_sum qs) in *.
  assert (Hws : dict_values weights
                = map XR.XFin (map (fun q => q / total) qs)).
  { subst weights. unfold current_weights_of, dict_values.
    rewrite !map_map, Htotal.
    transitivity (map (fun v => XR.div v (XR.XFin total))
                      (values_of (entries f hs))).
    - unfold values_of. rewrite map_map. apply map_ext. now intros [t p].
    - rewrite Hqs, map_map. apply map_ext. intros q.
      now apply xr_div_finite. }
  assert (Hkeys : NoDup (dict_keys weights)).
  { subst weights. unfold current_weights_of, dict_keys.
    rewrite map_map.
    replace (map (fun x => fst (let '(ticker, p) := x in
                                (ticker,
                                 fdiv (PortfolioAnalyzer.p_position_value p)
                                      (total_of (entries f hs)))))
                 (entries f hs))
      with (dict_keys (entries f hs))
      by (unfold dict_keys; apply map_ext; now intros [t p]).
    rewrite entries_keys. now apply NoDup_filter. }
  destruct (sorted_desc_exact (map (fun q => q / total) qs))
    as (sorted & Hsort & Hperm & Hsorted).
  rewrite Hws, Hsort in Htop, Htop3.
  assert (Hsum : Qc_sum sorted = 1).
  { rewrite <- (Qc_sum_permutation Hperm), (Qc_sum_shares qs Hne).
    subst total. rewrite Qc_of_Z_0, Qcplus_0_l in *. now field. }
  destruct sorted as [|top rest].
  { exfalso. change (Qc_sum []) with 0 in Hsum. discriminate Hsum. }
  cbn [map] in Htop. split; [|split].
  - assert (Hin : In (XR.XFin top) (dict_values weights)).
    { rewrite Hws. apply in_map.
      apply (Permutation_in _ (Permutation_sym Hperm)). now left. }
    unfold dict_values in Hin. apply in_map_iff in Hin.
    destruct Hin as ([ticker w] & Hw & Hin). simpl in Hw. subst w.
    exists ticker. rewrite Htop. now apply dict_get_in.
  - intros ticker w Hget. apply dict_get_some_in in Hget.
    assert (Hin : In w (dict_values weights)).
    { unfold dict_values. change w with (snd (ticker, w)).
      now apply in_map. }
    rewrite Hws in Hin. apply in_map_iff in Hin.
    destruct Hin as (x & <- & Hx).
    apply (Permutation_in _ Hperm) in Hx.
    rewrite Htop. cbn [fltb xreal_arith XR.ltb].
    destruct (XR.Qc_ltb top x) eqn:E; [|reflexivity].
    apply Qc_ltb_lt in E. exfalso.
    destruct Hx as [<-|Hx]; [now apply Qclt_not_eq in E|].
    apply StronglySorted_inv in Hsorted. destruct Hsorted as [_ Hall].
    rewrite Forall_forall in Hall.
    now apply (Qcle_not_lt _ _ (Hall x Hx)).
  - intros Hlen.
    assert (Hlen' : (List.length (map XR.XFin (top :: rest)) <= 3)%nat).
    { rewrite length_map, <- (Permutation_length Hperm), length_map.
      apply (f_equal (@List.length XR.xreal)) in Hws.
      unfold dict_values in Hws. rewrite !length_map in Hws. lia. }
    assert (Hall : PortfolioAnalyzer.top_3_weight d = XR.XFin 1).
    { rewrite Htop3.
      destruct (3 <=? List.length (map XR.XFin (top :: rest)))%nat;
        [rewrite firstn_all2 by exact Hlen'|];
        unfold py_sum; change (of_Z 0) with (XR.XFin (XR.Qc_of_Z 0));
        rewrite xr_sum_finite, Hsum, Qc_of_Z_0; f_equal; ring. }
    rewrite Hall. split; reflexivity.
Qed.
End Concentration.

Lemma top_position_is_largest_weight_witness :
  let self := portfolioX [("AAPL"%string, 5%Z, Some 150%Z);
                          ("MSFT"%string, 3%Z, None);
                          ("JPM"%string, 4%Z, None)] in
  let weights :=
    current_weights_of (PortfolioAnalyzer.fetcher self)
      (PortfolioAnalyzer.holdings self) in
  exists d,
    fst (PortfolioAnalyzer.analyze_diversification self) = Ok d /\
    (exists ticker,
       dict_get ticker weights
       = Some (PortfolioAnalyzer.top_position_weight d)) /\
    (forall ticker w,
       dict_get ticker weights = Some w ->
       fltb (PortfolioAnalyzer.top_position_weight d) w = false) /\
    ((List.length weights <= 3)%nat ->
     PortfolioAnalyzer.top_3_weight d = of_Z 1 /\
     fgtb (PortfolioAnalyzer.top_3_weight d) (of_decimal 70 2) = true).
Proof.
  intros self weights.
  destruct (fst (PortfolioAnalyzer.analyze_diversification self))
    as [d|e] eqn:Hd; [|vm_compute in Hd; discriminate Hd].
  exists d. split; [reflexivity|].
  apply (top_position_is_largest_weight self).
  - apply sample_portfolio_wf.
  - intros ticker h p Hin Hp Ht.
    destruct Hin as [Heq|[Heq|[Heq|[]]]]; inversion Heq; subst ticker h;
      vm_compute in Hp; inversion Hp; subst p; split; reflexivity.
  - vm_compute. reflexivity.
  - exact Hd.
Defined.
